(** * Detention dashboard: normalisation and aggregation

    A shallow embedding of [detention_dashboard_app.py]: the loaders, the
    two [prepare_*] normalisers, the two [render_*] dashboards and [main],
    together with the part of Python's [str] and of pandas they rely on.

    Conventions of the embedding.
    - Python strings are [string]s of characters below 128; case folding
      and whitespace are the ASCII ones.
    - A [DataFrame] is an ordered list of columns labelled by texts, the
      header row of a sheet; labels may be repeated, as pandas allows.
    - Python exceptions are values of [exn]; a function that may raise
      returns an [outcome].
    - Streamlit calls append [widget]s to the page; frames live in an
      object store addressed by references, so that in-place updates of a
      caller's frame are visible.
    - The float quotient [a / b] is kept as the exact fraction.
    - The non-breaking hyphen of the page texts is written [-].
    - pandas is the one of the 3.x series: [pd.to_datetime] reads a
      column of texts in the format of its first value and refuses
      values of different time zones, a column of texts has a string
      dtype, and [value_counts] names its count column [count]. *)

From Stdlib Require Import String Ascii List ZArith Lia Bool Arith PeanoNat.
From Stdlib Require Import QArith Permutation Sorted DecimalString.
Import ListNotations.

Open Scope string_scope.
Open Scope list_scope.
Open Scope nat_scope.

(* ================================================================== *)
(** * Python [str] *)
(* ================================================================== *)

Module PyStr.

(** [c.isspace()] for a character below 128: tab, line feed, vertical tab,
    form feed, carriage return, the four separators 28..31 and space. *)
Definition isspace (c : ascii) : bool :=
  let n := nat_of_ascii c in
  ((9 <=? n) && (n <=? 13)) || ((28 <=? n) && (n <=? 32)).

Fixpoint lstrip (s : string) : string :=
  match s with
  | EmptyString => EmptyString
  | String c s' => if isspace c then lstrip s' else s
  end.

Fixpoint rstrip (s : string) : string :=
  match s with
  | EmptyString => EmptyString
  | String c s' =>
      match rstrip s' with
      | EmptyString => if isspace c then EmptyString else String c EmptyString
      | r => String c r
      end
  end.

(** [s.strip()] *)
Definition strip (s : string) : string := rstrip (lstrip s).

Definition lower_char (c : ascii) : ascii :=
  let n := nat_of_ascii c in
  if (65 <=? n) && (n <=? 90) then ascii_of_nat (n + 32) else c.

(** [s.lower()] *)
Fixpoint lower (s : string) : string :=
  match s with
  | EmptyString => EmptyString
  | String c s' => String (lower_char c) (lower s')
  end.

(** [sub in s] *)
Fixpoint contains (sub s : string) : bool :=
  String.prefix sub s ||
  match s with
  | EmptyString => false
  | String _ s' => contains sub s'
  end.

(** [s.endswith(suf)] *)
Fixpoint endswith (suf s : string) : bool :=
  String.eqb s suf ||
  match s with
  | EmptyString => false
  | String _ s' => endswith suf s'
  end.

Fixpoint drop (n : nat) (s : string) : string :=
  match n, s with
  | O, _ => s
  | S _, EmptyString => EmptyString
  | S k, String _ s' => drop k s'
  end.

(** [s.partition(sep)]: the text before the first occurrence of [sep] and,
    when there is one, the text after it. *)
Fixpoint partition (sep s : string) : string * option string :=
  if String.prefix sep s then (EmptyString, Some (drop (String.length sep) s))
  else
    match s with
    | EmptyString => (EmptyString, None)
    | String c s' =>
        let '(a, r) := partition sep s' in (String c a, r)
    end.

Fixpoint split_fuel (fuel : nat) (sep s : string) : list string :=
  match partition sep s with
  | (a, None) => [a]
  | (a, Some r) =>
      match fuel with
      | O => [a; r]
      | S k => a :: split_fuel k sep r
      end
  end.

(** [s.split(sep)] for a non-empty separator: the pieces between the
    successive, non-overlapping occurrences of [sep], scanned from the
    left.  Each occurrence removes at least one character, so the length
    of [s] bounds the number of cuts. *)
Definition split (sep s : string) : list string :=
  split_fuel (String.length s) sep s.

(** The regular expression search [re.compile(pat, re.IGNORECASE).search(s)]
    for a pattern of literal characters: [pat] matches at the head of [s]
    when the characters agree up to case. *)
Fixpoint imatch (pat s : string) : bool :=
  match pat, s with
  | EmptyString, _ => true
  | String _ _, EmptyString => false
  | String p pat', String c s' =>
      Ascii.eqb (lower_char p) (lower_char c) && imatch pat' s'
  end.

Fixpoint isearch (pat s : string) : bool :=
  imatch pat s ||
  match s with
  | EmptyString => false
  | String _ s' => isearch pat s'
  end.

End PyStr.

(* ================================================================== *)
(** * Exceptions *)
(* ================================================================== *)

Inductive exn : Type :=
| KeyError | IndexError | ValueError | AttributeError | TypeError
| IOError.

Inductive outcome (A : Type) : Type :=
| Ok (a : A)
| Raise (e : exn).
Arguments Ok {A} a.
Arguments Raise {A} e.

Definition obind {A B} (o : outcome A) (k : A -> outcome B) : outcome B :=
  match o with
  | Ok a => k a
  | Raise e => Raise e
  end.

(** [l[i]] on a Python list, for [i >= 0]. *)
Definition list_getitem {A} (l : list A) (i : nat) : outcome A :=
  match nth_error l i with
  | Some a => Ok a
  | None => Raise IndexError
  end.

(* ================================================================== *)
(** * The part of pandas the program uses *)
(* ================================================================== *)

Module Pandas.

(** A timestamp: the ordinal of its calendar day and the nanoseconds
    elapsed since midnight.  [t.date()] keeps the day. *)
Record timestamp : Type := { ts_day : Z; ts_ns : Z }.

(** A cell of a frame.  [Null] stands for NaN, None and NaT alike; [Num]
    carries the integral numbers. *)
Inductive cell : Type :=
| Null
| Str (s : string)
| Num (z : Z)
| Time (t : timestamp).

Definition Series : Type := list cell.

Definition timestamp_eq_dec (a b : timestamp) : {a = b} + {a <> b}.
Proof. decide equality; apply Z.eq_dec. Defined.

Definition cell_eq_dec (a b : cell) : {a = b} + {a <> b}.
Proof.
  decide equality;
    [apply string_dec | apply Z.eq_dec | apply timestamp_eq_dec].
Defined.

Definition cell_eqb (a b : cell) : bool :=
  if cell_eq_dec a b then true else false.

Definition isna (c : cell) : bool :=
  match c with Null => true | _ => false end.

Definition notna (c : cell) : bool := negb (isna c).

(** The order in which [groupby] presents its keys: numbers first, in
    increasing order, then strings by code point, then timestamps. *)
Definition timestamp_leb (a b : timestamp) : bool :=
  (ts_day a <? ts_day b)%Z ||
  ((ts_day a =? ts_day b)%Z && (ts_ns a <=? ts_ns b)%Z).

Definition cell_rank (c : cell) : nat :=
  match c with
  | Num _ => 0
  | Str _ => 1
  | Time _ => 2
  | Null => 3
  end.

Definition cell_leb (a b : cell) : bool :=
  match a, b with
  | Num x, Num y => (x <=? y)%Z
  | Str x, Str y => String.leb x y
  | Time x, Time y => timestamp_leb x y
  | _, _ => cell_rank a <=? cell_rank b
  end.

(** ** Frames *)

Record DataFrame : Type :=
  { nrows : nat;                          (* [len(df)] *)
    cols : list (string * Series) }.      (* labelled columns, in order *)

Definition labels (df : DataFrame) : list string := map fst (cols df).

(** Every column has one cell per row. *)
Definition well_formed (df : DataFrame) : Prop :=
  forall c, In c (cols df) -> List.length (snd c) = nrows df.

(** [df.empty]: some axis has length zero. *)
Definition empty (df : DataFrame) : bool :=
  (nrows df =? 0) || (List.length (cols df) =? 0).

(** [label in df.columns] *)
Definition has_column (df : DataFrame) (label : string) : bool :=
  existsb (String.eqb label) (labels df).

(** [df.columns = new_labels], for as many labels as columns. *)
Definition set_labels (df : DataFrame) (f : string -> string) : DataFrame :=
  {| nrows := nrows df;
     cols := map (fun c => (f (fst c), snd c)) (cols df) |}.

(** [df.columns.str]: an index of labels has the accessor; the index of
    a frame without columns is a range of integers and has none. *)
Definition index_str (ls : list string) : outcome (list string) :=
  match ls with
  | [] => Raise AttributeError
  | _ :: _ => Ok ls
  end.

(** [mapping.get(k, k)] for a dict given by its items. *)
Fixpoint dict_get (m : list (string * string)) (k : string) : string :=
  match m with
  | [] => k
  | (k', v) :: m' => if String.eqb k k' then v else dict_get m' k
  end.

(** [df.rename(columns=mapping)]: a new frame. *)
Definition rename (df : DataFrame) (m : list (string * string)) : DataFrame :=
  set_labels df (dict_get m).

(** [df[label]]: no column, one column, or, for a repeated label, the
    sub-frame of all the columns that carry it. *)
Inductive selection : Type :=
| NoColumn
| OneColumn (s : Series)
| SubFrame (ss : list Series).

Definition select (df : DataFrame) (label : string) : selection :=
  match filter (fun c => String.eqb (fst c) label) (cols df) with
  | [] => NoColumn
  | [c] => OneColumn (snd c)
  | cs => SubFrame (map snd cs)
  end.

(** [df[label]] used where a Series is needed: a missing label raises
    [KeyError]; on a sub-frame the Series operation at the use site fails
    with the exception [e] of that site. *)
Definition getitem (e : exn) (df : DataFrame) (label : string)
  : outcome Series :=
  match select df label with
  | NoColumn => Raise KeyError
  | OneColumn s => Ok s
  | SubFrame _ => Raise e
  end.

(** [df[label] = s] for a label that occurs at most once: replace the
    column, or append it. *)
Fixpoint replace_column (cs : list (string * Series)) (label : string)
  (s : Series) : list (string * Series) :=
  match cs with
  | [] => [(label, s)]
  | c :: cs' =>
      if String.eqb (fst c) label then (label, s) :: cs'
      else c :: replace_column cs' label s
  end.

Definition setitem (df : DataFrame) (label : string) (s : Series)
  : DataFrame :=
  {| nrows := nrows df; cols := replace_column (cols df) label s |}.

(** ** Element-wise operations *)

(** [series.astype(str)] turns every cell into its text; the text of a
    missing value is ["nan"].  The texts of numbers and timestamps are
    given by [show_num] and [show_time]. *)
Section AsType.

Variable show_num : Z -> string.
Variable show_time : timestamp -> string.

Definition to_text (c : cell) : string :=
  match c with
  | Null => "nan"
  | Str s => s
  | Num z => show_num z
  | Time t => show_time t
  end.

End AsType.

(** [series == text], element-wise. *)
Definition eq_text (text : string) (c : cell) : bool :=
  match c with
  | Str s => String.eqb s text
  | _ => false
  end.

(** [series.str]: the accessor exists for a column that holds some
    string; a column of numbers, timestamps or missing values only has
    none. *)
Definition str_accessor (s : Series) : outcome Series :=
  if existsb (fun c => match c with Str _ => true | _ => false end) s
  then Ok s else Raise AttributeError.

(** [series.str.contains(pat, na=False)] for a pattern of literal
    characters, element-wise: a cell that is not a string gives the
    [na] value. *)
Definition str_contains (pat : string) (c : cell) : bool :=
  match c with
  | Str s => PyStr.contains pat s
  | _ => false
  end.

Definition is_text (c : cell) : bool :=
  match c with Str _ => true | _ => false end.

Definition is_time (c : cell) : bool :=
  match c with Time _ => true | _ => false end.

(** A column of texts and missing values has a string dtype, a column
    of timestamps and missing values a datetime dtype.  A column of
    missing values only is a column of floats. *)
Definition text_dtype (s : Series) : bool :=
  existsb is_text s && forallb (fun c => is_text c || isna c) s.

Definition datetime_dtype (s : Series) : bool :=
  existsb is_time s && forallb (fun c => is_time c || isna c) s.

(** [series.dt.date]: needs a column of timestamps. *)
Fixpoint dt_date (s : Series) : outcome (list Z) :=
  match s with
  | [] => Ok []
  | Time t :: s' => obind (dt_date s') (fun ds => Ok (ts_day t :: ds))
  | _ :: _ => Raise AttributeError
  end.

(** [a / b] on integer columns: a float. *)
Inductive quotient : Type :=
| Finite (q : Q)
| Infinite
| NotANumber.

Definition truediv (a b : nat) : quotient :=
  match b with
  | O => if a =? 0 then NotANumber else Infinite
  | S _ => Finite (Z.of_nat a # Pos.of_nat b)
  end.

(** ** Reading dates *)

(** What [pd.to_datetime] relies on to read one value: the format it
    reads off a text, the reading of a text in a format, the reading of
    a text on its own, the UTC offset a text names, if any, and the text
    [str(n)] of a number.  The timestamp read is the wall time the text
    names; an offset is told by [utc_offset] alone. *)
Record datetime_parser : Type :=
  { guess_format : string -> option string;
    strptime : string -> string -> option timestamp;
    parse_one : string -> option timestamp;
    utc_offset : string -> option Z;
    number_text : Z -> string }.

Definition zone_eqb (a b : option Z) : bool :=
  match a, b with
  | Some x, Some y => (x =? y)%Z
  | None, None => true
  | _, _ => false
  end.

(** The values read are all of one time zone. *)
Definition same_zone (zs : list (option Z)) : bool :=
  match zs with
  | [] => true
  | z :: zs' => forallb (zone_eqb z) zs'
  end.

(** The texts [pd.to_datetime] takes for a missing value. *)
Definition nat_strings : list string :=
  ["NaT"; "nat"; "NAT"; "nan"; "NaN"; "NAN"].

Definition null_text (s : string) : bool :=
  (String.length s =? 0) || existsb (String.eqb s) nat_strings.

(** The first value of a column that is not missing. *)
Fixpoint first_valid (s : Series) : option cell :=
  match s with
  | [] => None
  | Null :: s' => first_valid s'
  | Str t :: s' => if null_text t then first_valid s' else Some (Str t)
  | c :: _ => Some c
  end.

(** The integers that count nanoseconds: 64 bits, the least of which
    stands for NaT. *)
Definition int64_min : Z := - 2 ^ 63.
Definition int64_max : Z := 2 ^ 63 - 1.

Definition ns_per_day : Z := 86400000000000.

Definition epoch_cell (z : Z) : cell :=
  if (int64_min <? z)%Z && (z <=? int64_max)%Z
  then Time {| ts_day := z / ns_per_day; ts_ns := z mod ns_per_day |}
  else Null.

(** ** Grouping *)

Section GroupBy.

Context {K : Type}.
Variable K_eq_dec : forall a b : K, {a = b} + {a <> b}.
Variable K_leb : K -> K -> bool.

Fixpoint insert_sorted (k : K) (ks : list K) : list K :=
  match ks with
  | [] => [k]
  | k' :: ks' =>
      if K_leb k k' then k :: ks else k' :: insert_sorted k ks'
  end.

Fixpoint sort_keys (ks : list K) : list K :=
  match ks with
  | [] => []
  | k :: ks' => insert_sorted k (sort_keys ks')
  end.

(** The group keys: the distinct keys, sorted. *)
Definition group_keys (ks : list K) : list K :=
  sort_keys (nodup K_eq_dec ks).

(** [groupby(key)]: each key with its rows, in row order. *)
Definition groupby {R : Type} (key : R -> K) (rows : list R)
  : list (K * list R) :=
  map (fun k =>
         (k, filter (fun r => if K_eq_dec (key r) k then true else false)
               rows))
      (group_keys (map key rows)).

End GroupBy.

(** [series.count()]: the cells that are not missing. *)
Definition count_notna (s : Series) : nat := List.length (filter notna s).

(** The distinct values of a column, in the order in which they first
    appear. *)
Fixpoint first_seen (s : Series) : list cell :=
  match s with
  | [] => []
  | c :: s' => c :: filter (fun x => negb (cell_eqb x c)) (first_seen s')
  end.

(** [series.value_counts()]: the distinct values that are not missing,
    each with its number of occurrences, most frequent first; values
    that occur equally often stay in the order of their first
    appearance. *)
Definition value_counts (s : Series) : list (cell * nat) :=
  let present := filter notna s in
  sort_keys (fun a b : cell * nat => snd b <=? snd a)
    (map (fun v => (v, count_occ cell_eq_dec present v))
       (first_seen present)).

End Pandas.

(* ================================================================== *)
(** * The page, the object store and the outside world *)
(* ================================================================== *)

Import Pandas.

(** A row of a detentions breakdown: the group key, [Issued],
    [Attended] and [Attendance Rate]. *)
Record detention_group (K : Type) : Type :=
  { g_key : K; g_issued : nat; g_attended : nat; g_rate : quotient }.
Arguments g_key {K} d.
Arguments g_issued {K} d.
Arguments g_attended {K} d.
Arguments g_rate {K} d.

(** The tables handed to [st.dataframe] and to the charts.  A calendar
    date is the ordinal of its day. *)
Inductive table : Type :=
| YearTable (rows : list (detention_group cell))
| DailyDetentionTable (rows : list (detention_group Z))
| TypeTable (rows : list (cell * nat))
| DailyIncidentTable (rows : list (Z * nat)).

Inductive metric_value : Type :=
| MCount (n : nat)
| MPercent (q : quotient).       (* shown with the format [.1%] *)

(** What Streamlit has been asked to put on the page. *)
Inductive widget : Type :=
| Title (s : string)
| Write (s : string)
| Subheader (s : string)
| Markdown (s : string)
| Header (s : string)
| Columns (n : nat)
| FileUploader (label : string) (types : list string) (key : string)
| TextInput (label placeholder key : string)
| Info (s : string)
| Warning (s : string)
| Error (s : string) (exc : option exn)
| Metric (label : string) (v : metric_value)
| Expander (label : string)
| Dataframe (t : table)
| AltairChart (t : table).

Record UploadedFile : Type := { name : string; content : string }.

Inductive source : Type :=
| FromFile (f : UploadedFile)
| FromUrl (url : string).

(** The calls made to the pandas readers. *)
Inductive request : Type :=
| ReadCsv (src : source)
| ReadExcel (src : source).

(** A reference to a frame object. *)
Definition ref : Type := nat.

Record World : Type :=
  { objects : list DataFrame;       (* the frame objects, by reference *)
    page : list widget;             (* the widgets, in order *)
    requests : list request }.      (* the reads, in order *)

Definition start : World :=
  {| objects := []; page := []; requests := [] |}.

(** A computation: it changes the world and returns or raises. *)
Definition M (A : Type) : Type := World -> World * outcome A.

Definition ret {A} (a : A) : M A := fun w => (w, Ok a).

Definition raise {A} (e : exn) : M A := fun w => (w, Raise e).

Definition bind {A B} (m : M A) (k : A -> M B) : M B :=
  fun w =>
    match m w with
    | (w', Ok a) => k a w'
    | (w', Raise e) => (w', Raise e)
    end.

(** [try: m except Exception as exc: h exc] *)
Definition try_except {A} (m : M A) (h : exn -> M A) : M A :=
  fun w =>
    match m w with
    | (w', Ok a) => (w', Ok a)
    | (w', Raise e) => h e w'
    end.

Definition lift {A} (o : outcome A) : M A := fun w => (w, o).

Declare Scope py_scope.
Delimit Scope py_scope with py.
Notation "x <- m ;; k" := (bind m (fun x => k))
  (at level 100, m at next level, right associativity) : py_scope.
Notation "m ;; k" := (bind m (fun _ => k))
  (at level 100, right associativity) : py_scope.
Open Scope py_scope.

Definition emit (x : widget) : M unit :=
  fun w =>
    ({| objects := objects w; page := page w ++ [x];
        requests := requests w |}, Ok tt).

Definition empty_frame : DataFrame := {| nrows := 0; cols := [] |}.

(** Create a frame object. *)
Definition alloc (df : DataFrame) : M ref :=
  fun w =>
    ({| objects := objects w ++ [df]; page := page w;
        requests := requests w |}, Ok (List.length (objects w))).

(** The frame a reference points to. *)
Definition deref (r : ref) : M DataFrame :=
  fun w => (w, Ok (nth r (objects w) empty_frame)).

Fixpoint update_nth {A} (l : list A) (i : nat) (a : A) : list A :=
  match l, i with
  | [], _ => []
  | _ :: l', O => a :: l'
  | x :: l', S j => x :: update_nth l' j a
  end.

(** Update a frame object in place. *)
Definition mutate (r : ref) (f : DataFrame -> DataFrame) : M unit :=
  fun w =>
    ({| objects :=
          update_nth (objects w) r (f (nth r (objects w) empty_frame));
        page := page w; requests := requests w |}, Ok tt).

Definition log_request (q : request) : M unit :=
  fun w =>
    ({| objects := objects w; page := page w;
        requests := requests w ++ [q] |}, Ok tt).

(** [for x in xs: body x] *)
Fixpoint for_each {A} (xs : list A) (body : A -> M unit) : M unit :=
  match xs with
  | [] => ret tt
  | x :: xs' => body x ;; for_each xs' body
  end.

(* ================================================================== *)
(** * The application *)
(* ================================================================== *)

Section App.

(** The pandas readers, the date parser behind [pd.to_datetime] and the
    texts of numbers and timestamps are not part of this program. *)
Variable read_csv : source -> outcome DataFrame.
Variable read_excel : source -> outcome DataFrame.
Variable parse_datetime : datetime_parser.
Variable show_num : Z -> string.
Variable show_time : timestamp -> string.

Definition pd_read_csv (src : source) : M ref :=
  log_request (ReadCsv src) ;;
  df <- lift (read_csv src) ;;
  alloc df.

Definition pd_read_excel (src : source) : M ref :=
  log_request (ReadExcel src) ;;
  df <- lift (read_excel src) ;;
  alloc df.

(** ** Loaders *)

Definition load_data_from_file (uploaded_file : option UploadedFile)
  : M (option ref) :=
  match uploaded_file with
  | None => ret None
  | Some f =>
      try_except
        (let filename := PyStr.lower (name f) in
         if PyStr.endswith ".csv" filename then
           (r <- pd_read_csv (FromFile f) ;; ret (Some r))
         else if PyStr.endswith ".xlsx" filename
                 || PyStr.endswith ".xls" filename then
           (r <- pd_read_excel (FromFile f) ;; ret (Some r))
         else
           (emit (Error
              "Unsupported file format. Please upload a CSV or Excel file."
              None) ;;
            ret None))
        (fun exc => emit (Error "Error reading file: " (Some exc)) ;;
                    ret None)
  end.

(** The rewriting of a Google Sheets edit link into its CSV export, on
    the trimmed URL; the inner [try] leaves the URL as it is when an
    index is out of range. *)
Definition google_sheets_export (url : string) : string :=
  if PyStr.contains "docs.google.com" url && PyStr.contains "/edit" url then
    match
      obind (list_getitem (PyStr.split "/d/" url) 1) (fun piece =>
      obind (list_getitem (PyStr.split "/" piece) 0) (fun sheet_id =>
      Ok ("https://docs.google.com/spreadsheets/d/" ++ sheet_id
            ++ "/export?format=csv")%string))
    with
    | Ok rewritten => rewritten
    | Raise _ => url
    end
  else url.

Definition load_data_from_url (url : string) : M (option ref) :=
  if String.eqb url "" then ret None
  else
    try_except
      (let url := PyStr.strip url in
       let url := google_sheets_export url in
       let lower := PyStr.lower url in
       if PyStr.endswith ".xlsx" lower || PyStr.endswith ".xls" lower then
         (r <- pd_read_excel (FromUrl url) ;; ret (Some r))
       else
         (r <- pd_read_csv (FromUrl url) ;; ret (Some r)))
      (fun exc => emit (Error "Error loading data from URL: " (Some exc)) ;;
                  ret None).

(** ** Normalisers *)

(** One value read on its own under [errors='coerce']: a missing value
    or a text that does not parse gives NaT, a number counts nanoseconds
    from the first day. *)
Definition to_datetime_cell (c : cell) : cell :=
  match c with
  | Null => Null
  | Str s =>
      if null_text s then Null
      else
        match parse_one parse_datetime s with
        | Some t => Time t
        | None => Null
        end
  | Num z => epoch_cell z
  | Time t => Time t
  end.

(** One value read in the format [fmt] under [errors='coerce']: a text
    that does not match gives NaT; a number is read through its text. *)
Definition strptime_cell (fmt : string) (c : cell) : cell :=
  match c with
  | Null => Null
  | Str s =>
      if null_text s then Null
      else
        match strptime parse_datetime fmt s with
        | Some t => Time t
        | None => Null
        end
  | Num z =>
      if (z =? int64_min)%Z then Null
      else
        match strptime parse_datetime fmt (number_text parse_datetime z) with
        | Some t => Time t
        | None => Null
        end
  | Time t => Time t
  end.

(** The format of a column: the one read off its first value, when that
    is a text. *)
Definition column_format (s : Series) : option string :=
  match first_valid s with
  | Some (Str s0) => guess_format parse_datetime s0
  | _ => None
  end.

(** Every value of a column read in the format of the column, or on
    its own when the column has none. *)
Definition read_values (s : Series) : Series :=
  match column_format s with
  | Some fmt => map (strptime_cell fmt) s
  | None => map to_datetime_cell s
  end.

(** The time zone of a value that has been read: the UTC offset its text
    names, none for a text without one, for a number and for a
    timestamp.  A value that has become NaT has no zone. *)
Definition zone_of (c c' : cell) : list (option Z) :=
  match c' with
  | Time _ =>
      [match c with
       | Str t => utc_offset parse_datetime t
       | _ => None
       end]
  | _ => []
  end.

Definition zones (s : Series) : list (option Z) :=
  flat_map (fun p => zone_of (fst p) (snd p)) (combine s (read_values s)).

(** [pd.to_datetime(series, errors='coerce')]: the values as read;
    values read in different time zones raise [ValueError], which
    [errors='coerce'] does not cover. *)
Definition to_datetime_values (s : Series) : outcome Series :=
  if same_zone (zones s) then Ok (read_values s) else Raise ValueError.

(** [pd.to_datetime(df[col], errors='coerce')]; handed the sub-frame of a
    repeated label it raises [ValueError]. *)
Definition to_datetime (df : DataFrame) (col : string) : outcome Series :=
  obind (getitem ValueError df col) to_datetime_values.

Definition detentions_rename_map : list (string * string) :=
  [ ("Student", "Student");
    ("Year", "Year");
    ("Reg. Form", "Reg Form");
    ("House", "House");
    ("Reason", "Reason");
    ("Detention Type", "Detention Type");
    ("Issued Date", "Issued Date");
    ("Issued By", "Issued By");
    ("Detention Date", "Detention Date");
    ("Detention Attendance", "Detention Attendance") ].

Definition prepare_detentions (df : ref) : M ref :=
  (* df.columns = df.columns.str.strip() *)
  d <- deref df ;;
  lift (index_str (labels d)) ;;
  mutate df (fun d => set_labels d PyStr.strip) ;;
  (* df = df.rename(columns=rename_map) *)
  d <- deref df ;;
  df <- alloc (rename d detentions_rename_map) ;;
  d <- deref df ;;
  df <- (if negb (has_column d "Detention Attendance") then
           match filter (fun c => PyStr.contains "attendance" (PyStr.lower c))
                   (labels d) with
           | c0 :: _ => alloc (rename d [(c0, "Detention Attendance")])
           | [] => ret df
           end
         else ret df) ;;
  for_each ["Issued Date"; "Detention Date"] (fun col =>
    d <- deref df ;;
    if has_column d col then
      (s <- lift (to_datetime d col) ;;
       mutate df (fun d => setitem d col s))
    else ret tt) ;;
  ret df.

Definition oncall_rename_map : list (string * string) :=
  [ ("Date/Time", "DateTime");
    ("Reported by", "Reported By");
    ("Location", "Location");
    ("Comments", "Comments");
    ("Type", "Type");
    ("Students involved", "Students");
    ("Event", "Event");
    ("Assigned to", "Assigned To");
    ("Status", "Status") ].

Definition prepare_oncall (df : ref) : M ref :=
  d <- deref df ;;
  df <- alloc (rename d oncall_rename_map) ;;
  d <- deref df ;;
  (if has_column d "DateTime" then
     (s <- lift (to_datetime d "DateTime") ;;
      mutate df (fun d => setitem d "DateTime" s))
   else ret tt) ;;
  ret df.

(** ** Detentions dashboard *)

(** [df['Detention Attendance'].astype(str).str.contains("Present",
    case=False, na=False)], one cell. *)
Definition attended_loose (c : cell) : bool :=
  PyStr.isearch "Present" (to_text show_num show_time c).

(** The headline count of attended detentions. *)
Definition headline_attended (df : DataFrame) : outcome nat :=
  if has_column df "Detention Attendance" then
    obind (getitem AttributeError df "Detention Attendance")
          (fun s => Ok (List.length (filter attended_loose s)))
  else Ok 0.

(** [.agg(Issued=('Student', 'count'),
          Attended=('Detention Attendance', lambda x: (x=='Present').sum()))]
    on one group, whose rows carry the key, the student and the
    attendance; then the rate column [Attended / Issued]. *)
Definition detention_agg {K : Type} (g : K * list (K * (cell * cell)))
  : detention_group K :=
  let issued := count_notna (map (fun r => fst (snd r)) (snd g)) in
  let attended :=
    List.length (filter (eq_text "Present")
                   (map (fun r => snd (snd r)) (snd g))) in
  {| g_key := fst g; g_issued := issued; g_attended := attended;
     g_rate := truediv attended issued |}.

(** The table of the groups with its rate column.  When there is no
    group the lambda is never called, [Attended] keeps the dtype of the
    attendance column, and its quotient by the integer column [Issued]
    raises [TypeError] for a column of texts or of timestamps. *)
Definition detention_table {K : Type} (attendance : Series)
  (groups : list (K * list (K * (cell * cell))))
  : outcome (list (detention_group K)) :=
  match groups with
  | [] =>
      if text_dtype attendance || datetime_dtype attendance
      then Raise TypeError else Ok []
  | _ :: _ => Ok (map detention_agg groups)
  end.

(** [df.groupby('Year').agg(...)]: rows without a Year belong to no
    group. *)
Definition year_breakdown (df : DataFrame)
  : outcome (list (detention_group cell)) :=
  obind (getitem ValueError df "Year") (fun year =>
  obind (getitem ValueError df "Student") (fun student =>
  obind (getitem ValueError df "Detention Attendance") (fun attendance =>
  let rows := filter (fun r => notna (fst r))
                (combine year (combine student attendance)) in
  detention_table attendance (groupby cell_eq_dec cell_leb fst rows)))).

(** [df.dropna(subset=['Issued Date'])
       .assign(Date=lambda x: x['Issued Date'].dt.date)
       .groupby('Date').agg(...)] *)
Definition daily_detentions (df : DataFrame)
  : outcome (list (detention_group Z)) :=
  obind (getitem AttributeError df "Issued Date") (fun issued =>
  obind (dt_date (filter notna issued)) (fun dates =>
  obind (getitem ValueError df "Student") (fun student =>
  obind (getitem ValueError df "Detention Attendance") (fun attendance =>
  let kept := map snd (filter (fun r => notna (fst r))
                         (combine issued (combine student attendance))) in
  detention_table attendance
    (groupby Z.eq_dec Z.leb fst (combine dates kept)))))).

(** [st.altair_chart(chart)]: the chart is turned into its
    specification, and a field that the encoding names without a type
    (here, in the tooltips) must be a column of the chart's table, or
    this raises [ValueError]. *)
Definition st_altair_chart (columns fields : list string) (t : table)
  : M unit :=
  if forallb (fun f => existsb (String.eqb f) columns) fields
  then emit (AltairChart t)
  else raise ValueError.

(** The columns of the two detentions tables after [reset_index] and
    the added rate. *)
Definition breakdown_columns (key : string) : list string :=
  [key; "Issued"; "Attended"; "Attendance Rate"].

Definition render_detentions_dashboard (df : DataFrame) : M unit :=
  emit (Header "Detentions Dashboard") ;;
  if empty df then emit (Info "No detentions data available.")
  else
    let total_detentions := nrows df in
    attended <- lift (headline_attended df) ;;
    let attendance_rate :=
      if total_detentions =? 0 then Finite 0
      else truediv attended total_detentions in
    emit (Columns 3) ;;
    emit (Metric "Total Detentions" (MCount total_detentions)) ;;
    emit (Metric "Attended" (MCount attended)) ;;
    emit (Metric "Attendance Rate" (MPercent attendance_rate)) ;;
    emit (Expander "Year Group Breakdown") ;;
    (if has_column df "Year" then
       (breakdown <- lift (year_breakdown df) ;;
        emit (Dataframe (YearTable breakdown)) ;;
        st_altair_chart (breakdown_columns "Year")
          ["Year"; "Issued"; "Attended"] (YearTable breakdown))
     else
       emit (Warning "The 'Year' column is missing from detentions data.")) ;;
    emit (Expander "Daily Monitoring") ;;
    (if has_column df "Issued Date" then
       (daily <- lift (daily_detentions df) ;;
        emit (Dataframe (DailyDetentionTable daily)) ;;
        st_altair_chart (breakdown_columns "Date")
          ["Date"; "Issued"; "Attended"] (DailyDetentionTable daily))
     else
       emit (Warning
               "The 'Issued Date' column is missing from detentions data.")).

(** ** On-call dashboard *)

(** [(df['Status'].str.contains(pat, na=False)).sum()] *)
Definition status_count (df : DataFrame) (pat : string) : outcome nat :=
  obind (getitem AttributeError df "Status") (fun status =>
  obind (str_accessor status) (fun status =>
  Ok (List.length (filter (str_contains pat) status)))).

(** [df['Type'].value_counts()], the rows of the table [type_counts]. *)
Definition type_counts (df : DataFrame) : outcome (list (cell * nat)) :=
  obind (getitem ValueError df "Type") (fun s => Ok (value_counts s)).

(** The columns of [type_counts]: [reset_index] gives the columns
    [Type] and [count], which
    [rename(columns={'index': 'Type', 'Type': 'Count'})] turns into
    [Count] and [count]. *)
Definition type_counts_columns : list string :=
  map (dict_get [("index", "Type"); ("Type", "Count")]) ["Type"; "count"].

(** [.agg(Incidents=('DateTime', 'count'))] on one day's rows *)
Definition incident_agg (g : Z * list (Z * cell)) : Z * nat :=
  (fst g, count_notna (map snd (snd g))).

(** [df.dropna(subset=['DateTime'])
       .assign(Date=lambda x: x['DateTime'].dt.date)
       .groupby('Date').agg(Incidents=('DateTime', 'count'))] *)
Definition daily_incidents (df : DataFrame) : outcome (list (Z * nat)) :=
  obind (getitem AttributeError df "DateTime") (fun datetime =>
  let kept := filter notna datetime in
  obind (dt_date kept) (fun dates =>
  Ok (map incident_agg (groupby Z.eq_dec Z.leb fst (combine dates kept))))).

Definition render_oncall_dashboard (df : DataFrame) : M unit :=
  emit (Header "On-Call Dashboard") ;;
  if empty df then emit (Info "No on-call data available.")
  else
    let total_calls := nrows df in
    resolved <- lift (status_count df "Resolved") ;;
    unresolved <- lift (status_count df "Unresolved") ;;
    emit (Columns 3) ;;
    emit (Metric "Total Incidents" (MCount total_calls)) ;;
    emit (Metric "Resolved" (MCount resolved)) ;;
    emit (Metric "Unresolved" (MCount unresolved)) ;;
    emit (Expander "Incident Type Breakdown") ;;
    (if has_column df "Type" then
       (counts <- lift (type_counts df) ;;
        emit (Dataframe (TypeTable counts)) ;;
        st_altair_chart type_counts_columns ["Type"; "Count"]
          (TypeTable counts))
     else
       emit (Warning "The 'Type' column is missing from on-call data.")) ;;
    emit (Expander "Daily Monitoring") ;;
    (if has_column df "DateTime" then
       (daily <- lift (daily_incidents df) ;;
        emit (Dataframe (DailyIncidentTable daily)) ;;
        st_altair_chart ["Date"; "Incidents"] ["Date"; "Incidents"]
          (DailyIncidentTable daily))
     else
       emit (Warning "The 'Date/Time' column is missing from on-call data.")).

(** ** The page script *)

(** What the user has put into the four input widgets; the widgets
    hand these values to the script. *)
Record inputs : Type :=
  { det_file : option UploadedFile;
    on_file : option UploadedFile;
    det_sheet_url : string;
    on_sheet_url : string }.

(** The choice of a source for one dataset:
    [if file is not None: ... elif url: ...]. *)
Definition load_dataset (file : option UploadedFile) (url : string)
  : M (option ref) :=
  match file with
  | Some _ => load_data_from_file file
  | None =>
      if negb (String.eqb url "") then load_data_from_url url
      else ret None
  end.

Definition main (inp : inputs) : M unit :=
  emit (Title "School Behaviour Monitoring Dashboard") ;;
  emit (Write ("Upload your detentions and on-call data or provide a Google Sheets link. "
               ++ "The app will calculate attendance rates, breakdowns and trend charts automatically.")%string) ;;
  emit (Subheader "Upload Files") ;;
  emit (Columns 2) ;;
  emit (FileUploader "Detentions Data (Excel or CSV)" ["csv"; "xlsx"; "xls"]
          "detentions_file") ;;
  emit (FileUploader "On-Call Data (Excel or CSV)" ["csv"; "xlsx"; "xls"]
          "oncall_file") ;;
  emit (Markdown "
    ---
    #### Or load data from a live link
    Enter a direct URL to a public Google Sheet, CSV, or Excel file exported
    from your MIS (e.g., Arbor, Power BI, SharePoint).  The app will
    attempt to fetch the file and parse it automatically.
    ") ;;
  emit (Columns 2) ;;
  emit (TextInput "Detentions link" "https://..." "detentions_url") ;;
  emit (TextInput "On-Call link" "https://..." "oncall_url") ;;
  det_df <- load_dataset (det_file inp) (det_sheet_url inp) ;;
  on_df <- load_dataset (on_file inp) (on_sheet_url inp) ;;
  det_df <- match det_df with
            | Some r =>
                r' <- prepare_detentions r ;;
                d <- deref r' ;;
                render_detentions_dashboard d ;;
                ret (Some r')
            | None => ret None
            end ;;
  on_df <- match on_df with
           | Some r =>
               r' <- prepare_oncall r ;;
               d <- deref r' ;;
               render_oncall_dashboard d ;;
               ret (Some r')
           | None => ret None
           end ;;
  match det_df, on_df with
  | None, None =>
      emit (Info "Please upload data files or provide Google Sheets links to see the dashboards.")
  | _, _ => ret tt
  end.

End App.

(* ================================================================== *)
(** * Reading the normalisers as functions of one frame *)
(* ================================================================== *)

(** A call of a normaliser on a store that holds the caller's frame
    only: the frame it returns, and the caller's frame after the call. *)
Definition call_on (f : ref -> M ref) (df : DataFrame) : World * outcome ref :=
  f 0 {| objects := [df]; page := []; requests := [] |}.

Definition returned (f : ref -> M ref) (df : DataFrame) : outcome DataFrame :=
  match call_on f df with
  | (w, Ok r) => Ok (nth r (objects w) empty_frame)
  | (_, Raise e) => Raise e
  end.

Definition argument_after (f : ref -> M ref) (df : DataFrame) : DataFrame :=
  nth 0 (objects (fst (call_on f df))) empty_frame.

Section Reading.

Variable parse_datetime : datetime_parser.

(** The labels of a detentions frame after trimming, renaming and the
    search for an attendance column. *)
Definition relabel_detentions (d : DataFrame) : DataFrame :=
  let d := rename (set_labels d PyStr.strip) detentions_rename_map in
  if negb (has_column d "Detention Attendance") then
    match filter (fun c => PyStr.contains "attendance" (PyStr.lower c))
            (labels d) with
    | c0 :: _ => rename d [(c0, "Detention Attendance")]
    | [] => d
    end
  else d.

(** The body of the loop over the date columns. *)
Definition parse_dates (col : string) (d : DataFrame) : outcome DataFrame :=
  if has_column d col then
    obind (to_datetime parse_datetime d col) (fun s => Ok (setitem d col s))
  else Ok d.

(** The loop body on a frame in which [col] labels at most one column:
    that column is parsed, the others are kept. *)
Definition coerce_column (col : string) (c : string * Series)
  : string * Series :=
  if String.eqb (fst c) col
  then (fst c, read_values parse_datetime (snd c))
  else c.

(** The columns labelled [col] hold values of one time zone each. *)
Definition column_zone_ok (col : string) (cs : list (string * Series))
  : bool :=
  forallb (fun c => negb (String.eqb (fst c) col)
                    || same_zone (zones parse_datetime (snd c))) cs.

Definition normalised_detentions (d : DataFrame) : outcome DataFrame :=
  obind (index_str (labels d)) (fun _ =>
  obind (parse_dates "Issued Date" (relabel_detentions d))
        (parse_dates "Detention Date")).

Definition normalised_oncall (d : DataFrame) : outcome DataFrame :=
  parse_dates "DateTime" (rename d oncall_rename_map).

(** How a text reads in a column whose format is [fmt]: in that
    format, or on its own when the column has no format; an empty text
    and the texts that stand for a missing value do not read. *)
Definition reads (fmt : option string) (s : string) : option timestamp :=
  if null_text s then None
  else
    match fmt with
    | Some f => strptime parse_datetime f s
    | None => parse_one parse_datetime s
    end.

(** What lenient date parsing does to one value of a column whose
    format is [fmt], case by case.  A number of a column without a
    format counts nanoseconds; in a column with a format it is read
    through its text. *)
Inductive coerced (fmt : option string) : cell -> cell -> Prop :=
| coerced_missing : coerced fmt Null Null
| coerced_unread (s : string) :
    reads fmt s = None -> coerced fmt (Str s) Null
| coerced_read (s : string) (t : timestamp) :
    reads fmt s = Some t -> coerced fmt (Str s) (Time t)
| coerced_epoch (z : Z) :
    fmt = None -> (int64_min < z <= int64_max)%Z ->
    coerced fmt (Num z)
      (Time {| ts_day := z / ns_per_day; ts_ns := z mod ns_per_day |})
| coerced_out_of_range (z : Z) :
    fmt = None -> ~ (int64_min < z <= int64_max)%Z ->
    coerced fmt (Num z) Null
| coerced_number_unread (f : string) (z : Z) :
    fmt = Some f ->
    z = int64_min \/ strptime parse_datetime f (number_text parse_datetime z)
                     = None ->
    coerced fmt (Num z) Null
| coerced_number_read (f : string) (z : Z) (t : timestamp) :
    fmt = Some f -> z <> int64_min ->
    strptime parse_datetime f (number_text parse_datetime z) = Some t ->
    coerced fmt (Num z) (Time t)
| coerced_time (t : timestamp) : coerced fmt (Time t) (Time t).


End Reading.

(** A computation leaves the first [n] frame objects as they are, and
    what it returns satisfies [Q]. *)
Definition preserves {A : Type} (n : nat) (m : M A) (Q : A -> Prop) : Prop :=
  forall w, n <= List.length (objects w) ->
    firstn n (objects (fst (m w))) = firstn n (objects w) /\
    n <= List.length (objects (fst (m w))) /\
    forall a, snd (m w) = Ok a -> Q a.

(* ================================================================== *)
(** * Vocabulary of the specification *)
(* ================================================================== *)

(** [s] holds [pat] up to case: some stretch of [s] lowers to the lowered
    pattern. *)
Definition contains_ignoring_case (pat s : string) : Prop :=
  exists pre mid post,
    s = (pre ++ mid ++ post)%string /\ PyStr.lower mid = PyStr.lower pat.

(** Exactly [k] elements of a list satisfy [P]. *)
Inductive exactly {A : Type} (P : A -> Prop) : list A -> nat -> Prop :=
| exactly_nil : exactly P [] 0
| exactly_yes (a : A) (l : list A) (k : nat) :
    P a -> exactly P l k -> exactly P (a :: l) (S k)
| exactly_no (a : A) (l : list A) (k : nat) :
    ~ P a -> exactly P l k -> exactly P (a :: l) k.

(** A date column as [pd.to_datetime] leaves it: timestamps and NaT. *)
Definition datetime_like (c : cell) : bool :=
  match c with
  | Null | Time _ => true
  | _ => false
  end.

Definition day_of (c : cell) : Z :=
  match c with
  | Time t => ts_day t
  | _ => 0%Z
  end.

(* ================================================================== *)
(** * Stand-ins for the parameters, for the worked examples *)
(* ================================================================== *)

Definition sample_show_num (z : Z) : string :=
  NilZero.string_of_int (Z.to_int z).

Definition sample_show_time (t : timestamp) : string :=
  (sample_show_num (ts_day t) ++ " " ++ sample_show_num (ts_ns t))%string.

(** A parser that knows two days and one time of day, in three formats,
    the last with a UTC offset. *)
Definition sample_parse_one (s : string) : option timestamp :=
  if String.eqb s "2024-01-01" then Some {| ts_day := 19723; ts_ns := 0 |}
  else if String.eqb s "2024-01-02" then Some {| ts_day := 19724; ts_ns := 0 |}
  else if String.eqb s "2024-01-01 10:00:00"
       then Some {| ts_day := 19723; ts_ns := 36000000000000 |}
  else if String.eqb s "2024-01-01 10:00:00+01:00"
          || String.eqb s "2024-01-01 10:00:00+02:00"
       then Some {| ts_day := 19723; ts_ns := 36000000000000 |}
       else None.

Definition sample_guess_format (s : string) : option string :=
  if String.eqb s "2024-01-01" || String.eqb s "2024-01-02"
  then Some "%Y-%m-%d"
  else if String.eqb s "2024-01-01 10:00:00" then Some "%Y-%m-%d %H:%M:%S"
  else if String.eqb s "2024-01-01 10:00:00+01:00"
          || String.eqb s "2024-01-01 10:00:00+02:00"
       then Some "%Y-%m-%d %H:%M:%S%z"
       else None.

Definition sample_utc_offset (s : string) : option Z :=
  if String.eqb s "2024-01-01 10:00:00+01:00" then Some 3600%Z
  else if String.eqb s "2024-01-01 10:00:00+02:00" then Some 7200%Z
  else None.

Definition sample_strptime (fmt s : string) : option timestamp :=
  match sample_guess_format s with
  | Some f => if String.eqb f fmt then sample_parse_one s else None
  | None => None
  end.

Definition sample_parse_datetime : datetime_parser :=
  {| guess_format := sample_guess_format;
     strptime := sample_strptime;
     parse_one := sample_parse_one;
     utc_offset := sample_utc_offset;
     number_text := sample_show_num |}.

(** Readers that find a one-row detentions sheet everywhere. *)
Definition sample_sheet : DataFrame :=
  {| nrows := 1;
     cols := [("Student", [Str "Ada"]); ("Year", [Num 7]);
              ("Detention Attendance", [Str "Present"])] |}.

Definition sample_read (src : source) : outcome DataFrame := Ok sample_sheet.

(* ================================================================== *)
(** * Worked inputs *)
(* ================================================================== *)


(** Two detentions, the second without a Year. *)
Definition detentions_missing_year : DataFrame :=
  {| nrows := 2;
     cols := [("Student", [Str "Ada"; Str "Bob"]);
              ("Year", [Num 7; Null]);
              ("Detention Attendance", [Str "Present"; Str "Absent"])] |}.

(** Two incidents, the second without a Type. *)
Definition incidents_missing_type : DataFrame :=
  {| nrows := 2;
     cols := [("Type", [Str "Fight"; Null]);
              ("Status", [Str "Resolved"; Str "Resolved"])] |}.

(** One detention with a date and no student. *)
Definition detentions_missing_student : DataFrame :=
  {| nrows := 1;
     cols := [("Student", [Null]);
              ("Issued Date", [Time {| ts_day := 19723; ts_ns := 0 |}]);
              ("Detention Attendance", [Str "Present"])] |}.

(** Two dated detentions of the same day and one without a date. *)
Definition detentions_three_rows : DataFrame :=
  {| nrows := 3;
     cols := [("Student", [Str "Ada"; Str "Bob"; Str "Cy"]);
              ("Issued Date",
               [Time {| ts_day := 19723; ts_ns := 5 |}; Null;
                Time {| ts_day := 19723; ts_ns := 9 |}]);
              ("Detention Attendance", [Str "Present"; Null; Str "Late"])] |}.

(** Headers that agree after trimming, and headers that agree after
    renaming. *)
Definition detentions_repeated_date : DataFrame :=
  {| nrows := 1;
     cols := [("Issued Date", [Str "2024-01-01"]);
              ("Issued Date ", [Str "not a date"])] |}.


(** Headers with surrounding blanks. *)
Definition detentions_spaced : DataFrame :=
  {| nrows := 2;
     cols := [(" Issued Date", [Str "2024-01-01"; Str "not a date"]);
              ("Pupil Attendance Record ", [Str "Present"; Null])] |}.

Definition detentions_spaced_year : DataFrame :=
  {| nrows := 1; cols := [(" Year ", [Num 7])] |}.

Definition oncall_spaced : DataFrame :=
  {| nrows := 1;
     cols := [(" Status ", [Str "Resolved"]);
              (" Date/Time ", [Str "2024-01-01"])] |}.

Definition oncall_trimmed : DataFrame :=
  {| nrows := 1;
     cols := [("Status", [Str "Resolved"]);
              ("Date/Time", [Str "2024-01-01"])] |}.

(** Normalised frames that lack a column. *)
Definition incidents_without_status : DataFrame :=
  {| nrows := 1; cols := [("Type", [Str "Fight"])] |}.

Definition detentions_without_attendance : DataFrame :=
  {| nrows := 1; cols := [("Student", [Str "Ada"]); ("Year", [Num 7])] |}.

Definition detentions_without_student : DataFrame :=
  {| nrows := 1;
     cols := [("Issued Date", [Time {| ts_day := 19723; ts_ns := 0 |}]);
              ("Detention Attendance", [Str "Present"])] |}.

(** A one-row detentions sheet with the value in lowercase. *)
Definition detentions_lowercase : DataFrame :=
  {| nrows := 1;
     cols := [("Student", [Str "Ada"]); ("Year", [Num 7]);
              ("Detention Attendance", [Str "present"])] |}.

(** Four detentions: two of Year 7, one of Year 8 and one without a
    Year; the attendance reads "Present" in four spellings. *)
Definition detentions_mixed_case : DataFrame :=
  {| nrows := 4;
     cols := [("Student", [Str "Ada"; Str "Bob"; Str "Cy"; Str "Di"]);
              ("Year", [Num 7; Num 7; Num 8; Null]);
              ("Detention Attendance",
               [Str "Present"; Str "present"; Str "PRESENT (late)";
                Str "Present"])] |}.

(** One incident with a date. *)
Definition incidents_one_day : DataFrame :=
  {| nrows := 1;
     cols := [("DateTime", [Time {| ts_day := 19723; ts_ns := 0 |}]);
              ("Status", [Str "Resolved"])] |}.

(** One detention with a student and no date. *)
Definition detentions_undated : DataFrame :=
  {| nrows := 1;
     cols := [("Student", [Str "Ada"]);
              ("Issued Date", [Null]);
              ("Detention Attendance", [Str "Present"])] |}.

(** One incident without a date. *)
Definition incidents_undated : DataFrame :=
  {| nrows := 1;
     cols := [("DateTime", [Null]); ("Status", [Str "Resolved"])] |}.




(** Three detentions with a Year, two of them dated. *)
Definition detentions_dated : DataFrame :=
  {| nrows := 3;
     cols := [("Student", [Str "Ada"; Str "Bob"; Str "Cy"]);
              ("Year", [Num 7; Num 8; Num 7]);
              ("Issued Date",
               [Time {| ts_day := 19723; ts_ns := 5 |};
                Time {| ts_day := 19723; ts_ns := 9 |}; Null]);
              ("Detention Attendance",
               [Str "Present"; Str "Absent"; Str "Present"])] |}.

Definition sample_upload : UploadedFile :=
  {| name := "detentions.csv"; content := "" |}.

(* ================================================================== *)
(** * Vocabulary for the results on whole runs *)
(* ================================================================== *)

(** A computation that only writes on the page: from every world it
    appends the widgets [ws], leaves the frames and the reads as they
    are, and ends with [o]. *)
Definition appends {A : Type} (m : M A) (ws : list widget) (o : outcome A)
  : Prop :=
  forall w,
    m w = ({| objects := objects w; page := page w ++ ws;
              requests := requests w |}, o).

(** A computation whose reads are [qs], from every world. *)
Definition adds_reads {A : Type} (m : M A) (qs : list request) : Prop :=
  forall w, requests (fst (m w)) = requests w ++ qs.

(** A computation that returns from every world. *)
Definition never_raises {A : Type} (m : M A) : Prop :=
  forall w, exists a, snd (m w) = Ok a.

(** The read an uploaded file leads to, by the extension of its name. *)
Definition file_reads (f : UploadedFile) : list request :=
  if PyStr.endswith ".csv" (PyStr.lower (name f)) then [ReadCsv (FromFile f)]
  else if PyStr.endswith ".xlsx" (PyStr.lower (name f))
          || PyStr.endswith ".xls" (PyStr.lower (name f))
       then [ReadExcel (FromFile f)]
       else [].

(** The read a link leads to: none for the empty link, else one read of
    the trimmed and rewritten link, by its extension. *)
Definition url_reads (url : string) : list request :=
  if String.eqb url "" then []
  else
    let target := google_sheets_export (PyStr.strip url) in
    if PyStr.endswith ".xlsx" (PyStr.lower target)
       || PyStr.endswith ".xls" (PyStr.lower target)
    then [ReadExcel (FromUrl target)]
    else [ReadCsv (FromUrl target)].

Definition dataset_reads (file : option UploadedFile) (url : string)
  : list request :=
  match file with
  | Some f => file_reads f
  | None => url_reads url
  end.

(** A link of blanks, a file that is no sheet, an export link. *)
Definition blank_url : string := "   ".

Definition sample_pdf : UploadedFile :=
  {| name := "Report.PDF"; content := "" |}.

Definition sample_export_link : string :=
  "https://docs.google.com/spreadsheets/d/ABC123/export?format=csv".

(** A reader that fails on every source. *)
Definition failing_read (src : source) : outcome DataFrame := Raise IOError.

(** The reader a file and a link are handed to. *)
Definition file_reader (read_csv read_excel : source -> outcome DataFrame)
  (f : UploadedFile) : outcome DataFrame :=
  if PyStr.endswith ".csv" (PyStr.lower (name f)) then read_csv (FromFile f)
  else read_excel (FromFile f).

Definition url_reader (read_csv read_excel : source -> outcome DataFrame)
  (target : string) : outcome DataFrame :=
  if PyStr.endswith ".xlsx" (PyStr.lower target)
     || PyStr.endswith ".xls" (PyStr.lower target)
  then read_excel (FromUrl target)
  else read_csv (FromUrl target).

(** What [prepare_detentions] does to one label of a sheet whose labels
    are [ls]: trimming, renaming, and the renaming of the first label
    that holds "attendance" when no label is [Detention Attendance]. *)
Definition detention_label (ls : list string) (l : string) : string :=
  let canonical := fun l => dict_get detentions_rename_map (PyStr.strip l) in
  if negb (existsb (String.eqb "Detention Attendance") (map canonical ls))
  then
    match filter (fun c => PyStr.contains "attendance" (PyStr.lower c))
            (map canonical ls) with
    | c0 :: _ => dict_get [(c0, "Detention Attendance")] (canonical l)
    | [] => canonical l
    end
  else canonical l.

(** What [prepare_detentions] returns for [detentions_spaced]. *)
Definition detentions_spaced_normalised : DataFrame :=
  {| nrows := 2;
     cols := [("Issued Date", [Time {| ts_day := 19723; ts_ns := 0 |}; Null]);
              ("Detention Attendance", [Str "Present"; Null])] |}.

(** A cell that holds a text in which [pat] occurs, case and all. *)
Definition text_contains (pat : string) (c : cell) : Prop :=
  exists s pre post, c = Str s /\ s = (pre ++ pat ++ post)%string.

(** An on-call sheet with the three kinds of status. *)
Definition incidents_three_rows : DataFrame :=
  {| nrows := 3;
     cols := [("Type", [Str "Fight"; Str "Fight"; Str "Truancy"]);
              ("Status", [Str "Resolved"; Str "Unresolved"; Null])] |}.

(** The frame a dataset source yields: the one its reader returns, when
    a read is made and the reader does not raise. *)
Definition read_dataset (read_csv read_excel : source -> outcome DataFrame)
  (file : option UploadedFile) (url : string) : option DataFrame :=
  match file with
  | Some f =>
      match file_reads f, file_reader read_csv read_excel f with
      | _ :: _, Ok df => Some df
      | _, _ => None
      end
  | None =>
      if String.eqb url "" then None
      else
        match url_reader read_csv read_excel
                (google_sheets_export (PyStr.strip url)) with
        | Ok df => Some df
        | Raise _ => None
        end
  end.

(** The message a dataset source leaves on the page: none when a frame
    is read or nothing is asked for. *)
Definition dataset_messages (read_csv read_excel : source -> outcome DataFrame)
  (file : option UploadedFile) (url : string) : list widget :=
  match file with
  | Some f =>
      match file_reads f, file_reader read_csv read_excel f with
      | [], _ =>
          [Error "Unsupported file format. Please upload a CSV or Excel file."
             None]
      | _ :: _, Ok _ => []
      | _ :: _, Raise e => [Error "Error reading file: " (Some e)]
      end
  | None =>
      if String.eqb url "" then []
      else
        match url_reader read_csv read_excel
                (google_sheets_export (PyStr.strip url)) with
        | Ok _ => []
        | Raise e => [Error "Error loading data from URL: " (Some e)]
        end
  end.

Definition frames_of (o : option DataFrame) : list DataFrame :=
  match o with
  | Some df => [df]
  | None => []
  end.

Definition is_header (x : widget) : bool :=
  match x with
  | Header _ => true
  | _ => false
  end.

(** The widgets [main] puts on the page before it loads anything. *)
Definition opening : list widget :=
  [ Title "School Behaviour Monitoring Dashboard";
    Write ("Upload your detentions and on-call data or provide a Google Sheets link. "
           ++ "The app will calculate attendance rates, breakdowns and trend charts automatically.")%string;
    Subheader "Upload Files";
    Columns 2;
    FileUploader "Detentions Data (Excel or CSV)" ["csv"; "xlsx"; "xls"]
      "detentions_file";
    FileUploader "On-Call Data (Excel or CSV)" ["csv"; "xlsx"; "xls"]
      "oncall_file";
    Markdown "
    ---
    #### Or load data from a live link
    Enter a direct URL to a public Google Sheet, CSV, or Excel file exported
    from your MIS (e.g., Arbor, Power BI, SharePoint).  The app will
    attempt to fetch the file and parse it automatically.
    ";
    Columns 2;
    TextInput "Detentions link" "https://..." "detentions_url";
    TextInput "On-Call link" "https://..." "oncall_url" ].

(** No source at all. *)
Definition no_inputs : inputs :=
  {| det_file := None; on_file := None;
     det_sheet_url := ""; on_sheet_url := "" |}.

(** A run whose only source is a file of an unsupported format. *)
Definition unsupported_inputs : inputs :=
  {| det_file := Some sample_pdf; on_file := None;
     det_sheet_url := ""; on_sheet_url := "" |}.

(** The closing notice of a run without data. *)
Definition closing_notice : widget :=
  Info "Please upload data files or provide Google Sheets links to see the dashboards.".

(** One dataset's part of a run, read on the frame alone: the frame is
    normalised and its dashboard drawn; what it leaves on the page and
    how it ends. *)
Definition stage (normalise : DataFrame -> outcome DataFrame)
  (render : DataFrame -> M unit) (o : option DataFrame)
  : list widget * outcome unit :=
  match o with
  | None => ([], Ok tt)
  | Some df =>
      match normalise df with
      | Ok d => (page (fst (render d start)), snd (render d start))
      | Raise e => ([], Raise e)
      end
  end.

(** The page of the two stages one after the other; the second runs
    only when the first ends normally, and the closing notice follows
    only when there is no frame at all. *)
Definition stages_page (det on : option DataFrame)
  (sd so : list widget * outcome unit) : list widget :=
  fst sd
  ++ match snd sd with
     | Raise _ => []
     | Ok _ =>
         fst so
         ++ match snd so, det, on with
            | Ok _, None, None => [closing_notice]
            | _, _, _ => []
            end
     end.

(** Readers for a run with both datasets. *)
Definition repeated_read (src : source) : outcome DataFrame :=
  Ok detentions_repeated_date.


Definition incidents_read (src : source) : outcome DataFrame :=
  Ok incidents_three_rows.



(** A reader that finds one sheet in every file and another one behind
    every link. *)
Definition file_or_link_read (src : source) : outcome DataFrame :=
  match src with
  | FromFile _ => Ok detentions_three_rows
  | FromUrl _ => Ok sample_sheet
  end.

(** A file and a link for the detentions, nothing for the incidents. *)
Definition file_and_link_inputs : inputs :=
  {| det_file := Some sample_upload; on_file := None;
     det_sheet_url := "https://example.org/a.csv"; on_sheet_url := "" |}.

Definition sample_workbook : UploadedFile :=
  {| name := "oncall.xlsx"; content := "" |}.

Definition both_inputs : inputs :=
  {| det_file := Some sample_upload; on_file := Some sample_workbook;
     det_sheet_url := ""; on_sheet_url := "" |}.

(* ================================================================== *)
(** * Facts about Python strings *)
(* ================================================================== *)

Section StringFacts.

Import PyStr.

Lemma append_nil_r (s : string) : (s ++ "")%string = s.
Proof. induction s; simpl; congruence. Qed.

Lemma append_assoc (a b c : string) :
  ((a ++ b) ++ c)%string = (a ++ (b ++ c))%string.
Proof. induction a; simpl; congruence. Qed.

Lemma length_append (a b : string) :
  String.length (a ++ b) = String.length a + String.length b.
Proof. induction a; simpl; congruence. Qed.

Lemma prefix_app (p r : string) : String.prefix p (p ++ r) = true.
Proof.
  induction p as [|c p IH]; simpl.
  - destruct r; reflexivity.
  - destruct (ascii_dec c c); [exact IH | congruence].
Qed.

Lemma prefix_split (p s : string) :
  String.prefix p s = true ->
  s = (p ++ drop (String.length p) s)%string.
Proof.
  revert s; induction p as [|c p IH]; intros s H; simpl.
  - reflexivity.
  - destruct s as [|d s]; simpl in H; [discriminate|].
    destruct (ascii_dec c d); [subst d | discriminate].
    simpl. f_equal. apply IH, H.
Qed.

Lemma prefix_iff (p s : string) :
  String.prefix p s = true <-> exists r, s = (p ++ r)%string.
Proof.
  split.
  - intros H. eexists. apply prefix_split, H.
  - intros [r ->]. apply prefix_app.
Qed.

(** [sub in s] holds exactly when [s] can be cut around a copy of [sub]. *)
Lemma contains_iff (sub s : string) :
  contains sub s = true <->
  exists pre post, s = (pre ++ sub ++ post)%string.
Proof.
  induction s as [|c s IH].
  - cbn [contains]. rewrite orb_false_r, prefix_iff. split.
    + intros [r H]. exists "", r. exact H.
    + intros [pre [post H]]. destruct pre; simpl in H.
      * exists post. exact H.
      * discriminate.
  - cbn [contains]. rewrite orb_true_iff, prefix_iff, IH. split.
    + intros [[r H] | [pre [post H]]].
      * exists "", r. exact H.
      * exists (String c pre), post. simpl. congruence.
    + intros [pre [post H]]. destruct pre as [|d pre]; simpl in H.
      * left. exists post. exact H.
      * right. exists pre, post. congruence.
Qed.

Lemma contains_false_iff (sub s : string) :
  contains sub s = false <->
  forall pre post, s <> (pre ++ sub ++ post)%string.
Proof.
  split.
  - intros H pre post E.
    assert (contains sub s = true) by (apply contains_iff; eauto).
    congruence.
  - intros H. destruct (contains sub s) eqn:E; [|reflexivity].
    apply contains_iff in E. destruct E as [pre [post E]].
    exfalso. exact (H _ _ E).
Qed.

(** ** [strip] *)

Lemma lstrip_suffix (s : string) : exists w, s = (w ++ lstrip s)%string.
Proof.
  induction s as [|c s [w IH]]; simpl.
  - exists "". reflexivity.
  - destruct (isspace c).
    + exists (String c w). simpl. congruence.
    + exists "". reflexivity.
Qed.

Lemma rstrip_cons_keep (c : ascii) (s : string) :
  isspace c = false -> rstrip (String c s) = String c (rstrip s).
Proof.
  intros H. simpl. destruct (rstrip s); [rewrite H|]; reflexivity.
Qed.

Lemma rstrip_app_keep (a : string) (c : ascii) (s : string) :
  isspace c = false ->
  rstrip (a ++ String c s) = (a ++ String c (rstrip s))%string.
Proof.
  intros H. induction a as [|d a IH].
  - apply rstrip_cons_keep, H.
  - cbn [append rstrip]. rewrite IH.
    destruct a; reflexivity.
Qed.

Lemma lstrip_head (s : string) :
  match lstrip s with
  | EmptyString => True
  | String c _ => isspace c = false
  end.
Proof.
  induction s as [|c s IH]; simpl; [exact I|].
  destruct (isspace c) eqn:E; [exact IH | exact E].
Qed.

Lemma lstrip_fixed (s : string) :
  match s with
  | EmptyString => True
  | String c _ => isspace c = false
  end -> lstrip s = s.
Proof. destruct s as [|c s]; simpl; [reflexivity|]. intros ->. reflexivity. Qed.

Lemma rstrip_cons_nonempty (c d : ascii) (s r : string) :
  rstrip s = String d r -> rstrip (String c s) = String c (String d r).
Proof. intros H. simpl. rewrite H. reflexivity. Qed.

Lemma rstrip_idempotent (s : string) : rstrip (rstrip s) = rstrip s.
Proof.
  induction s as [|c s IH]; [reflexivity|].
  destruct (rstrip s) as [|d r] eqn:E.
  - simpl. rewrite E. destruct (isspace c) eqn:Ec; [reflexivity|].
    simpl. rewrite Ec. reflexivity.
  - rewrite (rstrip_cons_nonempty c d s r E).
    apply rstrip_cons_nonempty, IH.
Qed.

Lemma strip_idempotent (s : string) : strip (strip s) = strip s.
Proof.
  unfold strip. pose proof (lstrip_head s) as H.
  destruct (lstrip s) as [|c t] eqn:E; [reflexivity|].
  rewrite (rstrip_cons_keep c t H).
  rewrite lstrip_fixed by exact H.
  rewrite <- (rstrip_cons_keep c t H). apply rstrip_idempotent.
Qed.

(** An occurrence of a pattern whose first and last characters are not
    whitespace survives [strip]. *)
Lemma contains_lstrip (c : ascii) (p s : string) :
  isspace c = false ->
  contains (String c p) s = true ->
  contains (String c p) (lstrip s) = true.
Proof.
  intros Hc. induction s as [|d s IH]; intros H; [exact H|].
  simpl lstrip. destruct (isspace d) eqn:Ed; [|exact H].
  apply IH. cbn [contains] in H. apply orb_true_iff in H.
  destruct H as [H|H]; [|exact H].
  simpl in H. destruct (ascii_dec c d); [congruence | discriminate].
Qed.

Lemma contains_rstrip (p : string) (c : ascii) (s : string) :
  isspace c = false ->
  contains (p ++ String c "") s = true ->
  contains (p ++ String c "") (rstrip s) = true.
Proof.
  intros Hc H. apply contains_iff in H. destruct H as [pre [post ->]].
  apply contains_iff.
  rewrite append_assoc. simpl.
  rewrite <- append_assoc, rstrip_app_keep by exact Hc.
  exists pre, (rstrip post).
  rewrite !append_assoc. reflexivity.
Qed.

Lemma contains_strip (p : string) (a b : ascii) (q s : string) :
  p = String a q -> (exists q', p = (q' ++ String b "")%string) ->
  isspace a = false -> isspace b = false ->
  contains p s = true -> contains p (strip s) = true.
Proof.
  intros Ha [q' Hb] Sa Sb H. unfold strip.
  rewrite Hb. apply contains_rstrip; [exact Sb|]. rewrite <- Hb.
  rewrite Ha. apply contains_lstrip; [exact Sa|]. rewrite <- Ha. exact H.
Qed.

End StringFacts.

Section SplitFacts.

Import PyStr.

Lemma partition_not_found (sep s : string) :
  contains sep s = false -> partition sep s = (s, None).
Proof.
  induction s as [|c s IH]; intros H; cbn [contains] in H;
    apply orb_false_iff in H; destruct H as [Hp Hc].
  - cbn [partition]. rewrite Hp. reflexivity.
  - cbn [partition]. rewrite Hp, (IH Hc). reflexivity.
Qed.

(** When the separator occurs, [partition] cuts at its first occurrence. *)
Lemma partition_found (sep s a r : string) :
  partition sep s = (a, Some r) ->
  s = (a ++ sep ++ r)%string /\
  forall pre post, s = (pre ++ sep ++ post)%string ->
                   String.length a <= String.length pre.
Proof.
  revert a r. induction s as [|c s IH]; intros a r H; cbn [partition] in H.
  - destruct (String.prefix sep "") eqn:Hp; [|discriminate].
    injection H as <- <-. split; [|intros; simpl; lia].
    apply prefix_split, Hp.
  - destruct (String.prefix sep (String c s)) eqn:Hp.
    + injection H as <- <-. split; [|intros; simpl; lia].
      apply prefix_split, Hp.
    + destruct (partition sep s) as [a' r'] eqn:E.
      injection H as <- ->. destruct (IH _ _ eq_refl) as [Hs Hfirst].
      split; [simpl; congruence|].
      intros pre post Hocc. destruct pre as [|d pre]; simpl in Hocc.
      * rewrite Hocc, prefix_app in Hp. discriminate.
      * injection Hocc as _ Hocc. simpl. apply le_n_S. eapply Hfirst, Hocc.
Qed.

Lemma partition_found_iff (sep s : string) :
  contains sep s = true -> exists a r, partition sep s = (a, Some r).
Proof.
  intros H. destruct (partition sep s) as [a [r|]] eqn:E; [eauto|].
  exfalso. revert a E H. induction s as [|c s IH]; intros a E H;
    cbn [partition] in E; cbn [contains] in H.
  - destruct (String.prefix sep ""); [discriminate|].
    simpl in H. discriminate.
  - destruct (String.prefix sep (String c s)); [discriminate|].
    destruct (partition sep s) as [a' r'] eqn:E'. injection E as <- ->.
    simpl in H. eapply IH; eauto.
Qed.

(** The first piece of [partition] is followed by nothing or by the
    separator. *)
Lemma partition_fst (sep s : string) :
  exists post, s = (fst (partition sep s) ++ post)%string /\
               (post = "" \/ exists r, post = (sep ++ r)%string).
Proof.
  destruct (partition sep s) as [a [r|]] eqn:E; simpl.
  - apply partition_found in E. destruct E as [E _].
    exists (sep ++ r)%string. split; [exact E | right; eauto].
  - exists "". split; [|left; reflexivity].
    destruct (contains sep s) eqn:C.
    + apply partition_found_iff in C. destruct C as [a' [r' C]]. congruence.
    + apply partition_not_found in C. rewrite append_nil_r. congruence.
Qed.

Lemma partition_char_fst (c : ascii) (s : string) :
  contains (String c "") (fst (partition (String c "") s)) = false.
Proof.
  induction s as [|d s IH]; [reflexivity|].
  cbn [partition].
  destruct (String.prefix (String c "") (String d s)) eqn:Hp; [reflexivity|].
  destruct (partition (String c "") s) as [a r]. simpl fst in *.
  cbn [contains]. rewrite IH, orb_false_r.
  simpl in Hp. simpl. destruct (ascii_dec c d); [|reflexivity].
  destruct s; discriminate.
Qed.

Lemma split_fuel_head (fuel : nat) (sep s : string) :
  nth_error (split_fuel fuel sep s) 0 = Some (fst (partition sep s)).
Proof.
  destruct fuel; simpl; destruct (partition sep s) as [a [r|]]; reflexivity.
Qed.

Lemma split_first (sep s : string) :
  list_getitem (split sep s) 0 = Ok (fst (partition sep s)).
Proof. unfold list_getitem, split. rewrite split_fuel_head. reflexivity. Qed.

Lemma split_second (sep s a r : string) :
  sep <> "" -> partition sep s = (a, Some r) ->
  list_getitem (split sep s) 1 = Ok (fst (partition sep r)).
Proof.
  intros Hsep E. unfold list_getitem, split.
  destruct (String.length s) as [|k] eqn:L.
  - exfalso. apply partition_found in E. destruct E as [E _].
    rewrite E, !length_append in L.
    destruct sep; [congruence | simpl in L; lia].
  - cbn [split_fuel]. rewrite E.
    change (nth_error (a :: split_fuel k sep r) 1)
      with (nth_error (split_fuel k sep r) 0).
    rewrite split_fuel_head. reflexivity.
Qed.

Lemma split_no_second (sep s : string) :
  contains sep s = false -> list_getitem (split sep s) 1 = Raise IndexError.
Proof.
  intros H. unfold list_getitem, split.
  destruct (String.length s); cbn [split_fuel];
    rewrite (partition_not_found _ _ H); reflexivity.
Qed.

(** ** [endswith] and [lower] *)

Lemma endswith_app_long (suf a b : string) :
  String.length suf <= String.length b ->
  endswith suf (a ++ b) = endswith suf b.
Proof.
  intros H. induction a as [|c a IH]; [reflexivity|].
  cbn [append endswith]. rewrite IH.
  destruct (String.eqb_spec (String c (a ++ b)) suf) as [E|]; [|reflexivity].
  exfalso. rewrite <- E in H. simpl in H. rewrite length_append in H. lia.
Qed.

Lemma lower_app (a b : string) :
  lower (a ++ b) = (lower a ++ lower b)%string.
Proof. induction a; simpl; congruence. Qed.

Lemma length_lower (s : string) : String.length (lower s) = String.length s.
Proof. induction s; simpl; congruence. Qed.

(** ** Case-insensitive search *)

Lemma imatch_iff (pat s : string) :
  imatch pat s = true <->
  exists mid post, s = (mid ++ post)%string /\ lower mid = lower pat.
Proof.
  revert s. induction pat as [|p pat IH]; intros s.
  - split; [|reflexivity]. intros _. exists "", s. split; reflexivity.
  - destruct s as [|c s]; cbn [imatch].
    + split; [discriminate|]. intros [mid [post [E L]]].
      destruct mid; simpl in *; discriminate.
    + rewrite andb_true_iff, IH. split.
      * intros [Hc [mid [post [E L]]]]. apply Ascii.eqb_eq in Hc.
        exists (String c mid), post. simpl. split; congruence.
      * intros [mid [post [E L]]]. destruct mid as [|d mid]; [discriminate|].
        simpl in E, L. injection E as <- E. injection L as Lc L.
        split; [apply Ascii.eqb_eq; congruence | eauto].
Qed.

Lemma isearch_iff (pat s : string) :
  isearch pat s = true <-> contains_ignoring_case pat s.
Proof.
  unfold contains_ignoring_case. induction s as [|c s IH]; cbn [isearch].
  - rewrite orb_false_r, imatch_iff. split.
    + intros [mid [post [E L]]]. exists "", mid, post. auto.
    + intros [pre [mid [post [E L]]]]. destruct pre; [|discriminate].
      exists mid, post. auto.
  - rewrite orb_true_iff, imatch_iff, IH. split.
    + intros [[mid [post [E L]]] | [pre [mid [post [E L]]]]].
      * exists "", mid, post. auto.
      * exists (String c pre), mid, post. simpl. split; congruence.
    + intros [pre [mid [post [E L]]]]. destruct pre as [|d pre].
      * left. exists mid, post. auto.
      * right. simpl in E. injection E as _ E. exists pre, mid, post. auto.
Qed.

End SplitFacts.

(* ================================================================== *)
(** * Facts about grouping *)
(* ================================================================== *)

Lemma list_sum_perm (l l' : list nat) :
  Permutation l l' -> list_sum l = list_sum l'.
Proof. induction 1; simpl; lia. Qed.

Lemma filter_map_length {A B} (f : B -> bool) (g : A -> B) (l : list A) :
  List.length (filter f (map g l))
  = List.length (filter (fun a => f (g a)) l).
Proof.
  induction l as [|a l IH]; [reflexivity|].
  simpl. destruct (f (g a)); simpl; congruence.
Qed.

Lemma filter_filter_length {A} (f g : A -> bool) (l : list A) :
  List.length (filter f (filter g l))
  = List.length (filter (fun a => g a && f a) l).
Proof.
  induction l as [|a l IH]; [reflexivity|].
  simpl. destruct (g a); simpl; [destruct (f a); simpl|]; congruence.
Qed.

Section GroupFacts.

Context {K : Type}.
Variable K_eq_dec : forall a b : K, {a = b} + {a <> b}.
Variable K_leb : K -> K -> bool.

Lemma insert_sorted_perm (k : K) (ks : list K) :
  Permutation (insert_sorted K_leb k ks) (k :: ks).
Proof.
  induction ks as [|k' ks IH]; simpl; [apply Permutation_refl|].
  destruct (K_leb k k'); [apply Permutation_refl|].
  eapply perm_trans; [apply perm_skip, IH | apply perm_swap].
Qed.

Lemma sort_keys_perm (ks : list K) : Permutation (sort_keys K_leb ks) ks.
Proof.
  induction ks as [|k ks IH]; simpl; [apply perm_nil|].
  eapply perm_trans; [apply insert_sorted_perm | apply perm_skip, IH].
Qed.

Lemma group_keys_perm (ks : list K) :
  Permutation (group_keys K_eq_dec K_leb ks) (nodup K_eq_dec ks).
Proof. apply sort_keys_perm. Qed.

Lemma group_keys_In (ks : list K) (k : K) :
  In k (group_keys K_eq_dec K_leb ks) <-> In k ks.
Proof.
  split; intros H.
  - apply (nodup_In K_eq_dec).
    eapply Permutation_in; [apply group_keys_perm | exact H].
  - eapply Permutation_in; [apply Permutation_sym, group_keys_perm|].
    apply (nodup_In K_eq_dec), H.
Qed.

Lemma group_keys_NoDup (ks : list K) :
  NoDup (group_keys K_eq_dec K_leb ks).
Proof.
  eapply Permutation_NoDup;
    [apply Permutation_sym, group_keys_perm | apply NoDup_nodup].
Qed.

Lemma groupby_keys {R} (key : R -> K) (rows : list R) :
  map fst (groupby K_eq_dec K_leb key rows)
  = group_keys K_eq_dec K_leb (map key rows).
Proof.
  unfold groupby. rewrite map_map. simpl. apply map_id.
Qed.

(** There is a group as soon as there is a row. *)
Lemma groupby_nil {R} (key : R -> K) (rows : list R) :
  groupby K_eq_dec K_leb key rows = [] -> rows = [].
Proof.
  intros H. destruct rows as [|r rows]; [reflexivity|]. exfalso.
  assert (Hin : In (key r) (map fst (groupby K_eq_dec K_leb key (r :: rows)))).
  { rewrite groupby_keys. apply group_keys_In. left. reflexivity. }
  rewrite H in Hin. exact Hin.
Qed.

(** One unit per key equal to [x], over keys without repetition. *)
Lemma sum_indicator (x : K) (n : nat) (keys : list K) :
  NoDup keys -> In x keys ->
  list_sum (map (fun k => if K_eq_dec x k then n else 0) keys) = n.
Proof.
  induction 1 as [|k keys Hk Hnd IH]; intros Hin; [contradiction|].
  simpl. destruct (K_eq_dec x k) as [->|Hne].
  - assert (list_sum (map (fun k0 => if K_eq_dec k k0 then n else 0) keys)
            = 0) as ->; [|lia].
    clear IH Hin Hnd. induction keys as [|k' keys IH]; [reflexivity|].
    simpl. destruct (K_eq_dec k k') as [->|_].
    + exfalso. apply Hk. left. reflexivity.
    + apply IH. intros H. apply Hk. right. exact H.
  - destruct Hin as [->|Hin]; [congruence|]. rewrite (IH Hin). lia.
Qed.

(** Counting per key and adding up counts every row once. *)
Lemma sum_by_key {R} (key : R -> K) (w : R -> nat)
  (rows : list R) (keys : list K) :
  NoDup keys -> (forall r, In r rows -> In (key r) keys) ->
  list_sum
    (map (fun k =>
            list_sum
              (map w (filter (fun r => if K_eq_dec (key r) k
                                       then true else false) rows)))
       keys)
  = list_sum (map w rows).
Proof.
  intros Hnd. induction rows as [|r rows IH]; intros Hin.
  - clear. induction keys; simpl; auto.
  - simpl. rewrite <- IH by (intros; apply Hin; right; assumption).
    rewrite <- (sum_indicator (key r) (w r) keys Hnd)
      by (apply Hin; left; reflexivity).
    clear. induction keys as [|k keys IHk]; [reflexivity|].
    simpl. rewrite IHk.
    destruct (K_eq_dec (key r) k); simpl; lia.
Qed.

Lemma groupby_sum {R} (key : R -> K) (f : R -> bool) (rows : list R) :
  list_sum
    (map (fun g : K * list R => List.length (filter f (snd g)))
       (groupby K_eq_dec K_leb key rows))
  = List.length (filter f rows).
Proof.
  unfold groupby. rewrite map_map. cbn [snd].
  assert (Hlen : forall l : list R,
             List.length (filter f l)
             = list_sum (map (fun r => if f r then 1 else 0) l)).
  { induction l as [|a l IH]; [reflexivity|].
    simpl. destruct (f a); simpl; lia. }
  rewrite Hlen.
  rewrite <- (sum_by_key key (fun r => if f r then 1 else 0) rows
                (group_keys K_eq_dec K_leb (map key rows))).
  - apply f_equal, map_ext. intros k. apply Hlen.
  - apply group_keys_NoDup.
  - intros r Hr. apply group_keys_In, in_map, Hr.
Qed.

Lemma groupby_rows {R} (key : R -> K) (rows : list R) (g : K * list R) :
  In g (groupby K_eq_dec K_leb key rows) ->
  snd g = filter (fun r => if K_eq_dec (key r) (fst g) then true else false)
            rows.
Proof.
  unfold groupby. intros H. apply in_map_iff in H.
  destruct H as [k [<- _]]. reflexivity.
Qed.

End GroupFacts.

(** Dates come out in increasing order, each once. *)
Lemma insert_sorted_Z (k : Z) (ks : list Z) :
  StronglySorted Z.le ks ->
  StronglySorted Z.le (insert_sorted Z.leb k ks).
Proof.
  induction 1 as [|k' ks Hs IH Hall]; simpl.
  - constructor; constructor.
  - destruct (Z.leb k k') eqn:E.
    + apply Z.leb_le in E. constructor.
      * constructor; assumption.
      * constructor; [exact E|].
        eapply Forall_impl; [|exact Hall]. intros; lia.
    + apply Z.leb_gt in E. constructor; [exact IH|].
      eapply Permutation_Forall.
      * apply Permutation_sym, insert_sorted_perm.
      * constructor; [lia | exact Hall].
Qed.

Lemma sort_keys_Z (ks : list Z) :
  StronglySorted Z.le (sort_keys Z.leb ks).
Proof.
  induction ks; simpl; [constructor | apply insert_sorted_Z; assumption].
Qed.

Lemma strongly_sorted_lt (ks : list Z) :
  StronglySorted Z.le ks -> NoDup ks ->
  StronglySorted Z.lt ks.
Proof.
  induction 1 as [|k ks Hs IH Hall]; intros Hnd; [constructor|].
  inversion Hnd as [|? ? Hk Hnd']; subst. constructor; [auto|].
  apply Forall_forall. intros x Hx.
  rewrite Forall_forall in Hall. specialize (Hall x Hx).
  assert (x <> k) by (intros ->; contradiction). lia.
Qed.

Lemma group_keys_Z_increasing (ks : list Z) :
  StronglySorted Z.lt (group_keys Z.eq_dec Z.leb ks).
Proof.
  apply strongly_sorted_lt; [apply sort_keys_Z | apply group_keys_NoDup].
Qed.

(* ================================================================== *)
(** * The loader *)
(* ================================================================== *)

Section LoaderFacts.

Import PyStr.

Lemma export_not_excel (sheet_id : string) :
  let u := ("https://docs.google.com/spreadsheets/d/" ++ sheet_id
            ++ "/export?format=csv")%string in
  endswith ".xlsx" (lower u) || endswith ".xls" (lower u) = false.
Proof.
  cbv zeta. rewrite <- append_assoc, lower_app.
  rewrite !endswith_app_long by (simpl; lia). reflexivity.
Qed.

(** The rewriting, when the edit-link pattern is present. *)
Lemma google_sheets_export_found (u : string) :
  contains "docs.google.com" u = true -> contains "/edit" u = true ->
  contains "/d/" u = true ->
  exists before sheet_id rest,
    u = (before ++ "/d/" ++ sheet_id ++ rest)%string /\
    (forall pre post, u = (pre ++ "/d/" ++ post)%string ->
                      String.length before <= String.length pre) /\
    contains "/" sheet_id = false /\
    (rest = "" \/ exists rest', rest = ("/" ++ rest')%string) /\
    google_sheets_export u
    = ("https://docs.google.com/spreadsheets/d/" ++ sheet_id
       ++ "/export?format=csv")%string.
Proof.
  intros Hdocs Hedit Hd.
  destruct (partition_found_iff _ _ Hd) as [before [r E]].
  destruct (partition_found _ _ _ _ E) as [Hu Hfirst].
  destruct (partition_fst "/d/" r) as [post1 [Hr Hpost1]].
  set (piece := fst (partition "/d/" r)) in *.
  destruct (partition_fst "/" piece) as [post2 [Hp Hpost2]].
  set (sheet_id := fst (partition "/" piece)) in *.
  exists before, sheet_id, (post2 ++ post1)%string.
  repeat split.
  - rewrite Hu, Hr, Hp at 1. rewrite !append_assoc. reflexivity.
  - exact Hfirst.
  - apply partition_char_fst.
  - destruct Hpost2 as [-> | [r2 ->]].
    + destruct Hpost1 as [-> | [r1 ->]]; [left; reflexivity|].
      right. exists ("d/" ++ r1)%string. reflexivity.
    + right. exists (r2 ++ post1)%string. reflexivity.
  - unfold google_sheets_export. rewrite Hdocs, Hedit. cbn [andb].
    rewrite (split_second "/d/" u before r) by (discriminate || exact E).
    cbn [obind]. fold piece. rewrite split_first. reflexivity.
Qed.

Lemma google_sheets_export_not_found (u : string) :
  contains "/d/" u = false -> google_sheets_export u = u.
Proof.
  intros H. unfold google_sheets_export.
  destruct (contains "docs.google.com" u && contains "/edit" u);
    [|reflexivity].
  rewrite (split_no_second _ _ H). reflexivity.
Qed.

End LoaderFacts.

Section LoaderResults.

Variable read_csv read_excel : source -> outcome DataFrame.

Import PyStr.

Lemma pd_read_csv_requests (src : source) (w : World) :
  requests (fst (pd_read_csv read_csv src w)) = requests w ++ [ReadCsv src].
Proof.
  unfold pd_read_csv, bind, log_request, lift, alloc. simpl.
  destruct (read_csv src); reflexivity.
Qed.

Lemma pd_read_excel_requests (src : source) (w : World) :
  requests (fst (pd_read_excel read_excel src w))
  = requests w ++ [ReadExcel src].
Proof.
  unfold pd_read_excel, bind, log_request, lift, alloc. simpl.
  destruct (read_excel src); reflexivity.
Qed.

(** What [load_data_from_url] asks for, for a URL that is not empty: one
    read of the rewritten, trimmed URL; and no exception leaves it. *)
Lemma load_data_from_url_request (url : string) (w : World) :
  url <> "" ->
  let target := google_sheets_export (strip url) in
  (exists q,
      requests (fst (load_data_from_url read_csv read_excel url w))
      = requests w ++ [q] /\
      q = if endswith ".xlsx" (lower target) || endswith ".xls" (lower target)
          then ReadExcel (FromUrl target) else ReadCsv (FromUrl target)) /\
  exists r, snd (load_data_from_url read_csv read_excel url w) = Ok r.
Proof.
  intros Hne target. unfold load_data_from_url.
  destruct (String.eqb_spec url ""); [contradiction|].
  fold target. unfold try_except.
  destruct (endswith ".xlsx" (lower target) || endswith ".xls" (lower target)).
  - unfold pd_read_excel, bind, log_request, lift, alloc, ret, emit. simpl.
    destruct (read_excel (FromUrl target)); simpl; eauto.
  - unfold pd_read_csv, bind, log_request, lift, alloc, ret, emit. simpl.
    destruct (read_csv (FromUrl target)); simpl; eauto.
Qed.

(** C8.  A URL that holds the Google Sheets edit-link pattern
    ([docs.google.com] and [/edit]) is trimmed and then rewritten: when
    [/d/] occurs, the document id is the text after its first occurrence
    up to the next slash (or the end), and the loader reads the CSV export
    of that id; when [/d/] does not occur the id cannot be extracted and
    the URL is read as it is.  No exception leaves the loader.  The link
    of the specification rewrites as it says. *)
Theorem sheets_link_rewritten (url : string) :
  contains "docs.google.com" url = true ->
  contains "/edit" url = true ->
  let u := strip url in
  (contains "/d/" u = true ->
   exists before sheet_id rest,
     u = (before ++ "/d/" ++ sheet_id ++ rest)%string /\
     (forall pre post, u = (pre ++ "/d/" ++ post)%string ->
                       String.length before <= String.length pre) /\
     contains "/" sheet_id = false /\
     (rest = "" \/ exists rest', rest = ("/" ++ rest')%string) /\
     forall w,
       requests (fst (load_data_from_url read_csv read_excel url w))
       = requests w
         ++ [ReadCsv (FromUrl ("https://docs.google.com/spreadsheets/d/"
                               ++ sheet_id ++ "/export?format=csv")%string)])
  /\
  (contains "/d/" u = false ->
   google_sheets_export u = u /\
   forall w,
     requests (fst (load_data_from_url read_csv read_excel url w))
     = requests w ++ [ReadCsv (FromUrl u)] \/
     requests (fst (load_data_from_url read_csv read_excel url w))
     = requests w ++ [ReadExcel (FromUrl u)])
  /\
  (forall w, exists r,
      snd (load_data_from_url read_csv read_excel url w) = Ok r)
  /\
  google_sheets_export
    "https://docs.google.com/spreadsheets/d/ABC123/edit#gid=0"
  = "https://docs.google.com/spreadsheets/d/ABC123/export?format=csv".
Proof.
  intros Hdocs Hedit u.
  assert (Hne : url <> "") by (intros ->; discriminate).
  assert (Hdocs' : contains "docs.google.com" u = true).
  { apply (contains_strip _ "d" "m" "ocs.google.com");
      [reflexivity | exists "docs.google.co"; reflexivity
      | reflexivity | reflexivity | exact Hdocs]. }
  assert (Hedit' : contains "/edit" u = true).
  { apply (contains_strip _ "/" "t" "edit");
      [reflexivity | exists "/edi"; reflexivity
      | reflexivity | reflexivity | exact Hedit]. }
  split; [|split; [|split]].
  - intros Hd.
    destruct (google_sheets_export_found u Hdocs' Hedit' Hd)
      as [before [sheet_id [rest [Hu [Hfirst [Hid [Hrest Hexp]]]]]]].
    exists before, sheet_id, rest. repeat split; try assumption.
    intros w.
    destruct (load_data_from_url_request url w Hne) as [[q [Hq Hsrc]] _].
    fold u in Hsrc. rewrite Hexp in Hsrc.
    rewrite export_not_excel in Hsrc. congruence.
  - intros Hd. pose proof (google_sheets_export_not_found u Hd) as Hexp.
    split; [exact Hexp|]. intros w.
    destruct (load_data_from_url_request url w Hne) as [[q [Hq Hsrc]] _].
    fold u in Hsrc. rewrite Hexp in Hsrc. rewrite Hq, Hsrc.
    destruct (endswith ".xlsx" (lower u) || endswith ".xls" (lower u));
      [right | left]; reflexivity.
  - intros w. apply (load_data_from_url_request url w Hne).
  - reflexivity.
Qed.

End LoaderResults.

Lemma sheets_link_rewritten_witness :
  exists before sheet_id rest,
    PyStr.strip "  https://docs.google.com/spreadsheets/d/ABC123/edit#gid=0 "
    = (before ++ "/d/" ++ sheet_id ++ rest)%string /\
    forall w,
      requests
        (fst (load_data_from_url sample_read sample_read
                "  https://docs.google.com/spreadsheets/d/ABC123/edit#gid=0 "
                w))
      = requests w
        ++ [ReadCsv (FromUrl ("https://docs.google.com/spreadsheets/d/"
                              ++ sheet_id ++ "/export?format=csv")%string)].
Proof.
  destruct (sheets_link_rewritten sample_read sample_read
              "  https://docs.google.com/spreadsheets/d/ABC123/edit#gid=0 "
              eq_refl eq_refl) as [H _].
  destruct (H eq_refl) as [before [sheet_id [rest [Hu [_ [_ [_ Hw]]]]]]].
  exists before, sheet_id, rest. split; [exact Hu | exact Hw].
Defined.

(* ================================================================== *)
(** * The page script *)
(* ================================================================== *)

Section MainResults.

Variable read_csv read_excel : source -> outcome DataFrame.
Variable parse_datetime : datetime_parser.
Variable show_num : Z -> string.
Variable show_time : timestamp -> string.

(** The reads of [load_data_from_file]: one read of the file, chosen by
    the extension of its name, or none for another extension. *)
Lemma load_data_from_file_requests (f : UploadedFile) (w : World) :
  requests (fst (load_data_from_file read_csv read_excel (Some f) w))
  = requests w
    ++ (if PyStr.endswith ".csv" (PyStr.lower (name f))
        then [ReadCsv (FromFile f)]
        else if PyStr.endswith ".xlsx" (PyStr.lower (name f))
                || PyStr.endswith ".xls" (PyStr.lower (name f))
             then [ReadExcel (FromFile f)]
             else []).
Proof.
  unfold load_data_from_file, try_except.
  destruct (PyStr.endswith ".csv" (PyStr.lower (name f))).
  - unfold pd_read_csv, bind, log_request, lift, alloc, ret, emit. simpl.
    destruct (read_csv (FromFile f)); reflexivity.
  - destruct (PyStr.endswith ".xlsx" (PyStr.lower (name f))
              || PyStr.endswith ".xls" (PyStr.lower (name f))).
    + unfold pd_read_excel, bind, log_request, lift, alloc, ret, emit. simpl.
      destruct (read_excel (FromFile f)); reflexivity.
    + unfold bind, emit, ret. simpl. rewrite app_nil_r. reflexivity.
Qed.

End MainResults.

(* ================================================================== *)
(** * Worked inputs *)
(* ================================================================== *)

Example strip_year : PyStr.strip "  Year  " = "Year".
Proof. reflexivity. Qed.

Example split_overlapping :
  PyStr.split "/d/" "x/d/d/y/d/z" = ["x"; "d/y"; "z"].
Proof. reflexivity. Qed.

Example split_trailing : PyStr.split "/d/" "a/d/" = ["a"; ""].
Proof. reflexivity. Qed.

Example isearch_mixed_case :
  PyStr.isearch "Present" "was pReSenT today" = true.
Proof. reflexivity. Qed.

(** C1.  A missing column can raise.  An on-call frame without [Status]
    stops at the headline with [KeyError]; a detentions frame with [Year]
    but without [Detention Attendance], and one with [Issued Date] but
    without [Student], stop in their breakdowns with [KeyError].  Each of
    the three frames is what its normaliser returns. *)
Theorem missing_column_raises
  (show_num : Z -> string) (show_time : timestamp -> string) :
  returned (prepare_oncall sample_parse_datetime) incidents_without_status
  = Ok incidents_without_status /\
  render_oncall_dashboard incidents_without_status start
  = ({| objects := []; page := [Header "On-Call Dashboard"];
        requests := [] |}, Raise KeyError) /\
  returned (prepare_detentions sample_parse_datetime)
    detentions_without_attendance
  = Ok detentions_without_attendance /\
  snd (render_detentions_dashboard show_num show_time
         detentions_without_attendance start)
  = Raise KeyError /\
  returned (prepare_detentions sample_parse_datetime)
    detentions_without_student
  = Ok detentions_without_student /\
  snd (render_detentions_dashboard show_num show_time
         detentions_without_student start)
  = Raise KeyError.
Proof. repeat split; reflexivity. Qed.

(** C6.  [prepare_oncall] does not trim labels: a column labelled
    [" Status "] keeps its label, and a column labelled [" Date/Time "]
    is neither renamed nor parsed, so the frame differs from the one
    obtained with the trimmed labels, and the dashboard then finds no
    [Status]. *)
Theorem oncall_labels_not_trimmed :
  returned (prepare_oncall sample_parse_datetime) oncall_spaced
  = Ok oncall_spaced /\
  returned (prepare_oncall sample_parse_datetime) oncall_trimmed
  = Ok {| nrows := 1;
          cols := [("Status", [Str "Resolved"]);
                   ("DateTime", [Time {| ts_day := 19723; ts_ns := 0 |}])] |} /\
  returned (prepare_oncall sample_parse_datetime) oncall_spaced
  <> returned (prepare_oncall sample_parse_datetime) oncall_trimmed /\
  snd (render_oncall_dashboard oncall_spaced start) = Raise KeyError.
Proof. repeat split; try reflexivity. discriminate. Qed.


(** Two rows, one without a Year: the breakdown has the single group 7,
    its count is 1, and no group stands for the missing Year.  The same
    for incident types. *)
Lemma null_category_is_dropped :
  year_breakdown detentions_missing_year
  = Ok [ {| g_key := Num 7; g_issued := 1; g_attended := 1;
            g_rate := Finite (1 # 1) |} ] /\
  type_counts incidents_missing_type = Ok [(Str "Fight", 1)] /\
  ~ (forall groups, year_breakdown detentions_missing_year = Ok groups ->
                    list_sum (map g_issued groups)
                    = nrows detentions_missing_year) /\
  ~ (forall counts, type_counts incidents_missing_type = Ok counts ->
                    list_sum (map snd counts) = nrows incidents_missing_type).
Proof.
  repeat split; try reflexivity.
  - intros H. specialize (H _ eq_refl). discriminate H.
  - intros H. specialize (H _ eq_refl). discriminate H.
Qed.

(** C5.  The day breakdown of the detentions counts students, not
    rows.  On the sheet of one row with a date and no student the only
    day has the Issued count 0 and an infinite rate, while one row has a
    date; the day breakdown of the incidents counts the row of the same
    day.  On the sheet of one row with a student and no date the
    breakdown raises [TypeError], where the one of the incidents gives
    the empty table.  Each detentions frame is what the normaliser
    returns. *)
Theorem day_count_skips_missing_student
  (show_num : Z -> string) (show_time : timestamp -> string) :
  returned (prepare_detentions sample_parse_datetime)
    detentions_missing_student
  = Ok detentions_missing_student /\
  daily_detentions detentions_missing_student
  = Ok [ {| g_key := 19723%Z; g_issued := 0; g_attended := 1;
            g_rate := Infinite |} ] /\
  ~ (forall groups issued,
        daily_detentions detentions_missing_student = Ok groups ->
        select detentions_missing_student "Issued Date" = OneColumn issued ->
        list_sum (map g_issued groups) = count_notna issued) /\
  daily_incidents incidents_one_day = Ok [(19723%Z, 1)] /\
  returned (prepare_detentions sample_parse_datetime) detentions_undated
  = Ok detentions_undated /\
  daily_detentions detentions_undated = Raise TypeError /\
  snd (render_detentions_dashboard show_num show_time detentions_undated
         start)
  = Raise TypeError /\
  daily_incidents incidents_undated = Ok [].
Proof.
  repeat split; try reflexivity.
  intros H. specialize (H _ _ eq_refl eq_refl). discriminate H.
Qed.


(** The caller's frame has its label trimmed by the call. *)
Lemma caller_labels_are_trimmed :
  argument_after (prepare_detentions sample_parse_datetime)
    detentions_spaced_year
  = {| nrows := 1; cols := [("Year", [Num 7])] |} /\
  argument_after (prepare_detentions sample_parse_datetime)
    detentions_spaced_year
  <> detentions_spaced_year.
Proof. split; [reflexivity | discriminate]. Qed.

(* ================================================================== *)
(** * Selecting columns and counting *)
(* ================================================================== *)

Lemma has_column_select (df : DataFrame) (label : string) :
  has_column df label = true <-> select df label <> NoColumn.
Proof.
  unfold has_column, select, labels. destruct df as [n cs]. simpl.
  induction cs as [|c cs IH]; simpl.
  - split; [discriminate | congruence].
  - rewrite (String.eqb_sym label (fst c)).
    destruct (String.eqb (fst c) label); simpl.
    + split; [|reflexivity]. intros _.
      destruct (filter _ cs); discriminate.
    + exact IH.
Qed.

Lemma has_column_one (df : DataFrame) (label : string) (s : Series) :
  select df label = OneColumn s -> has_column df label = true.
Proof. intros H. apply has_column_select. rewrite H. discriminate. Qed.

Lemma getitem_one (e : exn) (df : DataFrame) (label : string) (s : Series) :
  select df label = OneColumn s -> getitem e df label = Ok s.
Proof. unfold getitem. intros ->. reflexivity. Qed.

Lemma getitem_none (e : exn) (df : DataFrame) (label : string) :
  has_column df label = false -> getitem e df label = Raise KeyError.
Proof.
  intros H. unfold getitem. destruct (select df label) eqn:E; [reflexivity| |];
    exfalso; assert (has_column df label = true)
      by (apply has_column_select; rewrite E; discriminate); congruence.
Qed.

Lemma select_in (df : DataFrame) (label : string) (s : Series) :
  select df label = OneColumn s -> In (label, s) (cols df).
Proof.
  unfold select. intros H.
  destruct (filter (fun c => String.eqb (fst c) label) (cols df))
    as [|c [|c' l]] eqn:E; try discriminate.
  injection H as <-.
  assert (Hin : In c (filter (fun c => String.eqb (fst c) label) (cols df)))
    by (rewrite E; left; reflexivity).
  apply filter_In in Hin. destruct Hin as [Hin Hl].
  apply String.eqb_eq in Hl. subst label. destruct c; exact Hin.
Qed.

Lemma filter_length_le {A} (f g : A -> bool) (l : list A) :
  (forall x, f x = true -> g x = true) ->
  List.length (filter f l) <= List.length (filter g l).
Proof.
  intros H. induction l as [|a l IH]; [apply le_n|].
  simpl. destruct (f a) eqn:Ef.
  - rewrite (H a Ef). simpl. lia.
  - destruct (g a); simpl; lia.
Qed.

Lemma filter_snd_combine_le {A B} (f : B -> bool) (a : list A) (b : list B) :
  List.length (filter (fun r => f (snd r)) (combine a b))
  <= List.length (filter f b).
Proof.
  revert b. induction a as [|x a IH]; intros [|y b]; simpl; try lia.
  specialize (IH b). destruct (f y); simpl; lia.
Qed.

Lemma exactly_filter {A} (P : A -> Prop) (f : A -> bool) (l : list A) :
  (forall x, f x = true <-> P x) ->
  exactly P l (List.length (filter f l)).
Proof.
  intros H. induction l as [|a l IH]; simpl; [constructor|].
  destruct (f a) eqn:E.
  - simpl. constructor; [apply H, E | exact IH].
  - apply exactly_no; [|exact IH]. intros Hp. apply H in Hp. congruence.
Qed.

Lemma exactly_unique {A} (P : A -> Prop) (l : list A) (j k : nat) :
  exactly P l j -> exactly P l k -> j = k.
Proof.
  intros Hj. revert k. induction Hj; intros k' Hk; inversion Hk; subst;
    try contradiction; auto.
Qed.

(** The headline test is the case-insensitive containment of the
    specification. *)
Lemma attended_loose_iff (show_num : Z -> string)
  (show_time : timestamp -> string) (c : cell) :
  attended_loose show_num show_time c = true <->
  contains_ignoring_case "present" (to_text show_num show_time c).
Proof.
  unfold attended_loose. rewrite isearch_iff.
  split; intros [pre [mid [post [E L]]]]; exists pre, mid, post;
    (split; [exact E | exact L]).
Qed.

Lemma eq_text_iff (text : string) (c : cell) :
  eq_text text c = true <-> c = Str text.
Proof.
  destruct c; simpl; try (split; [discriminate | congruence]).
  rewrite String.eqb_eq. split; congruence.
Qed.

Lemma exact_implies_loose (show_num : Z -> string)
  (show_time : timestamp -> string) (c : cell) :
  eq_text "Present" c = true -> attended_loose show_num show_time c = true.
Proof. intros H. apply eq_text_iff in H. subst c. reflexivity. Qed.

Lemma getitem_ok (e : exn) (df : DataFrame) (label : string) (s : Series) :
  getitem e df label = Ok s -> select df label = OneColumn s.
Proof.
  unfold getitem. destruct (select df label); try discriminate.
  intros H. injection H as ->. reflexivity.
Qed.

Lemma detention_table_rows {K : Type} (attendance : Series)
  (groups : list (K * list (K * (cell * cell))))
  (t : list (detention_group K)) :
  detention_table attendance groups = Ok t -> t = map detention_agg groups.
Proof.
  unfold detention_table. destruct groups as [|g groups].
  - destruct (text_dtype attendance || datetime_dtype attendance);
      [discriminate|]. intros H. injection H as <-. reflexivity.
  - intros H. injection H as <-. reflexivity.
Qed.

Lemma detention_table_some {K : Type} (attendance : Series)
  (groups : list (K * list (K * (cell * cell)))) :
  groups <> [] ->
  detention_table attendance groups = Ok (map detention_agg groups).
Proof. destruct groups; [congruence | reflexivity]. Qed.

Section DetentionCounts.

Variable show_num : Z -> string.
Variable show_time : timestamp -> string.

Lemma headline_attended_one (df : DataFrame) (attendance : Series) :
  select df "Detention Attendance" = OneColumn attendance ->
  headline_attended show_num show_time df
  = Ok (List.length (filter (attended_loose show_num show_time) attendance)).
Proof.
  intros H. unfold headline_attended.
  rewrite (has_column_one _ _ _ H), (getitem_one _ _ _ _ H). reflexivity.
Qed.

Lemma year_breakdown_one (df : DataFrame) (year student attendance : Series) :
  select df "Year" = OneColumn year ->
  select df "Student" = OneColumn student ->
  select df "Detention Attendance" = OneColumn attendance ->
  year_breakdown df
  = detention_table attendance
      (groupby cell_eq_dec cell_leb fst
         (filter (fun r => notna (fst r))
            (combine year (combine student attendance)))).
Proof.
  intros Hy Hs Ha. unfold year_breakdown.
  rewrite (getitem_one _ _ _ _ Hy), (getitem_one _ _ _ _ Hs),
    (getitem_one _ _ _ _ Ha). reflexivity.
Qed.

(** With a row that has a Year there is a group, and the table is that
    of the groups. *)
Lemma year_breakdown_some (df : DataFrame) (year student attendance : Series) :
  select df "Year" = OneColumn year ->
  select df "Student" = OneColumn student ->
  select df "Detention Attendance" = OneColumn attendance ->
  (exists r, In r (combine year (combine student attendance)) /\
             fst r <> Null) ->
  year_breakdown df
  = Ok (map detention_agg
          (groupby cell_eq_dec cell_leb fst
             (filter (fun r => notna (fst r))
                (combine year (combine student attendance))))).
Proof.
  intros Hy Hs Ha [r [Hr Hn]].
  rewrite (year_breakdown_one df _ _ _ Hy Hs Ha).
  apply detention_table_some. intros E. apply groupby_nil in E.
  assert (Hin : In r (filter (fun r => notna (fst r))
                        (combine year (combine student attendance)))).
  { apply filter_In. split; [exact Hr|]. destruct (fst r); try reflexivity.
    congruence. }
  rewrite E in Hin. exact Hin.
Qed.

(** Whatever table the Year breakdown returns is the table of the
    groups of the three columns. *)
Lemma year_breakdown_ok (df : DataFrame)
  (groups : list (detention_group cell)) :
  year_breakdown df = Ok groups ->
  exists year student attendance,
    select df "Year" = OneColumn year /\
    select df "Student" = OneColumn student /\
    select df "Detention Attendance" = OneColumn attendance /\
    groups
    = map detention_agg
        (groupby cell_eq_dec cell_leb fst
           (filter (fun r => notna (fst r))
              (combine year (combine student attendance)))).
Proof.
  unfold year_breakdown. intros H.
  destruct (getitem ValueError df "Year") as [year|] eqn:Hy;
    [|discriminate].
  destruct (getitem ValueError df "Student") as [student|] eqn:Hs;
    [|discriminate].
  destruct (getitem ValueError df "Detention Attendance")
    as [attendance|] eqn:Ha; [|discriminate].
  cbn [obind] in H. apply detention_table_rows in H.
  exists year, student, attendance.
  repeat split; try (eapply getitem_ok; eassumption). exact H.
Qed.

Lemma attended_sum {K : Type} (K_eq_dec : forall a b : K, {a = b} + {a <> b})
  (K_leb : K -> K -> bool) (rows : list (K * (cell * cell))) :
  list_sum (map g_attended
              (map detention_agg (groupby K_eq_dec K_leb fst rows)))
  = List.length (filter (fun r => eq_text "Present" (snd (snd r))) rows).
Proof.
  rewrite map_map.
  rewrite <- (groupby_sum K_eq_dec K_leb fst
                (fun r => eq_text "Present" (snd (snd r))) rows).
  f_equal. apply map_ext. intros g. cbn [detention_agg g_attended].
  apply filter_map_length.
Qed.

Lemma issued_sum {K : Type} (K_eq_dec : forall a b : K, {a = b} + {a <> b})
  (K_leb : K -> K -> bool) (rows : list (K * (cell * cell))) :
  list_sum (map g_issued
              (map detention_agg (groupby K_eq_dec K_leb fst rows)))
  = List.length (filter (fun r => notna (fst (snd r))) rows).
Proof.
  rewrite map_map.
  rewrite <- (groupby_sum K_eq_dec K_leb fst
                (fun r => notna (fst (snd r))) rows).
  f_equal. apply map_ext. intros g. cbn [detention_agg g_issued].
  unfold count_notna. apply filter_map_length.
Qed.

(** The groups of the Year breakdown: one for each Year that is not
    missing, each once. *)
Lemma year_group_keys (rows : list (cell * (cell * cell))) :
  let groups :=
    map detention_agg
      (groupby cell_eq_dec cell_leb fst
         (filter (fun r => notna (fst r)) rows)) in
  NoDup (map g_key groups) /\
  forall k, In k (map g_key groups) <->
            k <> Null /\ exists r, In r rows /\ fst r = k.
Proof.
  cbv zeta. rewrite map_map.
  replace (map (fun x => g_key (detention_agg x))
             (groupby cell_eq_dec cell_leb fst
                (filter (fun r => notna (fst r)) rows)))
    with (group_keys cell_eq_dec cell_leb
            (map fst (filter (fun r : cell * (cell * cell) => notna (fst r))
                        rows)))
    by (rewrite <- groupby_keys; apply map_ext; reflexivity).
  split; [apply group_keys_NoDup|].
  intros k. rewrite group_keys_In, in_map_iff. split.
  - intros [r [<- Hr]]. apply filter_In in Hr. destruct Hr as [Hr Hn].
    split; [|eauto]. destruct (fst r); try discriminate; congruence.
  - intros [Hk [r [Hr <-]]]. exists r. split; [reflexivity|].
    apply filter_In. split; [exact Hr|].
    destruct (fst r); try reflexivity. congruence.
Qed.

(** The Attended count of a group: its rows whose attendance is exactly
    "Present". *)
Lemma year_group_attended (rows : list (cell * (cell * cell)))
  (g : detention_group cell) :
  In g (map detention_agg
          (groupby cell_eq_dec cell_leb fst
             (filter (fun r => notna (fst r)) rows))) ->
  exactly (fun r => fst r = g_key g /\ snd (snd r) = Str "Present")
    rows (g_attended g).
Proof.
  intros Hg.
  assert (Hk : g_key g <> Null).
  { apply (proj2 (year_group_keys rows)). apply in_map, Hg. }
  apply in_map_iff in Hg. destruct Hg as [g0 [<- Hg0]].
  cbn [detention_agg g_attended g_key] in *.
  rewrite (groupby_rows _ _ _ _ _ Hg0).
  rewrite filter_map_length, !filter_filter_length.
  apply exactly_filter. intros r.
  rewrite !andb_true_iff, eq_text_iff.
  destruct (cell_eq_dec (fst r) (fst g0)) as [E|E].
  - split; [intros [_ [_ H]]; auto|]. intros [_ H].
    split; [|split; [reflexivity | exact H]].
    rewrite E. destruct (fst g0); try reflexivity. congruence.
  - split; [intros [_ [H _]]; discriminate | intros [H _]; congruence].
Qed.

Lemma attended_below_loose (rows : list (cell * (cell * cell)))
  (year student attendance : Series) :
  rows = filter (fun r => notna (fst r))
           (combine year (combine student attendance)) ->
  List.length (filter (fun r => eq_text "Present" (snd (snd r))) rows)
  <= List.length (filter (attended_loose show_num show_time) attendance).
Proof.
  intros ->. rewrite filter_filter_length.
  eapply Nat.le_trans;
    [|apply (filter_length_le (eq_text "Present")), exact_implies_loose].
  eapply Nat.le_trans;
    [|apply (filter_snd_combine_le (eq_text "Present") student)].
  eapply Nat.le_trans;
    [|apply (filter_snd_combine_le
               (fun r : cell * cell => eq_text "Present" (snd r)) year)].
  apply filter_length_le. intros x H.
  apply andb_true_iff in H. apply H.
Qed.

(** C4.  In a detentions frame with an attendance column the headline
    count is the number of values whose text holds "present" up to case.
    With a Year and a Student column and a row that has a Year, the
    Year breakdown has one group for each Year, and the Attended count
    of a group is the number of its rows whose attendance is exactly
    "Present".  Whenever the breakdown returns a table, its Attended
    counts add up to at most the headline count.  On the one-row sheet
    with the lowercase value "present" the headline count is 1 and the
    only group has Attended 0. *)
Theorem per_year_attended_below_headline
  (df : DataFrame) (attendance : Series) :
  select df "Detention Attendance" = OneColumn attendance ->
  (exists a,
      headline_attended show_num show_time df = Ok a /\
      exactly (fun c => contains_ignoring_case "present"
                          (to_text show_num show_time c)) attendance a /\
      (forall year student,
          select df "Year" = OneColumn year ->
          select df "Student" = OneColumn student ->
          let rows := combine year (combine student attendance) in
          (exists r, In r rows /\ fst r <> Null) ->
          exists groups,
            year_breakdown df = Ok groups /\
            NoDup (map g_key groups) /\
            (forall k, In k (map g_key groups) <->
                       k <> Null /\ exists r, In r rows /\ fst r = k) /\
            (forall g, In g groups ->
               exactly (fun r => fst r = g_key g /\
                                 snd (snd r) = Str "Present")
                 rows (g_attended g))) /\
      (forall groups,
          year_breakdown df = Ok groups ->
          list_sum (map g_attended groups) <= a)) /\
  (headline_attended show_num show_time detentions_lowercase = Ok 1 /\
   year_breakdown detentions_lowercase
   = Ok [ {| g_key := Num 7; g_issued := 1; g_attended := 0;
             g_rate := Finite (0 # 1) |} ]).
Proof.
  intros Ha. split; [|split; reflexivity].
  exists (List.length (filter (attended_loose show_num show_time) attendance)).
  split; [apply (headline_attended_one df attendance Ha)|].
  split; [apply exactly_filter, attended_loose_iff|].
  split.
  - intros year student Hy Hs rows Hrow.
    eexists.
    split; [apply (year_breakdown_some df year student attendance
                     Hy Hs Ha Hrow)|].
    destruct (year_group_keys rows) as [Hnd Hkeys].
    split; [exact Hnd|]. split; [exact Hkeys|].
    intros g. apply year_group_attended.
  - intros groups Hg.
    destruct (year_breakdown_ok df groups Hg)
      as [year [student [attendance' [Hy [Hs [Ha' ->]]]]]].
    assert (attendance' = attendance) by congruence. subst attendance'.
    rewrite attended_sum. eapply attended_below_loose. reflexivity.
Qed.

End DetentionCounts.

Lemma per_year_attended_below_headline_witness :
  headline_attended sample_show_num sample_show_time detentions_mixed_case
  = Ok 4 /\
  exists groups,
    year_breakdown detentions_mixed_case = Ok groups /\
    map g_key groups = [Num 7; Num 8] /\
    map g_attended groups = [1; 0] /\
    list_sum (map g_attended groups) <= 4.
Proof.
  destruct (per_year_attended_below_headline sample_show_num sample_show_time
              detentions_mixed_case
              [Str "Present"; Str "present"; Str "PRESENT (late)";
               Str "Present"] eq_refl)
    as [[a [Ha [_ [Hgroups Hbound]]]] _].
  injection Ha as <-. split; [reflexivity|].
  destruct (Hgroups [Num 7; Num 7; Num 8; Null]
              [Str "Ada"; Str "Bob"; Str "Cy"; Str "Di"] eq_refl eq_refl)
    as [groups [Hg _]].
  - exists (Num 7, (Str "Ada", Str "Present")).
    split; [left; reflexivity | discriminate].
  - exists groups. split; [exact Hg|].
    pose proof (Hbound groups Hg) as Hle.
    injection Hg as <-. repeat split. exact Hle.
Defined.

Section HeadlineResults.

Variable show_num : Z -> string.
Variable show_time : timestamp -> string.




End HeadlineResults.


(* ================================================================== *)
(** * Breakdowns *)
(* ================================================================== *)

Lemma count_occ_filter_eq (l : list cell) (k : cell) :
  count_occ cell_eq_dec l k
  = List.length (filter (fun r => if cell_eq_dec r k then true else false) l).
Proof.
  induction l as [|a l IH]; [reflexivity|].
  simpl. destruct (cell_eq_dec a k); simpl; congruence.
Qed.

Lemma count_occ_notna (l : list cell) (k : cell) :
  k <> Null -> count_occ cell_eq_dec (filter notna l) k
               = count_occ cell_eq_dec l k.
Proof.
  intros Hk. induction l as [|a l IH]; [reflexivity|].
  destruct a; cbn [filter notna isna negb count_occ];
    try (destruct (cell_eq_dec _ k); congruence).
Qed.

Lemma cell_eqb_eq (a b : cell) : cell_eqb a b = true <-> a = b.
Proof.
  unfold cell_eqb. destruct (cell_eq_dec a b); split; congruence.
Qed.

Lemma first_seen_In (l : list cell) (x : cell) :
  In x (first_seen l) <-> In x l.
Proof.
  induction l as [|c l IH]; [reflexivity|].
  cbn [first_seen In]. rewrite filter_In, IH.
  destruct (cell_eq_dec x c) as [->|Hne].
  - split; auto.
  - split.
    + intros [H | [H _]]; auto.
    + intros [H | H]; [auto|]. right. split; [exact H|].
      apply negb_true_iff. destruct (cell_eqb x c) eqn:E; [|reflexivity].
      apply cell_eqb_eq in E. congruence.
Qed.

Lemma first_seen_NoDup (l : list cell) : NoDup (first_seen l).
Proof.
  induction l as [|c l IH]; [constructor|].
  cbn [first_seen]. constructor.
  - rewrite filter_In. intros [_ H]. apply negb_true_iff in H.
    assert (cell_eqb c c = true) by (apply cell_eqb_eq; reflexivity).
    congruence.
  - apply NoDup_filter, IH.
Qed.

Lemma count_occ_first_seen_sum (l : list cell) :
  list_sum (map (count_occ cell_eq_dec l) (first_seen l))
  = List.length l.
Proof.
  pose proof (sum_by_key cell_eq_dec (fun c : cell => c) (fun _ => 1) l
                (first_seen l) (first_seen_NoDup l)) as H.
  assert (Hone : forall l' : list cell,
             list_sum (map (fun _ => 1) l') = List.length l').
  { induction l' as [|a l' IHl]; simpl; [reflexivity | rewrite IHl; lia]. }
  rewrite Hone in H. rewrite <- H by (intros r Hr; apply first_seen_In, Hr).
  f_equal. apply map_ext. intros k.
  rewrite Hone. apply count_occ_filter_eq.
Qed.

Lemma notna_iff (c : cell) : notna c = true <-> c <> Null.
Proof.
  destruct c; simpl; split; intros H; try reflexivity; try discriminate.
  exfalso. apply H. reflexivity.
Qed.

Lemma value_counts_spec (s : Series) :
  let counts := value_counts s in
  NoDup (map fst counts) /\
  (forall k, In k (map fst counts) <-> In k s /\ k <> Null) /\
  (forall k n, In (k, n) counts -> n = count_occ cell_eq_dec s k) /\
  list_sum (map snd counts) = count_notna s.
Proof.
  cbv zeta. unfold value_counts.
  set (present := filter notna s).
  set (raw := map (fun v => (v, count_occ cell_eq_dec present v))
                (first_seen present)).
  pose proof (sort_keys_perm (fun a b : cell * nat => snd b <=? snd a) raw)
    as Hperm.
  assert (Hfst : map fst raw = first_seen present).
  { unfold raw. rewrite map_map. apply map_id. }
  assert (Hkeys : forall k, In k (first_seen present)
                            <-> In k s /\ k <> Null).
  { intros k. rewrite first_seen_In. unfold present. rewrite filter_In.
    rewrite notna_iff. reflexivity. }
  split; [|split; [|split]].
  - eapply Permutation_NoDup;
      [apply Permutation_sym, Permutation_map, Hperm|].
    rewrite Hfst. apply first_seen_NoDup.
  - intros k. rewrite <- Hkeys, <- Hfst. split; intros H.
    + eapply Permutation_in; [apply Permutation_map, Hperm | exact H].
    + eapply Permutation_in;
        [apply Permutation_sym, Permutation_map, Hperm | exact H].
  - intros k n H.
    assert (Hraw : In (k, n) raw)
      by (eapply Permutation_in; [exact Hperm | exact H]).
    unfold raw in Hraw. apply in_map_iff in Hraw.
    destruct Hraw as [v [E Hv]]. injection E as -> <-.
    apply count_occ_notna. apply Hkeys, Hv.
  - rewrite (list_sum_perm _ _ (Permutation_map snd Hperm)).
    unfold raw. rewrite map_map. cbn [snd].
    rewrite count_occ_first_seen_sum. reflexivity.
Qed.

Lemma dt_date_ok (s : Series) :
  forallb datetime_like s = true ->
  dt_date (filter notna s) = Ok (map day_of (filter notna s)).
Proof.
  induction s as [|c s IH]; intros H; [reflexivity|].
  simpl in H. apply andb_true_iff in H. destruct H as [Hc Hs].
  destruct c; try discriminate; simpl.
  - apply IH, Hs.
  - rewrite (IH Hs). reflexivity.
Qed.

Lemma combine_empty_r {A B} (l : list A) : combine l (@nil B) = [].
Proof. destruct l; reflexivity. Qed.

(** Pairing the kept days with the kept rows is taking the day of each
    kept row. *)
Lemma combine_days {A} (issued : Series) (rest : list A) :
  combine (map day_of (filter notna issued))
    (map snd (filter (fun r => notna (fst r)) (combine issued rest)))
  = map (fun r => (day_of (fst r), snd r))
      (filter (fun r => notna (fst r)) (combine issued rest)).
Proof.
  revert rest. induction issued as [|c issued IH]; intros rest.
  - reflexivity.
  - destruct rest as [|x rest].
    + cbn [combine filter map]. apply combine_empty_r.
    + simpl. destruct (notna c); simpl; rewrite IH; reflexivity.
Qed.

Lemma daily_detentions_one (df : DataFrame) (issued student attendance : Series) :
  select df "Issued Date" = OneColumn issued ->
  select df "Student" = OneColumn student ->
  select df "Detention Attendance" = OneColumn attendance ->
  forallb datetime_like issued = true ->
  daily_detentions df
  = detention_table attendance
      (groupby Z.eq_dec Z.leb fst
         (map (fun r => (day_of (fst r), snd r))
            (filter (fun r => notna (fst r))
               (combine issued (combine student attendance))))).
Proof.
  intros Hi Hs Ha Hd. unfold daily_detentions.
  rewrite (getitem_one _ _ _ _ Hi), (getitem_one _ _ _ _ Hs),
    (getitem_one _ _ _ _ Ha). cbn [obind].
  rewrite (dt_date_ok _ Hd). cbn [obind].
  rewrite combine_days. reflexivity.
Qed.

(** With a row that has a date there is a group, and the table is that
    of the groups. *)
Lemma daily_detentions_some (df : DataFrame)
  (issued student attendance : Series) :
  select df "Issued Date" = OneColumn issued ->
  select df "Student" = OneColumn student ->
  select df "Detention Attendance" = OneColumn attendance ->
  forallb datetime_like issued = true ->
  (exists r, In r (combine issued (combine student attendance)) /\
             fst r <> Null) ->
  daily_detentions df
  = Ok (map detention_agg
          (groupby Z.eq_dec Z.leb fst
             (map (fun r => (day_of (fst r), snd r))
                (filter (fun r => notna (fst r))
                   (combine issued (combine student attendance)))))).
Proof.
  intros Hi Hs Ha Hd [r [Hr Hn]].
  rewrite (daily_detentions_one df _ _ _ Hi Hs Ha Hd).
  apply detention_table_some. intros E. apply groupby_nil in E.
  apply map_eq_nil in E.
  assert (Hin : In r (filter (fun r => notna (fst r))
                        (combine issued (combine student attendance)))).
  { apply filter_In. split; [exact Hr|]. destruct (fst r); try reflexivity.
    congruence. }
  rewrite E in Hin. exact Hin.
Qed.

Lemma daily_incidents_one (df : DataFrame) (datetime : Series) :
  select df "DateTime" = OneColumn datetime ->
  forallb datetime_like datetime = true ->
  daily_incidents df
  = Ok (map incident_agg
          (groupby Z.eq_dec Z.leb fst
             (combine (map day_of (filter notna datetime))
                (filter notna datetime)))).
Proof.
  intros Hd Hl. unfold daily_incidents.
  rewrite (getitem_one _ _ _ _ Hd). cbn [obind].
  rewrite (dt_date_ok _ Hl). reflexivity.
Qed.

Lemma combine_map_self {A B} (f : A -> B) (l : list A) :
  combine (map f l) l = map (fun a => (f a, a)) l.
Proof. induction l; simpl; congruence. Qed.

Lemma detention_agg_keys {K : Type}
  (K_eq_dec : forall a b : K, {a = b} + {a <> b}) (K_leb : K -> K -> bool)
  (rows : list (K * (cell * cell))) :
  map g_key (map detention_agg (groupby K_eq_dec K_leb fst rows))
  = group_keys K_eq_dec K_leb (map fst rows).
Proof.
  rewrite map_map. rewrite <- groupby_keys. apply map_ext. reflexivity.
Qed.

Lemma detention_agg_issued {K : Type}
  (K_eq_dec : forall a b : K, {a = b} + {a <> b}) (K_leb : K -> K -> bool)
  (rows : list (K * (cell * cell))) (g : detention_group K) :
  In g (map detention_agg (groupby K_eq_dec K_leb fst rows)) ->
  g_issued g
  = List.length
      (filter (fun r => (if K_eq_dec (fst r) (g_key g) then true else false)
                        && notna (fst (snd r))) rows).
Proof.
  intros Hg. apply in_map_iff in Hg. destruct Hg as [g0 [<- Hg0]].
  cbn [detention_agg g_issued g_key]. unfold count_notna.
  rewrite (groupby_rows _ _ _ _ _ Hg0).
  rewrite filter_map_length, filter_filter_length. reflexivity.
Qed.

(** Where every row has a Student, the Issued count of a group is the
    number of its rows. *)
Lemma year_group_issued (rows : list (cell * (cell * cell)))
  (g : detention_group cell) :
  (forall r, In r rows -> fst (snd r) <> Null) ->
  In g (map detention_agg
          (groupby cell_eq_dec cell_leb fst
             (filter (fun r => notna (fst r)) rows))) ->
  exactly (fun r => fst r = g_key g) rows (g_issued g).
Proof.
  intros Hst Hg.
  assert (Hk : g_key g <> Null).
  { apply (proj2 (year_group_keys rows)). apply in_map, Hg. }
  rewrite (detention_agg_issued _ _ _ _ Hg).
  rewrite filter_filter_length.
  assert (Hlen : forall l : list (cell * (cell * cell)),
             (forall r, In r l -> fst (snd r) <> Null) ->
             exactly (fun r => fst r = g_key g) l
               (List.length
                  (filter (fun r => notna (fst r) &&
                                    ((if cell_eq_dec (fst r) (g_key g)
                                      then true else false)
                                     && notna (fst (snd r)))) l))).
  { induction l as [|r l IH]; intros Hl; [constructor|].
    assert (Hr : notna (fst (snd r)) = true)
      by (apply notna_iff, Hl; left; reflexivity).
    cbn [filter]. rewrite Hr.
    destruct (cell_eq_dec (fst r) (g_key g)) as [E|E].
    - assert (Hn : notna (fst r) = true)
        by (apply notna_iff; congruence).
      rewrite Hn. cbn [andb List.length].
      constructor; [exact E|]. apply IH. intros r' Hr'. apply Hl.
      right. exact Hr'.
    - rewrite andb_false_r. apply exactly_no; [exact E|].
      apply IH. intros r' Hr'. apply Hl. right. exact Hr'. }
  apply Hlen, Hst.
Qed.

Lemma student_rows {A} (keys : list A) (student attendance : Series) :
  forallb notna student = true ->
  forall r, In r (combine keys (combine student attendance)) ->
            fst (snd r) <> Null.
Proof.
  intros Hs [k [st at']] Hr. cbn [fst snd].
  apply in_combine_r, in_combine_l in Hr.
  rewrite forallb_forall in Hs. apply notna_iff, Hs, Hr.
Qed.

Lemma rows_with_key {A : Type} (rows : list (cell * (cell * A))) :
  (forall r, In r rows -> fst (snd r) <> Null) ->
  exactly (fun r => fst r <> Null) rows
    (List.length
       (filter (fun r => notna (fst r) && notna (fst (snd r))) rows)).
Proof.
  induction rows as [|r rows IH]; intros Hall; [constructor|].
  assert (Hr : notna (fst (snd r)) = true)
    by (apply notna_iff, Hall; left; reflexivity).
  cbn [filter]. rewrite Hr, andb_true_r.
  destruct (notna (fst r)) eqn:En.
  - cbn [List.length]. constructor; [apply notna_iff, En|].
    apply IH. intros r' Hr'. apply Hall. right. exact Hr'.
  - apply exactly_no.
    + intros H. apply notna_iff in H. congruence.
    + apply IH. intros r' Hr'. apply Hall. right. exact Hr'.
Qed.

(** C3, as the code has it.  The Year breakdown of a detentions frame
    in which some row has a Year and no Student is missing has one group
    for each value of Year that is not missing, and none for the
    missing ones; the Issued count of a group is the number of its rows,
    so the counts add up to the number of rows that have a Year.  The
    Type breakdown of an on-call frame has one entry for each Type that
    is not missing, with its number of rows, and the counts add up to
    the number of rows that have a Type. *)
Theorem category_groups_skip_missing (df : DataFrame) :
  (forall year student attendance,
      select df "Year" = OneColumn year ->
      select df "Student" = OneColumn student ->
      select df "Detention Attendance" = OneColumn attendance ->
      let rows := combine year (combine student attendance) in
      (exists r, In r rows /\ fst r <> Null) ->
      forallb notna student = true ->
      exists groups,
        year_breakdown df = Ok groups /\
        NoDup (map g_key groups) /\
        (forall k, In k (map g_key groups) <->
                   k <> Null /\ exists r, In r rows /\ fst r = k) /\
        (forall g, In g groups ->
           exactly (fun r => fst r = g_key g) rows (g_issued g)) /\
        exactly (fun r => fst r <> Null) rows
          (list_sum (map g_issued groups))) /\
  (forall types,
      select df "Type" = OneColumn types ->
      exists counts,
        type_counts df = Ok counts /\
        NoDup (map fst counts) /\
        (forall k, In k (map fst counts) <-> In k types /\ k <> Null) /\
        (forall k n, In (k, n) counts -> exactly (fun c => c = k) types n) /\
        exactly (fun c => c <> Null) types (list_sum (map snd counts))).
Proof.
  split.
  - intros year student attendance Hy Hs Ha rows Hrow Hst.
    eexists.
    split; [apply (year_breakdown_some df _ _ _ Hy Hs Ha Hrow)|].
    fold rows.
    destruct (year_group_keys rows) as [Hnd Hkeys].
    split; [exact Hnd|]. split; [exact Hkeys|]. split.
    + intros g. apply year_group_issued.
      apply (student_rows year student attendance Hst).
    + rewrite issued_sum, filter_filter_length.
      apply rows_with_key.
      apply (student_rows year student attendance Hst).
  - intros types Ht. exists (value_counts types).
    split; [unfold type_counts; rewrite (getitem_one _ _ _ _ Ht);
            reflexivity|].
    destruct (value_counts_spec types) as [H1 [H2 [H3 H4]]].
    split; [exact H1|]. split; [exact H2|]. split.
    + intros k n Hin. rewrite (H3 k n Hin), count_occ_filter_eq.
      apply exactly_filter. intros c.
      destruct (cell_eq_dec c k); split; congruence.
    + rewrite H4. unfold count_notna. apply exactly_filter.
      intros c. apply notna_iff.
Qed.

Lemma category_groups_skip_missing_witness :
  (exists groups,
      year_breakdown detentions_missing_year = Ok groups /\
      map g_key groups = [Num 7] /\
      exactly (fun r : cell * (cell * cell) => fst r <> Null)
        [(Num 7, (Str "Ada", Str "Present"));
         (Null, (Str "Bob", Str "Absent"))]
        (list_sum (map g_issued groups))) /\
  (exists counts,
      type_counts incidents_missing_type = Ok counts /\
      map fst counts = [Str "Fight"] /\
      exactly (fun c => c <> Null) [Str "Fight"; Null]
        (list_sum (map snd counts))).
Proof.
  split.
  - destruct (proj1 (category_groups_skip_missing detentions_missing_year)
                [Num 7; Null] [Str "Ada"; Str "Bob"]
                [Str "Present"; Str "Absent"] eq_refl eq_refl eq_refl)
      as [groups [H1 [_ [_ [_ H2]]]]].
    + exists (Num 7, (Str "Ada", Str "Present")).
      split; [left; reflexivity | discriminate].
    + reflexivity.
    + exists groups. split; [exact H1|]. split; [|exact H2].
      injection H1 as <-. reflexivity.
  - destruct (proj2 (category_groups_skip_missing incidents_missing_type)
                [Str "Fight"; Null] eq_refl)
      as [counts [H1 [_ [_ [_ H2]]]]].
    exists counts. split; [exact H1|]. split; [|exact H2].
    injection H1 as <-. reflexivity.
Defined.

(** The day breakdown of a detentions frame whose [Issued Date] column
    holds timestamps and missing values, with a row that has a date: its
    keys are the calendar days of the dated rows, each once, in
    increasing order; the Issued count of a day is the number of its
    rows that have a Student.  For an on-call frame the count of a day
    is the number of its rows, and the counts add up to the number of
    rows with a date. *)
Lemma day_groups (df : DataFrame) :
  (forall issued student attendance,
      select df "Issued Date" = OneColumn issued ->
      select df "Student" = OneColumn student ->
      select df "Detention Attendance" = OneColumn attendance ->
      forallb datetime_like issued = true ->
      let rows := combine issued (combine student attendance) in
      (exists r, In r rows /\ fst r <> Null) ->
      exists groups,
        daily_detentions df = Ok groups /\
        StronglySorted Z.lt (map g_key groups) /\
        (forall d, In d (map g_key groups) <->
                   exists r t, In r rows /\ fst r = Time t /\ ts_day t = d) /\
        (forall g, In g groups ->
           g_issued g
           = List.length
               (filter (fun r => notna (fst r) &&
                                 ((day_of (fst r) =? g_key g)%Z &&
                                  notna (fst (snd r)))) rows)) /\
        list_sum (map g_issued groups)
        = List.length
            (filter (fun r => notna (fst r) && notna (fst (snd r))) rows)) /\
  (forall datetime,
      select df "DateTime" = OneColumn datetime ->
      forallb datetime_like datetime = true ->
      exists days,
        daily_incidents df = Ok days /\
        StronglySorted Z.lt (map fst days) /\
        (forall d, In d (map fst days) <->
                   exists t, In (Time t) datetime /\ ts_day t = d) /\
        list_sum (map snd days) = count_notna datetime).
Proof.
  split.
  - intros issued student attendance Hi Hs Ha Hd rows Hrow.
    eexists.
    split; [apply (daily_detentions_some df _ _ _ Hi Hs Ha Hd Hrow)|].
    fold rows.
    assert (Hlike : forall r, In r rows -> notna (fst r) = true ->
                              exists t, fst r = Time t).
    { intros r Hr Hn. rewrite forallb_forall in Hd.
      assert (Hin : In (fst r) issued).
      { destruct r as [c x]. apply in_combine_l in Hr. exact Hr. }
      specialize (Hd _ Hin). destruct (fst r); try discriminate; eauto. }
    split; [|split; [|split]].
    + rewrite detention_agg_keys. apply group_keys_Z_increasing.
    + intros d. rewrite detention_agg_keys, group_keys_In, map_map.
      cbn [fst]. rewrite in_map_iff. split.
      * intros [r [<- Hr]]. apply filter_In in Hr. destruct Hr as [Hr Hn].
        destruct (Hlike r Hr Hn) as [t Ht].
        exists r, t. rewrite Ht. auto.
      * intros [r [t [Hr [Ht <-]]]]. exists r. rewrite Ht.
        split; [reflexivity|]. apply filter_In. rewrite Ht. auto.
    + intros g Hg. rewrite (detention_agg_issued _ _ _ _ Hg).
      rewrite filter_map_length, filter_filter_length.
      cbn [fst snd]. f_equal. apply filter_ext. intros r.
      destruct (Z.eq_dec (day_of (fst r)) (g_key g)) as [E|E].
      * rewrite (proj2 (Z.eqb_eq _ _) E). reflexivity.
      * rewrite (proj2 (Z.eqb_neq _ _) E). reflexivity.
    + rewrite issued_sum, filter_map_length, filter_filter_length.
      reflexivity.
  - intros datetime Hd Hl.
    eexists. split; [apply (daily_incidents_one df _ Hd Hl)|].
    rewrite combine_map_self.
    set (kept := filter notna datetime).
    set (rows := map (fun a => (day_of a, a)) kept).
    assert (Hkeys : map fst (map incident_agg
                               (groupby Z.eq_dec Z.leb fst rows))
                    = group_keys Z.eq_dec Z.leb (map fst rows)).
    { rewrite map_map. rewrite <- groupby_keys. apply map_ext. reflexivity. }
    split; [|split].
    + rewrite Hkeys. apply group_keys_Z_increasing.
    + intros d. rewrite Hkeys, group_keys_In. unfold rows.
      rewrite map_map. cbn [fst]. rewrite in_map_iff. unfold kept. split.
      * intros [c [<- Hc]]. apply filter_In in Hc. destruct Hc as [Hc Hn].
        rewrite forallb_forall in Hl. specialize (Hl _ Hc).
        destruct c; try discriminate. eauto.
      * intros [t [Ht <-]]. exists (Time t). split; [reflexivity|].
        apply filter_In. auto.
    + rewrite map_map.
      assert (Hall : forall g : Z * list (Z * cell),
                 snd (incident_agg g)
                 = List.length (filter (fun r => notna (snd r)) (snd g))).
      { intros g. cbn [incident_agg snd]. unfold count_notna.
        apply filter_map_length. }
      rewrite (map_ext _ _ Hall).
      rewrite (groupby_sum Z.eq_dec Z.leb fst (fun r => notna (snd r)) rows).
      unfold rows. rewrite filter_map_length. cbn [snd].
      unfold kept, count_notna. rewrite filter_filter_length.
      f_equal. apply filter_ext. intros c. destruct (notna c); reflexivity.
Qed.

(* ================================================================== *)
(** * The normalisers *)
(* ================================================================== *)

Section NormaliserFacts.

Variable parse_datetime : datetime_parser.

(** On a store that holds the caller's frame only, the normalisers
    return what their functional readings say. *)
Lemma returned_prepare_detentions (df : DataFrame) :
  returned (prepare_detentions parse_datetime) df
  = normalised_detentions parse_datetime df.
Proof.
  unfold returned, call_on, normalised_detentions, relabel_detentions,
    parse_dates.
  cbv [prepare_detentions for_each bind mutate deref alloc ret lift].
  simpl.
  destruct (index_str (labels df)) as [ls|e]; [|reflexivity].
  cbn [obind].
  set (d2 := rename (set_labels df PyStr.strip) detentions_rename_map).
  destruct (has_column d2 "Detention Attendance"); simpl.
  - destruct (has_column d2 "Issued Date"); simpl.
    + destruct (to_datetime parse_datetime d2 "Issued Date") as [s|e]; simpl;
        [|reflexivity].
      destruct (has_column (setitem d2 "Issued Date" s) "Detention Date");
        simpl; [|reflexivity].
      destruct (to_datetime parse_datetime (setitem d2 "Issued Date" s)
                  "Detention Date"); reflexivity.
    + destruct (has_column d2 "Detention Date"); simpl; [|reflexivity].
      destruct (to_datetime parse_datetime d2 "Detention Date"); reflexivity.
  - destruct (filter _ (labels d2)) as [|c0 cands]; simpl.
    + destruct (has_column d2 "Issued Date"); simpl.
      * destruct (to_datetime parse_datetime d2 "Issued Date") as [s|e];
          simpl; [|reflexivity].
        destruct (has_column (setitem d2 "Issued Date" s) "Detention Date");
          simpl; [|reflexivity].
        destruct (to_datetime parse_datetime (setitem d2 "Issued Date" s)
                    "Detention Date"); reflexivity.
      * destruct (has_column d2 "Detention Date"); simpl; [|reflexivity].
        destruct (to_datetime parse_datetime d2 "Detention Date");
          reflexivity.
    + set (d3 := rename d2 [(c0, "Detention Attendance")]).
      destruct (has_column d3 "Issued Date"); simpl.
      * destruct (to_datetime parse_datetime d3 "Issued Date") as [s|e];
          simpl; [|reflexivity].
        destruct (has_column (setitem d3 "Issued Date" s) "Detention Date");
          simpl; [|reflexivity].
        destruct (to_datetime parse_datetime (setitem d3 "Issued Date" s)
                    "Detention Date"); reflexivity.
      * destruct (has_column d3 "Detention Date"); simpl; [|reflexivity].
        destruct (to_datetime parse_datetime d3 "Detention Date");
          reflexivity.
Qed.

Lemma returned_prepare_oncall (df : DataFrame) :
  returned (prepare_oncall parse_datetime) df
  = normalised_oncall parse_datetime df.
Proof.
  unfold returned, call_on, normalised_oncall, parse_dates.
  cbv [prepare_oncall bind mutate deref alloc ret lift]. simpl.
  set (d2 := rename df oncall_rename_map).
  destruct (has_column d2 "DateTime"); simpl; [|reflexivity].
  destruct (to_datetime parse_datetime d2 "DateTime"); reflexivity.
Qed.

End NormaliserFacts.

(* ================================================================== *)
(** * The object store *)
(* ================================================================== *)

Lemma length_update_nth {A} (l : list A) (i : nat) (a : A) :
  List.length (update_nth l i a) = List.length l.
Proof.
  revert i. induction l as [|x l IH]; intros [|i]; simpl; auto.
Qed.

Lemma firstn_update_nth {A} (l : list A) (n i : nat) (a : A) :
  n <= i -> firstn n (update_nth l i a) = firstn n l.
Proof.
  revert n i. induction l as [|x l IH]; intros n i H.
  - destruct i; reflexivity.
  - destruct i as [|i]; destruct n as [|n]; simpl; try reflexivity; try lia.
    f_equal. apply IH. lia.
Qed.

Lemma nth_update_nth_eq {A} (l : list A) (i : nat) (a d : A) :
  i < List.length l -> nth i (update_nth l i a) d = a.
Proof.
  revert i. induction l as [|x l IH]; intros [|i] H; simpl in *;
    try lia; auto. apply IH. lia.
Qed.

Lemma nth_update_nth_ne {A} (l : list A) (i j : nat) (a d : A) :
  i <> j -> nth j (update_nth l i a) d = nth j l d.
Proof.
  revert i j. induction l as [|x l IH]; intros [|i] [|j] H; simpl;
    try reflexivity; try congruence. apply IH. congruence.
Qed.

Lemma update_nth_same {A} (l : list A) (i : nat) (d : A) :
  update_nth l i (nth i l d) = l.
Proof.
  revert i. induction l as [|x l IH]; intros [|i]; simpl; try reflexivity.
  f_equal. apply IH.
Qed.

Lemma record_eta (d : DataFrame) : {| nrows := nrows d; cols := cols d |} = d.
Proof. destruct d; reflexivity. Qed.

Lemma nth_firstn_lt {A} (l : list A) (n i : nat) (d : A) :
  i < n -> nth i (firstn n l) d = nth i l d.
Proof.
  revert n i. induction l as [|x l IH]; intros [|n] [|i] H; simpl;
    try reflexivity; try lia. apply IH. lia.
Qed.

Section Frame.

Lemma preserves_weaken {A} (n : nat) (m : M A) (Q Q' : A -> Prop) :
  preserves n m Q -> (forall a, Q a -> Q' a) -> preserves n m Q'.
Proof.
  intros H HQ w Hw. destruct (H w Hw) as [H1 [H2 H3]]. auto.
Qed.

Lemma preserves_ret {A} (n : nat) (a : A) (Q : A -> Prop) :
  Q a -> preserves n (ret a) Q.
Proof.
  intros HQ w Hw. simpl. repeat split; auto. intros a' E.
  injection E as <-. exact HQ.
Qed.

Lemma preserves_lift {A} (n : nat) (o : outcome A) :
  preserves n (lift o) (fun _ => True).
Proof. intros w Hw. simpl. auto. Qed.

Lemma preserves_deref (n : nat) (r : ref) :
  preserves n (deref r) (fun _ => True).
Proof. intros w Hw. simpl. auto. Qed.

Lemma preserves_alloc (n : nat) (df : DataFrame) :
  preserves n (alloc df) (fun r => n <= r).
Proof.
  intros w Hw. simpl. rewrite firstn_app, length_app.
  replace (n - List.length (objects w)) with 0 by lia.
  simpl. rewrite app_nil_r. repeat split; [lia|].
  intros a E. injection E as <-. exact Hw.
Qed.

Lemma preserves_mutate (n : nat) (r : ref) (f : DataFrame -> DataFrame) :
  n <= r -> preserves n (mutate r f) (fun _ => True).
Proof.
  intros Hr w Hw. simpl. rewrite length_update_nth.
  rewrite firstn_update_nth by exact Hr. auto.
Qed.

Lemma preserves_bind {A B} (n : nat) (m : M A) (k : A -> M B)
  (Q : A -> Prop) (Q' : B -> Prop) :
  preserves n m Q -> (forall a, Q a -> preserves n (k a) Q') ->
  preserves n (bind m k) Q'.
Proof.
  intros Hm Hk w Hw. destruct (Hm w Hw) as [H1 [H2 H3]].
  unfold bind. destruct (m w) as [w' [a|e]]; simpl in *.
  - destruct (Hk a (H3 a eq_refl) w' H2) as [K1 [K2 K3]].
    repeat split; [congruence | assumption | assumption].
  - repeat split; [assumption | assumption | discriminate].
Qed.

Lemma preserves_for_each {A} (n : nat) (xs : list A) (body : A -> M unit) :
  (forall x, preserves n (body x) (fun _ => True)) ->
  preserves n (for_each xs body) (fun _ => True).
Proof.
  intros H. induction xs as [|x xs IH]; simpl.
  - apply preserves_ret. exact I.
  - eapply preserves_bind; [apply H | intros _ _; exact IH].
Qed.

Variable parse_datetime : datetime_parser.

Lemma preserves_parse (n : nat) (r : ref) (d : DataFrame) (col : string) :
  n <= r ->
  preserves n
    (if has_column d col then
       bind (lift (to_datetime parse_datetime d col)) (fun s =>
         mutate r (fun d => setitem d col s))
     else ret tt)
    (fun _ => True).
Proof.
  intros Hr. destruct (has_column d col).
  - eapply preserves_bind; [apply preserves_lift|].
    intros s _. apply preserves_mutate, Hr.
  - apply preserves_ret. exact I.
Qed.

(** [prepare_oncall] changes no frame that exists when it is called. *)
Lemma prepare_oncall_preserves (n : nat) (r : ref) :
  preserves n (prepare_oncall parse_datetime r) (fun _ => True).
Proof.
  unfold prepare_oncall.
  eapply preserves_bind; [apply preserves_deref|]. intros d _.
  eapply preserves_bind; [apply preserves_alloc|]. intros r' Hr'.
  eapply preserves_bind; [apply preserves_deref|]. intros d' _.
  eapply preserves_bind; [apply (preserves_parse n r' d' "DateTime" Hr')|].
  intros _ _. apply preserves_ret. exact I.
Qed.

(** An update of frame [r] followed by a computation that leaves the
    existing frames alone: only frame [r] differs at the end. *)
Lemma mutate_then_preserved {A} (r : ref) (f : DataFrame -> DataFrame)
  (m : M A) (Q : A -> Prop) (w : World) :
  preserves (List.length (objects w)) m Q ->
  firstn (List.length (objects w))
    (objects (fst (bind (mutate r f) (fun _ => m) w)))
  = update_nth (objects w) r (f (nth r (objects w) empty_frame)).
Proof.
  intros Hm. unfold bind. simpl.
  set (w1 := {| objects := update_nth (objects w) r
                             (f (nth r (objects w) empty_frame));
                page := page w; requests := requests w |}).
  assert (Hlen : List.length (objects w1) = List.length (objects w))
    by apply length_update_nth.
  destruct (Hm w1) as [H _]; [rewrite Hlen; apply le_n|].
  destruct (m w1) as [w2 [a|e]]; simpl in *;
    rewrite H, <- Hlen; apply firstn_all.
Qed.

(** [prepare_detentions] trims the labels of its argument and changes no
    other frame that exists when it is called. *)
Lemma prepare_detentions_frame (r : ref) (w : World) :
  firstn (List.length (objects w))
    (objects (fst (prepare_detentions parse_datetime r w)))
  = update_nth (objects w) r
      (set_labels (nth r (objects w) empty_frame) PyStr.strip).
Proof.
  unfold prepare_detentions.
  unfold bind at 1, deref. unfold bind at 1, lift.
  destruct (index_str (labels (nth r (objects w) empty_frame)))
    as [ls|e] eqn:E.
  2:{ cbn [fst]. rewrite firstn_all.
      assert (Hc : cols (nth r (objects w) empty_frame) = []).
      { unfold index_str, labels in E.
        destruct (cols (nth r (objects w) empty_frame));
          [reflexivity | discriminate]. }
      unfold set_labels. rewrite Hc. cbn [map].
      rewrite <- Hc, record_eta. symmetry. apply update_nth_same. }
  apply (mutate_then_preserved r (fun d => set_labels d PyStr.strip) _
           (fun _ => True)).
  set (n := List.length (objects w)).
  eapply preserves_bind; [apply preserves_deref|]. intros d _.
  eapply preserves_bind; [apply preserves_alloc|]. intros r2 Hr2.
  eapply preserves_bind; [apply preserves_deref|]. intros d2 _.
  eapply (preserves_bind n _ _ (fun r3 => n <= r3)).
  - destruct (negb (has_column d2 "Detention Attendance")).
    + destruct (filter _ (labels d2)).
      * apply preserves_ret, Hr2.
      * apply preserves_alloc.
    + apply preserves_ret, Hr2.
  - intros r3 Hr3.
    eapply preserves_bind.
    + apply preserves_for_each. intros col.
      eapply preserves_bind; [apply preserves_deref|]. intros d3 _.
      apply preserves_parse, Hr3.
    + intros _ _. apply preserves_ret. exact I.
Qed.

(** C9, as the code has it.  A call of a normaliser on a frame of the
    store changes no other frame that exists at the call.  [prepare_oncall]
    leaves its argument as it is too.  [prepare_detentions] keeps the rows
    and the cells of its argument, and replaces its labels by their
    trimmed forms. *)
Theorem normaliser_frame (w : World) (r : ref) :
  r < List.length (objects w) ->
  let before := nth r (objects w) empty_frame in
  (forall i, i < List.length (objects w) ->
     nth i (objects (fst (prepare_oncall parse_datetime r w))) empty_frame
     = nth i (objects w) empty_frame) /\
  (forall i, i < List.length (objects w) -> i <> r ->
     nth i (objects (fst (prepare_detentions parse_datetime r w))) empty_frame
     = nth i (objects w) empty_frame) /\
  let after :=
    nth r (objects (fst (prepare_detentions parse_datetime r w))) empty_frame in
  nrows after = nrows before /\
  map snd (cols after) = map snd (cols before) /\
  labels after = map PyStr.strip (labels before).
Proof.
  intros Hr before. subst before. set (n := List.length (objects w)).
  assert (Hnth : forall i, i < n ->
            nth i (objects (fst (prepare_detentions parse_datetime r w)))
              empty_frame
            = nth i (update_nth (objects w) r
                       (set_labels (nth r (objects w) empty_frame)
                          PyStr.strip)) empty_frame).
  { intros i Hi. rewrite <- (prepare_detentions_frame r w).
    symmetry. apply nth_firstn_lt, Hi. }
  split; [|split].
  - intros i Hi.
    destruct (prepare_oncall_preserves n r w (le_n _)) as [H _].
    rewrite <- (nth_firstn_lt _ n i) by exact Hi.
    rewrite H. apply nth_firstn_lt, Hi.
  - intros i Hi Hne. rewrite (Hnth i Hi).
    apply nth_update_nth_ne. congruence.
  - cbv zeta. rewrite (Hnth r Hr), nth_update_nth_eq by exact Hr.
    unfold set_labels, labels. cbn [nrows cols].
    rewrite !map_map. cbn [fst snd]. repeat split.
Qed.

End Frame.

Lemma normaliser_frame_witness :
  labels (nth 0 (objects (fst (prepare_detentions sample_parse_datetime 0
                                 {| objects := [detentions_spaced_year];
                                    page := []; requests := [] |})))
            empty_frame)
  = ["Year"].
Proof.
  destruct (normaliser_frame sample_parse_datetime
              {| objects := [detentions_spaced_year];
                 page := []; requests := [] |} 0 (le_n 1))
    as [_ [_ [_ [_ H]]]].
  exact H.
Defined.

(* ================================================================== *)
(** * Date parsing *)
(* ================================================================== *)

Section DateFacts.

Variable parse_datetime : datetime_parser.

Lemma to_datetime_cell_coerced (c : cell) :
  coerced parse_datetime None c (to_datetime_cell parse_datetime c).
Proof.
  destruct c as [|s|z|t]; cbn [to_datetime_cell]; try constructor.
  - destruct (null_text s) eqn:En;
      [constructor; unfold reads; rewrite En; reflexivity|].
    destruct (parse_one parse_datetime s) eqn:E; constructor;
      unfold reads; rewrite En; exact E.
  - unfold epoch_cell.
    destruct ((int64_min <? z)%Z && (z <=? int64_max)%Z) eqn:E.
    + apply coerced_epoch; [reflexivity|].
      apply andb_true_iff in E. destruct E as [E1 E2].
      apply Z.ltb_lt in E1. apply Z.leb_le in E2. split; assumption.
    + apply coerced_out_of_range; [reflexivity|]. intros [H1 H2].
      apply Z.ltb_lt in H1. apply Z.leb_le in H2.
      rewrite H1, H2 in E. discriminate.
Qed.

Lemma strptime_cell_coerced (fmt : string) (c : cell) :
  coerced parse_datetime (Some fmt) c (strptime_cell parse_datetime fmt c).
Proof.
  destruct c as [|s|z|t]; cbn [strptime_cell]; try constructor.
  - destruct (null_text s) eqn:En;
      [constructor; unfold reads; rewrite En; reflexivity|].
    destruct (strptime parse_datetime fmt s) eqn:E; constructor;
      unfold reads; rewrite En; exact E.
  - destruct (z =? int64_min)%Z eqn:Ez.
    + apply (coerced_number_unread _ _ fmt); [reflexivity|].
      left. apply Z.eqb_eq, Ez.
    + apply Z.eqb_neq in Ez.
      destruct (strptime parse_datetime fmt (number_text parse_datetime z))
        eqn:E.
      * apply (coerced_number_read _ _ fmt); auto.
      * apply (coerced_number_unread _ _ fmt); auto.
Qed.

Lemma to_datetime_coerced (s : Series) :
  Forall2 (coerced parse_datetime (column_format parse_datetime s)) s
    (read_values parse_datetime s).
Proof.
  unfold read_values.
  destruct (column_format parse_datetime s) as [fmt|].
  - induction s; simpl; constructor; auto using strptime_cell_coerced.
  - induction s; simpl; constructor; auto using to_datetime_cell_coerced.
Qed.

Lemma set_labels_compose (d : DataFrame) (f g : string -> string) :
  set_labels (set_labels d f) g = set_labels d (fun l => g (f l)).
Proof.
  unfold set_labels. cbn [nrows cols]. rewrite map_map. reflexivity.
Qed.

Lemma relabel_detentions_shape (d : DataFrame) :
  exists g, relabel_detentions d = set_labels d g.
Proof.
  unfold relabel_detentions, rename.
  rewrite set_labels_compose.
  destruct (negb _); [|eauto].
  destruct (filter _ _); [eauto|].
  rewrite set_labels_compose. eauto.
Qed.

Lemma columns_without (col : string) (cs : list (string * Series)) :
  count_occ string_dec (map fst cs) col = 0 ->
  filter (fun c => String.eqb (fst c) col) cs = [] /\
  map (coerce_column parse_datetime col) cs = cs.
Proof.
  induction cs as [|c cs IH]; intros H; [split; reflexivity|].
  simpl in H. destruct (string_dec (fst c) col) as [E|E]; [discriminate|].
  destruct (IH H) as [H1 H2]. apply String.eqb_neq in E.
  simpl. unfold coerce_column at 1. rewrite E, H1, H2. split; reflexivity.
Qed.

Lemma column_zone_without (col : string) (cs : list (string * Series)) :
  filter (fun c => String.eqb (fst c) col) cs = [] ->
  column_zone_ok parse_datetime col cs = true.
Proof.
  induction cs as [|c cs IH]; intros H; [reflexivity|].
  cbn [filter] in H. cbn [column_zone_ok forallb].
  destruct (String.eqb (fst c) col); [discriminate|].
  cbn [negb orb andb]. apply IH, H.
Qed.

Lemma columns_with_one (col : string) (cs : list (string * Series)) :
  count_occ string_dec (map fst cs) col = 1 ->
  exists s,
    filter (fun c => String.eqb (fst c) col) cs = [(col, s)] /\
    replace_column cs col (read_values parse_datetime s)
    = map (coerce_column parse_datetime col) cs /\
    column_zone_ok parse_datetime col cs
    = same_zone (zones parse_datetime s).
Proof.
  induction cs as [|c cs IH]; intros H; [discriminate|].
  simpl in H. destruct (string_dec (fst c) col) as [E|E].
  - injection H as H. destruct (columns_without col cs H) as [H1 H2].
    exists (snd c). cbn [filter replace_column map column_zone_ok forallb].
    unfold coerce_column at 1.
    rewrite (proj2 (String.eqb_eq _ _) E), H1, H2.
    fold (column_zone_ok parse_datetime col cs).
    rewrite (column_zone_without col cs H1).
    destruct c as [l s]. simpl in *. subst l.
    rewrite andb_true_r. repeat split; reflexivity.
  - destruct (IH H) as [s [H1 [H2 H3]]]. exists s.
    apply String.eqb_neq in E.
    cbn [filter replace_column map column_zone_ok forallb].
    unfold coerce_column at 1.
    fold (column_zone_ok parse_datetime col cs).
    rewrite E, H1, H2, H3. repeat split; reflexivity.
Qed.

Lemma has_column_count (d : DataFrame) (col : string) :
  has_column d col = true <->
  count_occ string_dec (labels d) col <> 0.
Proof.
  unfold has_column. rewrite existsb_exists. split.
  - intros [l [Hl E]]. apply String.eqb_eq in E. subst l.
    apply (count_occ_In string_dec) in Hl. lia.
  - intros H. exists col. split; [|apply String.eqb_refl].
    apply (count_occ_In string_dec). lia.
Qed.

(** On a frame in which [col] labels at most one column, the loop body
    parses that column; it raises only for values of two time zones. *)
Lemma parse_dates_one (col : string) (d : DataFrame) :
  count_occ string_dec (labels d) col <= 1 ->
  parse_dates parse_datetime col d
  = if column_zone_ok parse_datetime col (cols d)
    then Ok {| nrows := nrows d;
               cols := map (coerce_column parse_datetime col) (cols d) |}
    else Raise ValueError.
Proof.
  intros H. unfold parse_dates.
  destruct (count_occ string_dec (labels d) col) as [|[|k]] eqn:E; [| |lia].
  - assert (Hno : has_column d col = false).
    { destruct (has_column d col) eqn:Hc; [|reflexivity].
      apply has_column_count in Hc. congruence. }
    rewrite Hno. destruct (columns_without col (cols d) E) as [Hf ->].
    rewrite (column_zone_without col (cols d) Hf).
    destruct d; reflexivity.
  - assert (Hyes : has_column d col = true)
      by (apply has_column_count; rewrite E; discriminate).
    rewrite Hyes.
    destruct (columns_with_one col (cols d) E) as [s [H1 [H2 H3]]].
    unfold to_datetime, getitem, select. rewrite H1. cbn [obind snd].
    unfold to_datetime_values. rewrite H3.
    destruct (same_zone (zones parse_datetime s)); [|reflexivity].
    cbn [obind]. unfold setitem. rewrite H2. reflexivity.
Qed.

Lemma parse_dates_unique (col : string) (d : DataFrame) :
  count_occ string_dec (labels d) col <= 1 ->
  column_zone_ok parse_datetime col (cols d) = true ->
  parse_dates parse_datetime col d
  = Ok {| nrows := nrows d;
          cols := map (coerce_column parse_datetime col) (cols d) |}.
Proof. intros H Hz. rewrite (parse_dates_one col d H), Hz. reflexivity. Qed.

Lemma coerce_column_label (col : string) (c : string * Series) :
  fst (coerce_column parse_datetime col c) = fst c.
Proof. unfold coerce_column. destruct (String.eqb (fst c) col); reflexivity. Qed.

Lemma coerce_column_labels (col : string) (cs : list (string * Series)) :
  map fst (map (coerce_column parse_datetime col) cs) = map fst cs.
Proof.
  rewrite map_map. apply map_ext. intros c. apply coerce_column_label.
Qed.


Lemma coerced_datetime_like (fmt : option string) (c c' : cell) :
  coerced parse_datetime fmt c c' -> datetime_like c' = true.
Proof. destruct 1; reflexivity. Qed.

Lemma Forall2_in_r {A B} (R : A -> B -> Prop) (l : list A) (l' : list B)
  (b : B) :
  Forall2 R l l' -> In b l' -> exists a, In a l /\ R a b.
Proof.
  induction 1 as [|x y l l' Hxy _ IH]; intros Hin; [contradiction|].
  destruct Hin as [<- | Hin].
  - exists x. split; [left; reflexivity | exact Hxy].
  - destruct (IH Hin) as [a [Ha Hr]]. exists a. split; [right|]; assumption.
Qed.

(** What is read holds timestamps and missing values only, and such a
    column is read as it is, in one time zone. *)
Lemma read_values_like (s : Series) :
  forallb datetime_like (read_values parse_datetime s) = true.
Proof.
  apply forallb_forall. intros c Hc.
  destruct (Forall2_in_r _ _ _ _ (to_datetime_coerced s) Hc) as [c0 [_ H]].
  eapply coerced_datetime_like, H.
Qed.

Lemma column_format_like (s : Series) :
  forallb datetime_like s = true -> column_format parse_datetime s = None.
Proof.
  unfold column_format. induction s as [|c s IH]; intros H; [reflexivity|].
  cbn [forallb] in H. apply andb_true_iff in H. destruct H as [Hc Hs].
  destruct c; try discriminate; cbn [first_valid]; auto.
Qed.

Lemma read_values_fixed (s : Series) :
  forallb datetime_like s = true -> read_values parse_datetime s = s.
Proof.
  intros H. unfold read_values. rewrite (column_format_like s H).
  induction s as [|c s IH]; [reflexivity|].
  cbn [forallb] in H. apply andb_true_iff in H. destruct H as [Hc Hs].
  cbn [map]. f_equal; [|apply IH, Hs].
  destruct c; try discriminate; reflexivity.
Qed.

Lemma read_values_idempotent (s : Series) :
  read_values parse_datetime (read_values parse_datetime s)
  = read_values parse_datetime s.
Proof. apply read_values_fixed, read_values_like. Qed.

Lemma same_zone_none (zs : list (option Z)) :
  (forall z, In z zs -> z = None) -> same_zone zs = true.
Proof.
  destruct zs as [|z zs]; intros H; [reflexivity|].
  cbn [same_zone]. apply forallb_forall. intros z' Hz'.
  rewrite (H z (or_introl eq_refl)), (H z' (or_intror Hz')). reflexivity.
Qed.

Lemma zones_like (s : Series) :
  forallb datetime_like s = true ->
  same_zone (zones parse_datetime s) = true.
Proof.
  intros H. apply same_zone_none. intros z Hz.
  unfold zones in Hz. apply in_flat_map in Hz.
  destruct Hz as [[c c'] [Hin Hz]]. cbn [fst snd] in Hz.
  apply in_combine_l in Hin. rewrite forallb_forall in H.
  specialize (H c Hin).
  destruct c; try discriminate; destruct c'; cbn [zone_of In] in Hz;
    try contradiction; destruct Hz as [<- | []]; reflexivity.
Qed.

(** Parsing one column keeps the zones of the others in order. *)
Lemma column_zone_coerce (a b : string) (cs : list (string * Series)) :
  column_zone_ok parse_datetime a cs = true ->
  column_zone_ok parse_datetime a (map (coerce_column parse_datetime b) cs)
  = true.
Proof.
  unfold column_zone_ok. rewrite !forallb_forall. intros H c Hc.
  apply in_map_iff in Hc. destruct Hc as [c0 [<- Hc0]].
  specialize (H c0 Hc0). unfold coerce_column.
  destruct (String.eqb (fst c0) b); [|exact H]. cbn [fst snd].
  destruct (String.eqb (fst c0) a); [|reflexivity]. cbn [negb orb].
  apply zones_like, read_values_like.
Qed.

Lemma column_zone_coerced (a : string) (cs : list (string * Series)) :
  column_zone_ok parse_datetime a (map (coerce_column parse_datetime a) cs)
  = true.
Proof.
  unfold column_zone_ok. rewrite forallb_forall. intros c Hc.
  apply in_map_iff in Hc. destruct Hc as [c0 [<- Hc0]].
  unfold coerce_column.
  destruct (String.eqb (fst c0) a) eqn:E; cbn [fst snd]; rewrite E;
    [|reflexivity].
  cbn [negb orb]. apply zones_like, read_values_like.
Qed.

(** [prepare_detentions] gives the same frame for a sheet and for the
    sheet with its labels trimmed. *)
Lemma prepare_detentions_trim_invariant (df : DataFrame) :
  returned (prepare_detentions parse_datetime) (set_labels df PyStr.strip)
  = returned (prepare_detentions parse_datetime) df.
Proof.
  rewrite !returned_prepare_detentions.
  unfold normalised_detentions, relabel_detentions.
  rewrite set_labels_compose.
  replace (set_labels df (fun l => PyStr.strip (PyStr.strip l)))
    with (set_labels df PyStr.strip)
    by (unfold set_labels; f_equal; apply map_ext; intros c;
        rewrite strip_idempotent; reflexivity).
  destruct df as [n [|c cs]]; reflexivity.
Qed.

Lemma index_str_some (ls : list string) :
  ls <> [] -> index_str ls = Ok ls.
Proof. destruct ls; [congruence | reflexivity]. Qed.




End DateFacts.


(* ================================================================== *)
(** * More on the loaders *)
(* ================================================================== *)

Section LoaderOutcomes.

Variable read_csv read_excel : source -> outcome DataFrame.

Import PyStr.

(** X1.  [load_data_from_file] never raises.  A file whose name ends,
    up to case, in none of [.csv], [.xlsx], [.xls] is not read: the page
    gets the message about the format and the result is [None].  A file
    that is read gives a new frame object, with nothing written on the
    page; when the reader raises, the page gets the reader's exception
    in a message, no frame is made and the result is [None]. *)
Theorem load_data_from_file_outcomes (f : UploadedFile) (w : World) :
  (file_reads f = [] ->
   load_data_from_file read_csv read_excel (Some f) w
   = ({| objects := objects w;
         page := page w
                 ++ [Error
                       "Unsupported file format. Please upload a CSV or Excel file."
                       None];
         requests := requests w |}, Ok None)) /\
  (file_reads f <> [] ->
   forall df, file_reader read_csv read_excel f = Ok df ->
   load_data_from_file read_csv read_excel (Some f) w
   = ({| objects := objects w ++ [df]; page := page w;
         requests := requests w ++ file_reads f |},
      Ok (Some (List.length (objects w))))) /\
  (file_reads f <> [] ->
   forall e, file_reader read_csv read_excel f = Raise e ->
   load_data_from_file read_csv read_excel (Some f) w
   = ({| objects := objects w;
         page := page w ++ [Error "Error reading file: " (Some e)];
         requests := requests w ++ file_reads f |}, Ok None)).
Proof.
  unfold file_reads, file_reader, load_data_from_file, try_except.
  destruct (endswith ".csv" (lower (name f))).
  - split; [discriminate|]. split; intros _ x Hx;
      unfold pd_read_csv, bind, log_request, lift, alloc, ret, emit; simpl;
      rewrite Hx; reflexivity.
  - destruct (endswith ".xlsx" (lower (name f))
              || endswith ".xls" (lower (name f))).
    + split; [discriminate|]. split; intros _ x Hx;
        unfold pd_read_excel, bind, log_request, lift, alloc, ret, emit;
        simpl; rewrite Hx; reflexivity.
    + split; [reflexivity|]. split; intros H; exfalso; apply H; reflexivity.
Qed.

Lemma url_reads_nonempty (url : string) :
  url <> "" ->
  url_reads url
  = [if endswith ".xlsx" (lower (google_sheets_export (strip url)))
        || endswith ".xls" (lower (google_sheets_export (strip url)))
     then ReadExcel (FromUrl (google_sheets_export (strip url)))
     else ReadCsv (FromUrl (google_sheets_export (strip url)))].
Proof.
  intros H. unfold url_reads.
  destruct (String.eqb_spec url ""); [contradiction|].
  cbv zeta. destruct (_ || _); reflexivity.
Qed.

(** X2.  [load_data_from_url] never raises.  The empty link is not
    loaded.  Any other link leads to one read, of the trimmed and
    rewritten link, with [read_excel] when it ends, up to case, in
    [.xlsx] or [.xls] and with [read_csv] otherwise; a frame that is
    read becomes a new frame object, and when the reader raises, the
    page gets the reader's exception in a message, no frame is made and
    the result is [None]. *)
Theorem load_data_from_url_outcomes (url : string) (w : World) :
  (url = "" ->
   load_data_from_url read_csv read_excel url w = (w, Ok None)) /\
  (url <> "" ->
   forall df,
     url_reader read_csv read_excel (google_sheets_export (strip url)) = Ok df ->
     load_data_from_url read_csv read_excel url w
     = ({| objects := objects w ++ [df]; page := page w;
           requests := requests w ++ url_reads url |},
        Ok (Some (List.length (objects w))))) /\
  (url <> "" ->
   forall e,
     url_reader read_csv read_excel (google_sheets_export (strip url))
     = Raise e ->
     load_data_from_url read_csv read_excel url w
     = ({| objects := objects w;
           page := page w ++ [Error "Error loading data from URL: " (Some e)];
           requests := requests w ++ url_reads url |}, Ok None)).
Proof.
  split; [intros ->; reflexivity|].
  split; intros Hne x Hx; rewrite (url_reads_nonempty url Hne);
    unfold url_reader in Hx; unfold load_data_from_url, try_except;
    (destruct (String.eqb_spec url ""); [contradiction|]);
    destruct (endswith ".xlsx" (lower (google_sheets_export (strip url)))
              || endswith ".xls" (lower (google_sheets_export (strip url))));
    unfold pd_read_excel, pd_read_csv, bind, log_request, lift, alloc, ret,
      emit; simpl; rewrite Hx; reflexivity.
Qed.

(** X3.  A link that is not empty but consists of whitespace only passes
    the emptiness test, is trimmed to the empty text, and the loader asks
    [read_csv] for the empty link. *)
Theorem blank_link_is_read (url : string) (w : World) :
  url <> "" -> strip url = "" ->
  requests (fst (load_data_from_url read_csv read_excel url w))
  = requests w ++ [ReadCsv (FromUrl "")].
Proof.
  intros Hne Hs.
  destruct (load_data_from_url_request read_csv read_excel url w Hne)
    as [[q [Hq Hsrc]] _].
  rewrite Hs in Hsrc. rewrite Hq, Hsrc. reflexivity.
Qed.

End LoaderOutcomes.

Lemma load_data_from_file_outcomes_witness :
  load_data_from_file sample_read failing_read (Some sample_pdf) start
  = ({| objects := [];
        page := [Error
                   "Unsupported file format. Please upload a CSV or Excel file."
                   None];
        requests := [] |}, Ok None).
Proof.
  exact (proj1 (load_data_from_file_outcomes sample_read failing_read
                  sample_pdf start) eq_refl).
Defined.

Lemma load_data_from_url_outcomes_witness :
  load_data_from_url failing_read failing_read "https://example.org/a.csv"
    start
  = ({| objects := [];
        page := [Error "Error loading data from URL: " (Some IOError)];
        requests := [ReadCsv (FromUrl "https://example.org/a.csv")] |},
     Ok None).
Proof.
  refine (proj2 (proj2 (load_data_from_url_outcomes failing_read failing_read
                          "https://example.org/a.csv" start)) _ IOError
            eq_refl).
  discriminate.
Defined.

Lemma blank_link_is_read_witness :
  requests (fst (load_data_from_url sample_read sample_read blank_url start))
  = [ReadCsv (FromUrl "")].
Proof.
  refine (blank_link_is_read sample_read sample_read blank_url start _ eq_refl).
  discriminate.
Defined.

Section ExportLinks.

Import PyStr.

Lemma partition_skip (sep : string) (c : ascii) (s : string) :
  String.prefix sep (String c s) = false ->
  partition sep (String c s)
  = (String c (fst (partition sep s)), snd (partition sep s)).
Proof.
  intros H. cbn [partition]. rewrite H.
  destruct (partition sep s); reflexivity.
Qed.

Lemma partition_at_prefix (sep s : string) :
  String.prefix sep s = true ->
  partition sep s = ("", Some (drop (String.length sep) s)).
Proof. intros H. destruct s; cbn [partition]; rewrite H; reflexivity. Qed.

Lemma partition_here (sep s : string) :
  partition sep (sep ++ s) = ("", Some s).
Proof.
  rewrite (partition_at_prefix _ _ (prefix_app sep s)).
  do 2 f_equal. induction sep; simpl; auto.
Qed.

Lemma prefix_cons_ne (a c : ascii) (p s : string) :
  a <> c -> String.prefix (String a p) (String c s) = false.
Proof.
  intros H. cbn [String.prefix].
  destruct (ascii_dec a c); [contradiction | reflexivity].
Qed.

(** The text up to the first slash is found before the first [/d/]. *)
Lemma partition_slash_through (x : string) :
  fst (partition "/" (fst (partition "/d/" x))) = fst (partition "/" x).
Proof.
  induction x as [|c x IH]; [reflexivity|].
  destruct (ascii_dec c "/") as [->|Hc].
  - change (partition "/" (String "/" x)) with (partition "/" ("/" ++ x)).
    rewrite partition_here. cbn [fst].
    destruct (String.prefix "/d/" (String "/" x)) eqn:Hp.
    + cbn [partition]. rewrite Hp. reflexivity.
    + rewrite (partition_skip _ _ _ Hp). cbn [fst].
      change (String "/" (fst (partition "/d/" x)))
        with ("/" ++ fst (partition "/d/" x))%string.
      rewrite partition_here. reflexivity.
  - assert (Hp1 : forall p s, String.prefix (String "/" p) (String c s) = false).
    { intros p s. apply prefix_cons_ne. congruence. }
    rewrite (partition_skip "/d/" c x (Hp1 _ _)). cbn [fst].
    rewrite !(partition_skip "/" c _ (Hp1 _ _)). cbn [fst].
    rewrite IH. reflexivity.
Qed.

Lemma partition_slash_id (sheet_id rest : string) :
  contains "/" sheet_id = false ->
  fst (partition "/" (sheet_id ++ "/" ++ rest)) = sheet_id.
Proof.
  induction sheet_id as [|c s IH]; intros H.
  - change ("" ++ "/" ++ rest)%string with ("/" ++ rest)%string.
    rewrite partition_here. reflexivity.
  - cbn [contains] in H. apply orb_false_iff in H. destruct H as [Hp Hc].
    assert (Hp' : String.prefix "/" (String c (s ++ "/" ++ rest)) = false).
    { apply prefix_cons_ne. intros <-.
      cbn [String.prefix] in Hp.
      destruct (ascii_dec "/" "/"); [|congruence].
      destruct s; discriminate. }
    change (String c s ++ "/" ++ rest)%string
      with (String c (s ++ "/" ++ rest)).
    rewrite (partition_skip _ _ _ Hp'). cbn [fst]. rewrite (IH Hc).
    reflexivity.
Qed.

Lemma partition_cons (sep : string) (c : ascii) (s a : string)
  (r : option string) :
  String.prefix sep (String c s) = false ->
  partition sep s = (a, r) ->
  partition sep (String c s) = (String c a, r).
Proof. intros Hp E. rewrite (partition_skip _ _ _ Hp), E. reflexivity. Qed.

Lemma export_link_partition (tail : string) :
  partition "/d/" ("https://docs.google.com/spreadsheets/d/" ++ tail)
  = ("https://docs.google.com/spreadsheets", Some tail).
Proof.
  cbn [append].
  do 36 (apply partition_cons; [reflexivity|]).
  apply (partition_here "/d/" tail).
Qed.

(** A CSV export link is left as it is by the rewriting. *)
Lemma export_link_fixed (sheet_id : string) :
  contains "/" sheet_id = false ->
  google_sheets_export
    ("https://docs.google.com/spreadsheets/d/" ++ sheet_id
     ++ "/export?format=csv")
  = ("https://docs.google.com/spreadsheets/d/" ++ sheet_id
     ++ "/export?format=csv")%string.
Proof.
  intros Hid. unfold google_sheets_export.
  destruct (contains "docs.google.com" _ && contains "/edit" _);
    [|reflexivity].
  rewrite (split_second "/d/" _ _ _ ltac:(discriminate)
             (export_link_partition _)).
  cbn [obind fst]. rewrite split_first. cbn [obind].
  rewrite partition_slash_through.
  change (sheet_id ++ "/export?format=csv")%string
    with (sheet_id ++ "/" ++ "export?format=csv")%string.
  rewrite (partition_slash_id sheet_id "export?format=csv" Hid).
  reflexivity.
Qed.

(** X4.  Rewriting a link twice is rewriting it once: what
    [google_sheets_export] returns it leaves as it is.  In particular
    the CSV export link of a sheet id is never changed. *)
Theorem google_sheets_export_idempotent (url : string) :
  google_sheets_export (google_sheets_export url) = google_sheets_export url
  /\
  (forall sheet_id,
      contains "/" sheet_id = false ->
      google_sheets_export
        ("https://docs.google.com/spreadsheets/d/" ++ sheet_id
         ++ "/export?format=csv")
      = ("https://docs.google.com/spreadsheets/d/" ++ sheet_id
         ++ "/export?format=csv")%string).
Proof.
  split; [|apply export_link_fixed].
  destruct (contains "docs.google.com" url && contains "/edit" url) eqn:Hp.
  - apply andb_true_iff in Hp. destruct Hp as [Hdocs Hedit].
    destruct (contains "/d/" url) eqn:Hd.
    + destruct (google_sheets_export_found url Hdocs Hedit Hd)
        as [before [sheet_id [rest [_ [_ [Hid [_ ->]]]]]]].
      apply export_link_fixed, Hid.
    + rewrite (google_sheets_export_not_found url Hd).
      apply google_sheets_export_not_found, Hd.
  - assert (E : google_sheets_export url = url)
      by (unfold google_sheets_export; rewrite Hp; reflexivity).
    rewrite E. exact E.
Qed.

End ExportLinks.

Lemma google_sheets_export_idempotent_witness :
  google_sheets_export sample_export_link = sample_export_link.
Proof.
  exact (proj2 (google_sheets_export_idempotent "") "ABC123" eq_refl).
Defined.

(* ================================================================== *)
(** * More on the normalisers *)
(* ================================================================== *)

Section NormaliserLabels.

Import PyStr.

Lemma relabel_detentions_labels (d : DataFrame) :
  relabel_detentions d = set_labels d (detention_label (labels d)).
Proof.
  unfold relabel_detentions, rename, detention_label.
  rewrite set_labels_compose. unfold has_column.
  assert (E : labels (set_labels d
                 (fun l => dict_get detentions_rename_map (strip l)))
              = map (fun l => dict_get detentions_rename_map (strip l))
                  (labels d)).
  { unfold labels, set_labels. cbn [cols]. rewrite !map_map. reflexivity. }
  rewrite E.
  destruct (negb _); [|reflexivity].
  destruct (filter _ _); [reflexivity|].
  rewrite set_labels_compose. reflexivity.
Qed.

Lemma labels_set_labels (d : DataFrame) (g : string -> string) :
  labels (set_labels d g) = map g (labels d).
Proof. unfold labels, set_labels. cbn [cols]. rewrite !map_map. reflexivity. Qed.

Lemma set_labels_fixed (d : DataFrame) (g : string -> string) :
  (forall l, In l (labels d) -> g l = l) -> set_labels d g = d.
Proof.
  intros H. destruct d as [n cs]. unfold set_labels, labels in *.
  cbn [nrows cols] in *. f_equal.
  induction cs as [|[l s] cs IH]; [reflexivity|].
  simpl. rewrite (H l) by (left; reflexivity).
  rewrite IH by (intros l' Hl'; apply H; right; exact Hl'). reflexivity.
Qed.

(** The rename table of the detentions changes [Reg. Form] only. *)
Lemma detentions_rename_cases (l : string) :
  (l = "Reg. Form" /\ dict_get detentions_rename_map l = "Reg Form") \/
  (l <> "Reg. Form" /\ dict_get detentions_rename_map l = l).
Proof.
  cbn [dict_get detentions_rename_map].
  repeat match goal with
         | |- context [String.eqb l ?k] =>
             destruct (String.eqb_spec l k) as [->|?];
             [solve [left; split; reflexivity
                    | right; split; [discriminate | reflexivity]]|]
         end.
  right. split; [assumption | reflexivity].
Qed.

(** The rename table of the incidents changes four spellings. *)
Lemma oncall_rename_cases (l : string) :
  (In l ["Date/Time"; "Reported by"; "Students involved"; "Assigned to"] /\
   In (dict_get oncall_rename_map l)
      ["DateTime"; "Reported By"; "Students"; "Assigned To"]) \/
  (~ In l ["Date/Time"; "Reported by"; "Students involved"; "Assigned to"] /\
   dict_get oncall_rename_map l = l).
Proof.
  cbn [dict_get oncall_rename_map].
  repeat match goal with
         | |- context [String.eqb l ?k] =>
             destruct (String.eqb_spec l k) as [->|?];
             [solve [left; split; simpl; auto 6
                    | right; split;
                      [intros [H|[H|[H|[H|[]]]]]; discriminate
                      | reflexivity]]|]
         end.
  right. split; [|reflexivity].
  intros [H|[H|[H|[H|[]]]]]; congruence.
Qed.


Lemma canonical_trimmed (l : string) :
  strip (dict_get detentions_rename_map (strip l))
  = dict_get detentions_rename_map (strip l) /\
  dict_get detentions_rename_map (dict_get detentions_rename_map (strip l))
  = dict_get detentions_rename_map (strip l) /\
  dict_get detentions_rename_map (strip l) <> "Reg. Form".
Proof.
  destruct (detentions_rename_cases (strip l)) as [[E ->] | [E ->]].
  - repeat split; discriminate || reflexivity.
  - rewrite strip_idempotent.
    destruct (detentions_rename_cases (strip l)) as [[E' _] | [_ ->]];
      [contradiction|]. repeat split; assumption.
Qed.

Lemma canonical_candidate (l : string) :
  contains "attendance" (lower (dict_get detentions_rename_map (strip l)))
  = contains "attendance" (lower (strip l)).
Proof.
  destruct (detentions_rename_cases (strip l)) as [[-> ->] | [_ ->]];
    reflexivity.
Qed.

Lemma canonical_attendance (l : string) :
  dict_get detentions_rename_map (strip l) = "Detention Attendance" ->
  strip l = "Detention Attendance".
Proof.
  destruct (detentions_rename_cases (strip l)) as [[_ ->] | [_ ->]];
    [discriminate | auto].
Qed.

Lemma detention_label_cases (ls : list string) (l : string) :
  detention_label ls l = dict_get detentions_rename_map (strip l) \/
  detention_label ls l = "Detention Attendance".
Proof.
  unfold detention_label. destruct (negb _); [|left; reflexivity].
  destruct (filter _ _) as [|c0 cs]; [left; reflexivity|].
  cbn [dict_get]. destruct (String.eqb _ c0); [right | left]; reflexivity.
Qed.

Lemma existsb_eqb_In (x : string) (ls : list string) :
  existsb (String.eqb x) ls = true <-> In x ls.
Proof.
  rewrite existsb_exists. split.
  - intros [y [Hy E]]. apply String.eqb_eq in E. subst. exact Hy.
  - intros H. exists x. split; [exact H | apply String.eqb_refl].
Qed.

(** Whether the normalised labels hold [Detention Attendance]. *)
Lemma detention_labels_attendance (ls : list string) :
  In "Detention Attendance" (map (detention_label ls) ls) <->
  exists l, In l ls /\ contains "attendance" (lower (strip l)) = true.
Proof.
  set (canonical := fun l => dict_get detentions_rename_map (strip l)).
  assert (Hdl : forall l, detention_label ls l
     = if negb (existsb (String.eqb "Detention Attendance") (map canonical ls))
       then match filter (fun c => contains "attendance" (lower c))
                    (map canonical ls) with
            | c0 :: _ => dict_get [(c0, "Detention Attendance")] (canonical l)
            | [] => canonical l
            end
       else canonical l) by reflexivity.
  destruct (existsb (String.eqb "Detention Attendance") (map canonical ls))
    eqn:Hda; cbn [negb] in Hdl.
  - (* a label is Detention Attendance already *)
    rewrite (map_ext _ _ Hdl).
    apply existsb_eqb_In in Hda. split; [|intros _; exact Hda].
    intros H. apply in_map_iff in H. destruct H as [l [E Hl]].
    exists l. split; [exact Hl|].
    rewrite (canonical_attendance l E). reflexivity.
  - assert (Hno : ~ In "Detention Attendance" (map canonical ls)).
    { intros H. apply existsb_eqb_In in H. congruence. }
    destruct (filter (fun c => contains "attendance" (lower c))
                (map canonical ls)) as [|c0 cs] eqn:Hf.
    + rewrite (map_ext _ _ Hdl). split; [intros H; contradiction|].
      intros [l [Hl Hc]]. exfalso.
      assert (Hin : In (canonical l)
                      (filter (fun c => contains "attendance" (lower c))
                         (map canonical ls))).
      { apply filter_In. split; [apply in_map, Hl|].
        unfold canonical. rewrite canonical_candidate. exact Hc. }
      rewrite Hf in Hin. contradiction.
    + rewrite (map_ext _ _ Hdl).
      assert (Hc0 : In c0 (filter (fun c => contains "attendance" (lower c))
                             (map canonical ls)))
        by (rewrite Hf; left; reflexivity).
      apply filter_In in Hc0. destruct Hc0 as [Hin Hcand].
      apply in_map_iff in Hin. destruct Hin as [l0 [E0 Hl0]].
      split.
      * intros _. exists l0. split; [exact Hl0|].
        rewrite <- canonical_candidate. fold (canonical l0).
        rewrite E0. exact Hcand.
      * intros _. apply in_map_iff. exists l0. split; [|exact Hl0].
        cbn [dict_get]. rewrite E0, String.eqb_refl. reflexivity.
Qed.

End NormaliserLabels.

Section NormaliserResults.

Variable parse_datetime : datetime_parser.

Import PyStr.

Lemma count_occ_labels (cs : list (string * Series)) (col : string) :
  count_occ string_dec (map fst cs) col
  = List.length (filter (fun c => String.eqb (fst c) col) cs).
Proof.
  induction cs as [|c cs IH]; [reflexivity|]. simpl.
  destruct (string_dec (fst c) col) as [E|E].
  - rewrite (proj2 (String.eqb_eq _ _) E). simpl. congruence.
  - rewrite (proj2 (String.eqb_neq _ _) E). exact IH.
Qed.

(** The loop body returns only when [col] labels at most one column. *)
Lemma parse_dates_ok (col : string) (d d' : DataFrame) :
  parse_dates parse_datetime col d = Ok d' ->
  count_occ string_dec (labels d) col <= 1 /\
  d' = {| nrows := nrows d;
          cols := map (coerce_column parse_datetime col) (cols d) |}.
Proof.
  intros H.
  assert (Hc : count_occ string_dec (labels d) col <= 1).
  { destruct (le_gt_dec (count_occ string_dec (labels d) col) 1) as [|Hgt];
      [assumption|]. exfalso.
    unfold parse_dates in H.
    assert (Hhas : has_column d col = true)
      by (apply has_column_count; lia).
    rewrite Hhas in H. unfold labels in Hgt. rewrite count_occ_labels in Hgt.
    unfold to_datetime, getitem, select in H.
    destruct (filter (fun c => String.eqb (fst c) col) (cols d))
      as [|c1 [|c2 rest]]; simpl in Hgt; try lia. discriminate H. }
  split; [exact Hc|].
  rewrite (parse_dates_one parse_datetime col d Hc) in H.
  destruct (column_zone_ok parse_datetime col (cols d));
    [congruence | discriminate].
Qed.

Lemma normalised_detentions_ok (d out : DataFrame) :
  normalised_detentions parse_datetime d = Ok out ->
  count_occ string_dec (labels (relabel_detentions d)) "Issued Date" <= 1 /\
  count_occ string_dec (labels (relabel_detentions d)) "Detention Date" <= 1 /\
  out = {| nrows := nrows d;
           cols := map (coerce_column parse_datetime "Detention Date")
                     (map (coerce_column parse_datetime "Issued Date")
                        (cols (relabel_detentions d))) |}.
Proof.
  unfold normalised_detentions. intros H.
  destruct (index_str (labels d)) as [ls|e0]; [|discriminate].
  cbn [obind] in H.
  destruct (parse_dates parse_datetime "Issued Date" (relabel_detentions d))
    as [d1|e] eqn:E1; [|discriminate]. cbn [obind] in H.
  apply parse_dates_ok in E1. destruct E1 as [C1 ->].
  apply parse_dates_ok in H. destruct H as [C2 ->].
  unfold labels in C2. cbn [cols nrows] in *.
  rewrite coerce_column_labels in C2.
  repeat split; try assumption.
  destruct (relabel_detentions_shape d) as [g ->]. reflexivity.
Qed.

Lemma normalised_detentions_columns (d out : DataFrame) :
  normalised_detentions parse_datetime d = Ok out -> labels d <> [].
Proof.
  unfold normalised_detentions. intros H E. rewrite E in H. discriminate.
Qed.

Lemma normalised_detentions_labels (d out : DataFrame) :
  normalised_detentions parse_datetime d = Ok out ->
  labels out = map (detention_label (labels d)) (labels d).
Proof.
  intros H. apply normalised_detentions_ok in H. destruct H as [_ [_ ->]].
  unfold labels at 1. cbn [cols]. rewrite !coerce_column_labels.
  change (map fst (cols (relabel_detentions d)))
    with (labels (relabel_detentions d)).
  rewrite relabel_detentions_labels. apply labels_set_labels.
Qed.

Lemma normalised_oncall_ok (d out : DataFrame) :
  normalised_oncall parse_datetime d = Ok out ->
  count_occ string_dec (labels (rename d oncall_rename_map)) "DateTime" <= 1 /\
  out = {| nrows := nrows d;
           cols := map (coerce_column parse_datetime "DateTime")
                     (cols (rename d oncall_rename_map)) |}.
Proof.
  unfold normalised_oncall. intros H. apply parse_dates_ok in H.
  destruct H as [C ->]. split; [exact C | reflexivity].
Qed.

Lemma normalised_oncall_labels (d out : DataFrame) :
  normalised_oncall parse_datetime d = Ok out ->
  labels out = map (dict_get oncall_rename_map) (labels d).
Proof.
  intros H. apply normalised_oncall_ok in H. destruct H as [_ ->].
  unfold labels at 1. cbn [cols]. rewrite coerce_column_labels.
  apply (labels_set_labels d).
Qed.

(** X5.  A normalised detentions frame has a [Detention Attendance]
    column exactly when some label of the sheet, trimmed and lowered,
    holds "attendance". *)
Theorem attendance_column_found (df out : DataFrame) :
  returned (prepare_detentions parse_datetime) df = Ok out ->
  (has_column out "Detention Attendance" = true <->
   exists l, In l (labels df) /\
             contains "attendance" (lower (strip l)) = true).
Proof.
  rewrite returned_prepare_detentions. intros H.
  unfold has_column. rewrite (normalised_detentions_labels _ _ H).
  rewrite existsb_eqb_In. apply detention_labels_attendance.
Qed.

(** X6.  When no label is [Detention Attendance] after trimming and
    renaming, the first label, in column order, that holds "attendance"
    becomes [Detention Attendance], with the later columns of the same
    label; every other label, also one that holds "attendance", is just
    trimmed and renamed by the table. *)
Theorem first_attendance_label_wins
  (df out : DataFrame) (before after : list string) (l0 : string) :
  returned (prepare_detentions parse_datetime) df = Ok out ->
  labels df = before ++ l0 :: after ->
  (forall l, In l (labels df) -> strip l <> "Detention Attendance") ->
  (forall l, In l before ->
             contains "attendance" (lower (strip l)) = false) ->
  contains "attendance" (lower (strip l0)) = true ->
  labels out
  = map (fun l => dict_get detentions_rename_map (strip l)) before
    ++ "Detention Attendance"
    :: map (fun l => if String.eqb (strip l) (strip l0)
                     then "Detention Attendance"
                     else dict_get detentions_rename_map (strip l)) after.
Proof.
  rewrite returned_prepare_detentions. intros H Hls Hno Hbefore Hl0.
  rewrite (normalised_detentions_labels _ _ H), Hls.
  set (canonical := fun l => dict_get detentions_rename_map (strip l)).
  assert (Hfix : forall l, contains "attendance" (lower (strip l)) = true ->
                           canonical l = strip l).
  { intros l Hl. unfold canonical.
    destruct (detentions_rename_cases (strip l)) as [[E _] | [_ E]];
      [rewrite E in Hl; discriminate | exact E]. }
  assert (Hda : existsb (String.eqb "Detention Attendance")
                  (map canonical (before ++ l0 :: after)) = false).
  { destruct (existsb _ _) eqn:E; [|reflexivity]. exfalso.
    apply existsb_eqb_In in E. apply in_map_iff in E.
    destruct E as [l [E Hl]]. rewrite <- Hls in Hl.
    apply (Hno l Hl). apply canonical_attendance, E. }
  assert (Hf : exists cs,
             filter (fun c => contains "attendance" (lower c))
               (map canonical (before ++ l0 :: after)) = strip l0 :: cs).
  { rewrite map_app, filter_app.
    assert (Hb : filter (fun c => contains "attendance" (lower c))
                   (map canonical before) = []).
    { clear - Hbefore. induction before as [|b bs IH]; [reflexivity|].
      simpl. unfold canonical at 1. rewrite canonical_candidate.
      rewrite (Hbefore b) by (left; reflexivity).
      apply IH. intros l Hl. apply Hbefore. right. exact Hl. }
    rewrite Hb. cbn [map filter app]. unfold canonical at 1.
    rewrite canonical_candidate, Hl0. fold (canonical l0).
    rewrite (Hfix l0 Hl0). eauto. }
  destruct Hf as [cs Hf].
  assert (Hdl : forall l, detention_label (before ++ l0 :: after) l
                          = if String.eqb (canonical l) (strip l0)
                            then "Detention Attendance" else canonical l).
  { intros l. unfold detention_label. fold canonical.
    rewrite Hda. cbn [negb]. rewrite Hf. reflexivity. }
  rewrite (map_ext _ _ Hdl), map_app. cbn [map].
  rewrite (Hfix l0 Hl0), String.eqb_refl. f_equal; [|f_equal].
  - apply map_ext_in. intros l Hl.
    destruct (String.eqb_spec (canonical l) (strip l0)) as [E|_];
      [|reflexivity].
    exfalso. specialize (Hbefore l Hl).
    unfold canonical in E. rewrite <- canonical_candidate, E, Hl0 in Hbefore.
    discriminate.
  - apply map_ext. intros l.
    destruct (String.eqb_spec (strip l) (strip l0)) as [E|E].
    + assert (Hl : contains "attendance" (lower (strip l)) = true)
        by (rewrite E; exact Hl0).
      rewrite (Hfix l Hl), E, String.eqb_refl. reflexivity.
    + destruct (String.eqb_spec (canonical l) (strip l0)) as [E'|_];
        [|reflexivity].
      exfalso. apply E.
      assert (Hl : contains "attendance" (lower (strip l)) = true).
      { rewrite <- canonical_candidate. fold (canonical l).
        rewrite E'. exact Hl0. }
      rewrite <- (Hfix l Hl). exact E'.
Qed.

(** X7.  Every label of a normalised detentions frame is trimmed and is
    not [Reg. Form]; no label of a normalised on-call frame is one of
    the four spellings that the rename table replaces. *)
Theorem normalised_labels_canonical (df out : DataFrame) :
  (returned (prepare_detentions parse_datetime) df = Ok out ->
   forall l, In l (labels out) -> strip l = l /\ l <> "Reg. Form") /\
  (returned (prepare_oncall parse_datetime) df = Ok out ->
   forall l, In l (labels out) ->
     ~ In l ["Date/Time"; "Reported by"; "Students involved"; "Assigned to"]).
Proof.
  split.
  - rewrite returned_prepare_detentions. intros H l Hl.
    rewrite (normalised_detentions_labels _ _ H) in Hl.
    apply in_map_iff in Hl. destruct Hl as [l0 [<- _]].
    destruct (detention_label_cases (labels df) l0) as [-> | ->].
    + destruct (canonical_trimmed l0) as [H1 [_ H3]]. split; assumption.
    + split; [reflexivity | discriminate].
  - rewrite returned_prepare_oncall. intros H l Hl.
    rewrite (normalised_oncall_labels _ _ H) in Hl.
    apply in_map_iff in Hl. destruct Hl as [l0 [<- _]].
    destruct (oncall_rename_cases l0) as [[_ Hv] | [Hk ->]]; [|exact Hk].
    intros Hk. cbn [In] in Hv, Hk.
    destruct Hv as [E|[E|[E|[E|[]]]]]; rewrite <- E in Hk;
      destruct Hk as [K|[K|[K|[K|[]]]]]; discriminate.
Qed.

End NormaliserResults.

Section NormaliserIdempotence.

Variable parse_datetime : datetime_parser.

Import PyStr.

Lemma to_datetime_cell_idempotent (c : cell) :
  to_datetime_cell parse_datetime (to_datetime_cell parse_datetime c)
  = to_datetime_cell parse_datetime c.
Proof.
  destruct c as [|s|z|t]; cbn [to_datetime_cell]; try reflexivity.
  - destruct (null_text s); [reflexivity|].
    destruct (parse_one parse_datetime s); reflexivity.
  - unfold epoch_cell. destruct (_ && _); reflexivity.
Qed.

Lemma coerce_column_absorb (a b : string) (c : string * Series) :
  coerce_column parse_datetime a
    (coerce_column parse_datetime b (coerce_column parse_datetime a c))
  = coerce_column parse_datetime b (coerce_column parse_datetime a c).
Proof.
  destruct c as [l s]. unfold coerce_column. cbn [fst snd].
  destruct (String.eqb l a) eqn:Ea; cbn [fst snd];
    destruct (String.eqb l b) eqn:Eb; cbn [fst snd]; rewrite ?Ea;
    cbn [fst snd]; try reflexivity;
    rewrite !read_values_idempotent; reflexivity.
Qed.

Lemma coerce_column_idempotent (a : string) (c : string * Series) :
  coerce_column parse_datetime a (coerce_column parse_datetime a c)
  = coerce_column parse_datetime a c.
Proof.
  destruct c as [l s]. unfold coerce_column. cbn [fst snd].
  destruct (String.eqb l a) eqn:Ea; cbn [fst snd]; rewrite Ea;
    [|reflexivity].
  cbn [fst snd]. rewrite read_values_idempotent. reflexivity.
Qed.

(** The labels of a normalised detentions frame are kept by a second
    normalisation. *)
Lemma detention_label_fixed (ls : list string) (l : string) :
  In l (map (detention_label ls) ls) ->
  detention_label (map (detention_label ls) ls) l = l.
Proof.
  set (L := map (detention_label ls) ls).
  set (canonical := fun l => dict_get detentions_rename_map (strip l)).
  assert (Hcan : forall y, In y L -> canonical y = y).
  { intros y Hy. apply in_map_iff in Hy. destruct Hy as [l0 [<- _]].
    unfold canonical.
    destruct (detention_label_cases ls l0) as [-> | ->]; [|reflexivity].
    destruct (canonical_trimmed l0) as [H1 [H2 _]]. rewrite H1. exact H2. }
  assert (HL : map canonical L = L).
  { rewrite <- (map_id L) at 2. apply map_ext_in. exact Hcan. }
  intros Hl. unfold detention_label. fold canonical. rewrite HL.
  destruct (existsb (String.eqb "Detention Attendance") L) eqn:Hda;
    cbn [negb]; [apply Hcan, Hl|].
  assert (Hf : filter (fun c => contains "attendance" (lower c)) L = []).
  { destruct (filter _ L) as [|y ys] eqn:E; [reflexivity|]. exfalso.
    assert (Hy : In y (filter (fun c => contains "attendance" (lower c)) L))
      by (rewrite E; left; reflexivity).
    apply filter_In in Hy. destruct Hy as [Hy Hc].
    assert (Hin : In "Detention Attendance" L).
    { apply detention_labels_attendance.
      apply in_map_iff in Hy. destruct Hy as [l0 [Ey Hl0]].
      destruct (detention_label_cases ls l0) as [E1 | E1].
      - exists l0. split; [exact Hl0|].
        rewrite <- canonical_candidate, <- E1, Ey. exact Hc.
      - exfalso. rewrite E1 in Ey. subst y.
        assert (In "Detention Attendance" L)
          by (apply in_map_iff; exists l0; auto).
        apply existsb_eqb_In in H. congruence. }
    apply existsb_eqb_In in Hin. congruence. }
  rewrite Hf. apply Hcan, Hl.
Qed.

Lemma oncall_rename_fixed (l : string) :
  dict_get oncall_rename_map (dict_get oncall_rename_map l)
  = dict_get oncall_rename_map l.
Proof.
  destruct (oncall_rename_cases l) as [[_ Hv] | [_ E]].
  - cbn [In] in Hv.
    destruct Hv as [E|[E|[E|[E|[]]]]]; rewrite <- E; reflexivity.
  - rewrite !E. reflexivity.
Qed.

(** X8.  Normalising a normalised frame changes nothing: what
    [prepare_detentions] returns, it returns again when called on it,
    and so for [prepare_oncall]. *)
Theorem normalisation_idempotent (df out : DataFrame) :
  (returned (prepare_detentions parse_datetime) df = Ok out ->
   returned (prepare_detentions parse_datetime) out = Ok out) /\
  (returned (prepare_oncall parse_datetime) df = Ok out ->
   returned (prepare_oncall parse_datetime) out = Ok out).
Proof.
  split.
  - rewrite !returned_prepare_detentions. intros H.
    pose proof (normalised_detentions_labels parse_datetime _ _ H) as HL.
    destruct (normalised_detentions_ok parse_datetime _ _ H)
      as [C1 [C2 Hout]].
    assert (Hre : relabel_detentions out = out).
    { rewrite relabel_detentions_labels. apply set_labels_fixed.
      rewrite HL. apply detention_label_fixed. }
    assert (HL' : labels out = labels (relabel_detentions df)).
    { rewrite Hout. unfold labels at 1. cbn [cols].
      rewrite !coerce_column_labels. reflexivity. }
    unfold normalised_detentions. rewrite Hre.
    rewrite index_str_some
      by (rewrite HL; intros E; apply map_eq_nil in E;
          exact (normalised_detentions_columns parse_datetime _ _ H E)).
    cbn [obind].
    rewrite parse_dates_unique;
      [|rewrite HL'; exact C1
       |rewrite Hout; cbn [cols];
        apply column_zone_coerce, column_zone_coerced].
    assert (E1 : {| nrows := nrows out;
                    cols := map (coerce_column parse_datetime "Issued Date")
                              (cols out) |} = out).
    { rewrite Hout at 2. rewrite Hout at 2. cbn [nrows cols].
      rewrite Hout at 1. cbn [nrows]. f_equal.
      rewrite !map_map. apply map_ext. intros c.
      apply coerce_column_absorb. }
    rewrite E1. cbn [obind].
    rewrite parse_dates_unique;
      [|rewrite HL'; exact C2
       |rewrite Hout; cbn [cols]; apply column_zone_coerced].
    f_equal. rewrite Hout at 3. rewrite Hout at 2. cbn [nrows cols].
    rewrite Hout at 1. cbn [nrows]. f_equal.
    rewrite !map_map. apply map_ext. intros c.
    apply coerce_column_idempotent.
  - rewrite !returned_prepare_oncall. intros H.
    pose proof (normalised_oncall_labels parse_datetime _ _ H) as HL.
    destruct (normalised_oncall_ok parse_datetime _ _ H) as [C Hout].
    assert (Hre : rename out oncall_rename_map = out).
    { unfold rename. apply set_labels_fixed. rewrite HL.
      intros l Hl. apply in_map_iff in Hl. destruct Hl as [l0 [<- _]].
      apply oncall_rename_fixed. }
    assert (HL' : labels out = labels (rename df oncall_rename_map)).
    { rewrite Hout. unfold labels at 1. cbn [cols].
      rewrite coerce_column_labels. reflexivity. }
    unfold normalised_oncall. rewrite Hre.
    rewrite parse_dates_unique;
      [|rewrite HL'; exact C
       |rewrite Hout; cbn [cols]; apply column_zone_coerced].
    f_equal. rewrite Hout at 3. rewrite Hout at 2. cbn [nrows cols].
    rewrite Hout at 1. cbn [nrows]. f_equal.
    rewrite !map_map. apply map_ext. intros c.
    apply coerce_column_idempotent.
Qed.

End NormaliserIdempotence.

Lemma attendance_column_found_witness :
  has_column detentions_spaced_normalised "Detention Attendance" = true.
Proof.
  apply (proj2 (attendance_column_found sample_parse_datetime
                  detentions_spaced detentions_spaced_normalised eq_refl)).
  exists "Pupil Attendance Record ". split; [right; left|]; reflexivity.
Defined.

Lemma first_attendance_label_wins_witness :
  labels detentions_spaced_normalised
  = ["Issued Date"; "Detention Attendance"].
Proof.
  refine (first_attendance_label_wins sample_parse_datetime
            detentions_spaced detentions_spaced_normalised
            [" Issued Date"] [] "Pupil Attendance Record "
            eq_refl eq_refl _ _ eq_refl).
  - intros l [<- | [<- | []]]; discriminate.
  - intros l [<- | []]. reflexivity.
Defined.

Lemma normalised_labels_canonical_witness :
  In "Detention Attendance" (labels detentions_spaced_normalised) /\
  PyStr.strip "Detention Attendance" = "Detention Attendance" /\
  "Detention Attendance" <> "Reg. Form".
Proof.
  assert (H : In "Detention Attendance" (labels detentions_spaced_normalised))
    by (right; left; reflexivity).
  split; [exact H|].
  exact (proj1 (normalised_labels_canonical sample_parse_datetime
                  detentions_spaced detentions_spaced_normalised) eq_refl
           "Detention Attendance" H).
Defined.

Lemma normalisation_idempotent_witness :
  returned (prepare_detentions sample_parse_datetime)
    detentions_spaced_normalised
  = Ok detentions_spaced_normalised.
Proof.
  exact (proj1 (normalisation_idempotent sample_parse_datetime
                  detentions_spaced detentions_spaced_normalised) eq_refl).
Defined.

Section FreshResult.

Variable parse_datetime : datetime_parser.

Lemma prepare_oncall_fresh (n : nat) (r : ref) :
  preserves n (prepare_oncall parse_datetime r) (fun r' => n <= r').
Proof.
  unfold prepare_oncall.
  eapply preserves_bind; [apply preserves_deref|]. intros d _.
  eapply preserves_bind; [apply preserves_alloc|]. intros r' Hr'.
  eapply preserves_bind; [apply preserves_deref|]. intros d' _.
  eapply preserves_bind; [apply (preserves_parse _ n r' d' "DateTime" Hr')|].
  intros _ _. apply preserves_ret. exact Hr'.
Qed.

Lemma mutate_then_result {A} (r : ref) (f : DataFrame -> DataFrame)
  (m : M A) (Q : A -> Prop) (w : World) :
  preserves (List.length (objects w)) m Q ->
  forall a, snd (bind (mutate r f) (fun _ => m) w) = Ok a -> Q a.
Proof.
  intros Hm a. unfold bind. simpl.
  set (w1 := {| objects := update_nth (objects w) r
                             (f (nth r (objects w) empty_frame));
                page := page w; requests := requests w |}).
  destruct (Hm w1) as [_ [_ H]].
  - cbn [objects w1]. rewrite length_update_nth. apply le_n.
  - destruct (m w1) as [w2 o]. exact (H a).
Qed.

(** X9.  The frame a normaliser returns is a new object: its reference
    is none of those that exist when the normaliser is called, so it is
    never the caller's frame. *)
Theorem normalised_frame_is_new (w : World) (r r' : ref) :
  (snd (prepare_detentions parse_datetime r w) = Ok r' ->
   List.length (objects w) <= r') /\
  (snd (prepare_oncall parse_datetime r w) = Ok r' ->
   List.length (objects w) <= r').
Proof.
  split.
  - unfold prepare_detentions.
    unfold bind at 1, deref. unfold bind at 1, lift.
    destruct (index_str (labels (nth r (objects w) empty_frame)))
      as [ls|e]; [|cbn [snd]; discriminate].
    apply (mutate_then_result r (fun d => set_labels d PyStr.strip) _
             (fun r' => List.length (objects w) <= r')).
    set (n := List.length (objects w)).
    eapply preserves_bind; [apply preserves_deref|]. intros d _.
    eapply preserves_bind; [apply preserves_alloc|]. intros r2 Hr2.
    eapply preserves_bind; [apply preserves_deref|]. intros d2 _.
    eapply (preserves_bind n _ _ (fun r3 => n <= r3)).
    + destruct (negb (has_column d2 "Detention Attendance")).
      * destruct (filter _ (labels d2)).
        -- apply preserves_ret, Hr2.
        -- apply preserves_alloc.
      * apply preserves_ret, Hr2.
    + intros r3 Hr3.
      eapply preserves_bind.
      * apply preserves_for_each. intros col.
        eapply preserves_bind; [apply preserves_deref|]. intros d3 _.
        apply preserves_parse, Hr3.
      * intros _ _. apply preserves_ret. exact Hr3.
  - intros H.
    destruct (prepare_oncall_fresh (List.length (objects w)) r w (le_n _))
      as [_ [_ HQ]].
    exact (HQ r' H).
Qed.

End FreshResult.

Lemma normalised_frame_is_new_witness :
  List.length [detentions_spaced] <= 2.
Proof.
  exact (proj1 (normalised_frame_is_new sample_parse_datetime
                  {| objects := [detentions_spaced]; page := [];
                     requests := [] |} 0 2) eq_refl).
Defined.

(* ================================================================== *)
(** * More on the dashboards *)
(* ================================================================== *)

Section RenderAppends.

Variable show_num : Z -> string.
Variable show_time : timestamp -> string.

Lemma appends_at_start {A} (m : M A) (ws : list widget) (o : outcome A)
  (w : World) :
  appends m ws o ->
  m w = ({| objects := objects w; page := page w ++ page (fst (m start));
            requests := requests w |}, snd (m start)).
Proof. intros H. rewrite (H start), (H w). reflexivity. Qed.

Lemma appends_emit (x : widget) : appends (emit x) [x] (Ok tt).
Proof. intros w. reflexivity. Qed.

Lemma appends_lift {A} (o : outcome A) : appends (lift o) [] o.
Proof. intros w. destruct w. unfold lift. simpl. rewrite app_nil_r. reflexivity. Qed.

Lemma appends_bind {A B} (m : M A) (k : A -> M B) (ws ws' : list widget)
  (o : outcome A) (o' : outcome B) :
  appends m ws o ->
  match o with
  | Ok a => appends (k a) ws' o'
  | Raise e => ws' = [] /\ o' = Raise e
  end ->
  appends (bind m k) (ws ++ ws') o'.
Proof.
  intros Hm Hk w. unfold bind. rewrite (Hm w). destruct o as [a|e].
  - rewrite (Hk _). simpl. rewrite app_assoc. reflexivity.
  - destruct Hk as [-> ->]. rewrite app_nil_r. reflexivity.
Qed.

Lemma appends_chart_ok (columns fields : list string) (t : table) :
  forallb (fun f => existsb (String.eqb f) columns) fields = true ->
  appends (st_altair_chart columns fields t) [AltairChart t] (Ok tt).
Proof. intros H w. unfold st_altair_chart. rewrite H. reflexivity. Qed.

Lemma appends_chart_fail (columns fields : list string) (t : table) :
  forallb (fun f => existsb (String.eqb f) columns) fields = false ->
  appends (st_altair_chart columns fields t) [] (Raise ValueError).
Proof.
  intros H w. unfold st_altair_chart, raise. rewrite H, app_nil_r.
  destruct w; reflexivity.
Qed.

Ltac solve_appends :=
  cbv beta iota zeta;
  lazymatch goal with
  | |- _ /\ _ => split; reflexivity
  | |- appends (bind _ _) _ _ =>
      eapply appends_bind; [solve_appends | solve_appends]
  | |- appends (emit _) _ _ => apply appends_emit
  | |- appends (lift _) _ _ => apply appends_lift
  | |- appends (st_altair_chart _ _ _) _ _ =>
      first [ apply appends_chart_ok; reflexivity
            | apply appends_chart_fail; reflexivity ]
  end.

Lemma render_detentions_appends (df : DataFrame) :
  exists ws o,
    appends (render_detentions_dashboard show_num show_time df) ws o.
Proof.
  unfold render_detentions_dashboard.
  destruct (empty df);
    [|destruct (headline_attended show_num show_time df);
      [destruct (has_column df "Year");
       [destruct (year_breakdown df)|];
       (destruct (has_column df "Issued Date");
        [destruct (daily_detentions df)|])|]];
    do 2 eexists; solve_appends.
Qed.

Lemma render_oncall_appends (df : DataFrame) :
  exists ws o, appends (render_oncall_dashboard df) ws o.
Proof.
  unfold render_oncall_dashboard.
  destruct (empty df);
    [|destruct (status_count df "Resolved");
      [destruct (status_count df "Unresolved");
       [destruct (has_column df "Type");
        [destruct (type_counts df)|];
        (destruct (has_column df "DateTime");
         [destruct (daily_incidents df)|])|]|]];
    do 2 eexists; solve_appends.
Qed.

(** X10.  A dashboard only writes on the page: it makes no read and
    changes no frame object, and the widgets it appends and the way it
    ends depend on the frame alone, not on what the page holds
    already. *)
Theorem dashboards_only_append (df : DataFrame) (w : World) :
  render_detentions_dashboard show_num show_time df w
  = ({| objects := objects w;
        page := page w
                ++ page (fst (render_detentions_dashboard show_num show_time
                                df start));
        requests := requests w |},
     snd (render_detentions_dashboard show_num show_time df start)) /\
  render_oncall_dashboard df w
  = ({| objects := objects w;
        page := page w ++ page (fst (render_oncall_dashboard df start));
        requests := requests w |},
     snd (render_oncall_dashboard df start)).
Proof.
  split.
  - destruct (render_detentions_appends df) as [ws [o H]].
    exact (appends_at_start _ ws o w H).
  - destruct (render_oncall_appends df) as [ws [o H]].
    exact (appends_at_start _ ws o w H).
Qed.

End RenderAppends.

(* ================================================================== *)
(** * More on the page script *)
(* ================================================================== *)

Section Reads.

Lemma reads_ret {A} (a : A) : adds_reads (ret a) [].
Proof. intros w. simpl. symmetry. apply app_nil_r. Qed.

Lemma reads_lift {A} (o : outcome A) : adds_reads (lift o) [].
Proof. intros w. simpl. symmetry. apply app_nil_r. Qed.

Lemma reads_emit (x : widget) : adds_reads (emit x) [].
Proof. intros w. simpl. symmetry. apply app_nil_r. Qed.

Lemma reads_deref (r : ref) : adds_reads (deref r) [].
Proof. intros w. simpl. symmetry. apply app_nil_r. Qed.

Lemma reads_alloc (df : DataFrame) : adds_reads (alloc df) [].
Proof. intros w. simpl. symmetry. apply app_nil_r. Qed.

Lemma reads_mutate (r : ref) (f : DataFrame -> DataFrame) :
  adds_reads (mutate r f) [].
Proof. intros w. simpl. symmetry. apply app_nil_r. Qed.

Lemma never_raises_emit (x : widget) : never_raises (emit x).
Proof. intros w. exists tt. reflexivity. Qed.

(** A continuation without reads adds nothing, whether it runs or not. *)
Lemma reads_bind_silent {A B} (m : M A) (k : A -> M B) (qs : list request) :
  adds_reads m qs -> (forall a, adds_reads (k a) []) ->
  adds_reads (bind m k) qs.
Proof.
  intros Hm Hk w. unfold bind. specialize (Hm w).
  destruct (m w) as [w' [a|e]]; simpl in *; [|exact Hm].
  rewrite (Hk a w'), Hm. apply app_nil_r.
Qed.

(** After a computation that returns, the continuation runs. *)
Lemma reads_bind_total {A B} (m : M A) (k : A -> M B)
  (qs1 qs2 : list request) :
  adds_reads m qs1 -> never_raises m -> (forall a, adds_reads (k a) qs2) ->
  adds_reads (bind m k) (qs1 ++ qs2).
Proof.
  intros Hm Hn Hk w. unfold bind. specialize (Hm w).
  destruct (Hn w) as [a Ha].
  destruct (m w) as [w' o]; simpl in *. subst o.
  rewrite (Hk a w'), Hm. symmetry. apply app_assoc.
Qed.

Lemma reads_after_emit {B} (x : widget) (k : unit -> M B)
  (qs : list request) :
  (forall a, adds_reads (k a) qs) -> adds_reads (bind (emit x) k) qs.
Proof.
  intros Hk.
  apply (reads_bind_total (emit x) k [] qs (reads_emit x)
           (never_raises_emit x) Hk).
Qed.

Lemma reads_for_each {A} (xs : list A) (body : A -> M unit) :
  (forall x, adds_reads (body x) []) -> adds_reads (for_each xs body) [].
Proof.
  intros H. induction xs as [|x xs IH]; simpl.
  - apply reads_ret.
  - apply reads_bind_silent; [apply H | intros _; exact IH].
Qed.

Variable read_csv read_excel : source -> outcome DataFrame.
Variable parse_datetime : datetime_parser.
Variable show_num : Z -> string.
Variable show_time : timestamp -> string.

Lemma prepare_detentions_silent (r : ref) :
  adds_reads (prepare_detentions parse_datetime r) [].
Proof.
  unfold prepare_detentions.
  apply reads_bind_silent; [apply reads_deref|]. intros d0.
  apply reads_bind_silent; [apply reads_lift|]. intros _.
  apply reads_bind_silent; [apply reads_mutate|]. intros _.
  apply reads_bind_silent; [apply reads_deref|]. intros d.
  apply reads_bind_silent; [apply reads_alloc|]. intros r2.
  apply reads_bind_silent; [apply reads_deref|]. intros d2.
  apply reads_bind_silent.
  - destruct (negb _); [destruct (filter _ _)|];
      apply reads_ret || apply reads_alloc.
  - intros r3. apply reads_bind_silent; [|intros _; apply reads_ret].
    apply reads_for_each. intros col.
    apply reads_bind_silent; [apply reads_deref|]. intros d3.
    destruct (has_column d3 col); [|apply reads_ret].
    apply reads_bind_silent; [apply reads_lift|]. intros s.
    apply reads_mutate.
Qed.

Lemma prepare_oncall_silent (r : ref) :
  adds_reads (prepare_oncall parse_datetime r) [].
Proof.
  unfold prepare_oncall.
  apply reads_bind_silent; [apply reads_deref|]. intros d.
  apply reads_bind_silent; [apply reads_alloc|]. intros r2.
  apply reads_bind_silent; [apply reads_deref|]. intros d2.
  apply reads_bind_silent; [|intros _; apply reads_ret].
  destruct (has_column d2 "DateTime"); [|apply reads_ret].
  apply reads_bind_silent; [apply reads_lift|]. intros s.
  apply reads_mutate.
Qed.

Lemma appends_silent {A} (m : M A) (ws : list widget) (o : outcome A) :
  appends m ws o -> adds_reads m [].
Proof. intros H w. rewrite (H w). simpl. symmetry. apply app_nil_r. Qed.

Lemma render_detentions_silent (df : DataFrame) :
  adds_reads (render_detentions_dashboard show_num show_time df) [].
Proof.
  destruct (render_detentions_appends show_num show_time df) as [ws [o H]].
  exact (appends_silent _ ws o H).
Qed.

Lemma render_oncall_silent (df : DataFrame) :
  adds_reads (render_oncall_dashboard df) [].
Proof.
  destruct (render_oncall_appends df) as [ws [o H]].
  exact (appends_silent _ ws o H).
Qed.

Lemma load_data_from_file_returns (f : UploadedFile) :
  never_raises (load_data_from_file read_csv read_excel (Some f)).
Proof.
  intros w. unfold load_data_from_file, try_except.
  destruct (PyStr.endswith ".csv" (PyStr.lower (name f))).
  - unfold pd_read_csv, bind, log_request, lift, alloc, ret, emit. simpl.
    destruct (read_csv (FromFile f)); simpl; eauto.
  - destruct (PyStr.endswith ".xlsx" (PyStr.lower (name f))
              || PyStr.endswith ".xls" (PyStr.lower (name f))).
    + unfold pd_read_excel, bind, log_request, lift, alloc, ret, emit. simpl.
      destruct (read_excel (FromFile f)); simpl; eauto.
    + unfold bind, emit, ret. simpl. eauto.
Qed.

(** The choice of a source returns, and reads what [dataset_reads]
    says. *)
Lemma load_dataset_reads (file : option UploadedFile) (url : string) :
  adds_reads (load_dataset read_csv read_excel file url)
    (dataset_reads file url) /\
  never_raises (load_dataset read_csv read_excel file url).
Proof.
  destruct file as [f|]; cbn [load_dataset dataset_reads].
  - split; [|apply load_data_from_file_returns].
    intros w. apply load_data_from_file_requests.
  - unfold url_reads. destruct (String.eqb_spec url "") as [E|E]; cbn [negb].
    + split; [apply reads_ret | intros w; exists None; reflexivity].
    + split; intros w;
        destruct (load_data_from_url_request read_csv read_excel url w E)
          as [[q [Hq Hsrc]] Hr]; [|exact Hr].
      rewrite Hq, Hsrc. cbv zeta. destruct (_ || _); reflexivity.
Qed.

(** X11.  In one run of the page both datasets are attempted, the
    detentions first: the reads of [main] are the read for the
    detentions source followed by the read for the on-call source,
    whatever the readers return; normalising and rendering read
    nothing. *)
Theorem main_reads (inp : inputs) (w : World) :
  requests (fst (main read_csv read_excel parse_datetime show_num show_time
                   inp w))
  = requests w
    ++ dataset_reads (det_file inp) (det_sheet_url inp)
    ++ dataset_reads (on_file inp) (on_sheet_url inp).
Proof.
  revert w. change (adds_reads
    (main read_csv read_excel parse_datetime show_num show_time inp)
    (dataset_reads (det_file inp) (det_sheet_url inp)
     ++ dataset_reads (on_file inp) (on_sheet_url inp))).
  unfold main.
  do 10 (apply reads_after_emit; intros _).
  destruct (load_dataset_reads (det_file inp) (det_sheet_url inp))
    as [Hd1 Hd2].
  destruct (load_dataset_reads (on_file inp) (on_sheet_url inp))
    as [Ho1 _].
  apply (reads_bind_total _ _ _ _ Hd1 Hd2). intros det_df.
  apply (reads_bind_silent _ _ _ Ho1). intros on_df.
  apply reads_bind_silent.
  - destruct det_df as [r|]; [|apply reads_ret].
    apply reads_bind_silent; [apply prepare_detentions_silent|]. intros r'.
    apply reads_bind_silent; [apply reads_deref|]. intros d.
    apply reads_bind_silent; [apply render_detentions_silent|]. intros _.
    apply reads_ret.
  - intros det_df'. apply reads_bind_silent.
    + destruct on_df as [r|]; [|apply reads_ret].
      apply reads_bind_silent; [apply prepare_oncall_silent|]. intros r'.
      apply reads_bind_silent; [apply reads_deref|]. intros d.
      apply reads_bind_silent; [apply render_oncall_silent|]. intros _.
      apply reads_ret.
    + intros on_df'. destruct det_df', on_df';
        apply reads_ret || apply reads_emit.
Qed.

End Reads.

Section OncallHeadline.

Lemma str_contains_iff (pat : string) (c : cell) :
  str_contains pat c = true <-> text_contains pat c.
Proof.
  unfold text_contains. destruct c as [|s|z|t]; simpl.
  - split; [discriminate|]. intros [s [pre [post [E _]]]]. discriminate.
  - rewrite contains_iff. split.
    + intros [pre [post E]]. exists s, pre, post. auto.
    + intros [s' [pre [post [E E']]]]. injection E as ->. eauto.
  - split; [discriminate|]. intros [s [pre [post [E _]]]]. discriminate.
  - split; [discriminate|]. intros [s [pre [post [E _]]]]. discriminate.
Qed.

Lemma status_count_one (df : DataFrame) (status : Series) (pat : string) :
  select df "Status" = OneColumn status ->
  (exists s, In (Str s) status) ->
  status_count df pat
  = Ok (List.length (filter (str_contains pat) status)).
Proof.
  intros Hsel [s Hs]. unfold status_count.
  rewrite (getitem_one _ _ _ _ Hsel). cbn [obind]. unfold str_accessor.
  assert (E : existsb (fun c => match c with Str _ => true | _ => false end)
                status = true).
  { apply existsb_exists. exists (Str s). auto. }
  rewrite E. reflexivity.
Qed.

(** X12.  For an on-call frame that is not empty and whose [Status]
    column holds some text, the page starts with the header and the
    three metrics: the number of rows, the number of statuses in which
    "Resolved" occurs and the number in which "Unresolved" occurs, both
    with their case; a status that is missing or not a text counts for
    neither. *)
Theorem oncall_headline (df : DataFrame) (status : Series) (k1 k2 : nat) :
  empty df = false ->
  select df "Status" = OneColumn status ->
  (exists s, In (Str s) status) ->
  exactly (text_contains "Resolved") status k1 ->
  exactly (text_contains "Unresolved") status k2 ->
  exists rest,
    page (fst (render_oncall_dashboard df start))
    = [Header "On-Call Dashboard"; Columns 3;
       Metric "Total Incidents" (MCount (nrows df));
       Metric "Resolved" (MCount k1);
       Metric "Unresolved" (MCount k2)] ++ rest.
Proof.
  intros He Hsel Hstr H1 H2.
  assert (E1 : status_count df "Resolved" = Ok k1).
  { rewrite (status_count_one df status _ Hsel Hstr). f_equal.
    eapply exactly_unique; [|exact H1].
    apply exactly_filter, str_contains_iff. }
  assert (E2 : status_count df "Unresolved" = Ok k2).
  { rewrite (status_count_one df status _ Hsel Hstr). f_equal.
    eapply exactly_unique; [|exact H2].
    apply exactly_filter, str_contains_iff. }
  unfold render_oncall_dashboard, bind, emit, lift. simpl.
  rewrite He, E1, E2.
  destruct (has_column df "Type"); [destruct (type_counts df)|];
    (destruct (has_column df "DateTime"); [destruct (daily_incidents df)|]);
    simpl; eexists; reflexivity.
Qed.

End OncallHeadline.

Lemma oncall_headline_witness :
  exists rest,
    page (fst (render_oncall_dashboard incidents_three_rows start))
    = [Header "On-Call Dashboard"; Columns 3;
       Metric "Total Incidents" (MCount 3);
       Metric "Resolved" (MCount 1);
       Metric "Unresolved" (MCount 1)] ++ rest.
Proof.
  refine (oncall_headline incidents_three_rows
            [Str "Resolved"; Str "Unresolved"; Null] 1 1
            eq_refl eq_refl _ _ _).
  - exists "Resolved". left. reflexivity.
  - apply exactly_yes;
      [exists "Resolved", "", ""; split; reflexivity|].
    apply exactly_no.
    + intros [s [pre [post [E Hs]]]]. injection E as <-.
      assert (C : PyStr.contains "Resolved" "Unresolved" = true)
        by (apply contains_iff; eauto).
      discriminate C.
    + apply exactly_no; [|constructor].
      intros [s [pre [post [E _]]]]. discriminate E.
  - apply exactly_no.
    + intros [s [pre [post [E Hs]]]]. injection E as <-.
      assert (C : PyStr.contains "Unresolved" "Resolved" = true)
        by (apply contains_iff; eauto).
      discriminate C.
    + apply exactly_yes;
        [exists "Unresolved", "", ""; split; reflexivity|].
      apply exactly_no; [|constructor].
      intros [s [pre [post [E _]]]]. discriminate E.
Defined.

(* ================================================================== *)
(** * Rates and orders in the breakdowns *)
(* ================================================================== *)

Section Rates.

Context {K : Type}.
Variable K_eq_dec : forall a b : K, {a = b} + {a <> b}.
Variable K_leb : K -> K -> bool.

(** A group of [groupby] has a row. *)
Lemma groupby_nonempty {R} (key : R -> K) (rows : list R) (g : K * list R) :
  In g (groupby K_eq_dec K_leb key rows) -> snd g <> [].
Proof.
  intros Hg. pose proof (groupby_rows _ _ _ _ _ Hg) as Hrows.
  assert (Hk : In (fst g) (group_keys K_eq_dec K_leb (map key rows))).
  { rewrite <- groupby_keys. apply in_map, Hg. }
  apply group_keys_In in Hk. apply in_map_iff in Hk.
  destruct Hk as [r [Er Hr]].
  assert (Hin : In r (snd g)).
  { rewrite Hrows. apply filter_In. split; [exact Hr|].
    destruct (K_eq_dec (key r) (fst g)); [reflexivity | contradiction]. }
  intros E. rewrite E in Hin. contradiction.
Qed.

(** In a group whose rows all have a student, every row is issued, and
    the attended rows are among them. *)
Lemma detention_agg_fraction (rows : list (K * (cell * cell)))
  (g : detention_group K) :
  (forall r, In r rows -> notna (fst (snd r)) = true) ->
  In g (map detention_agg (groupby K_eq_dec K_leb fst rows)) ->
  0 < g_issued g /\ g_attended g <= g_issued g /\
  g_rate g = Finite (Z.of_nat (g_attended g) # Pos.of_nat (g_issued g)).
Proof.
  intros Hall Hg. apply in_map_iff in Hg. destruct Hg as [g0 [<- Hg0]].
  pose proof (groupby_nonempty fst rows g0 Hg0) as Hne.
  pose proof (groupby_rows _ _ _ _ _ Hg0) as Hrows.
  assert (Hissued : g_issued (detention_agg g0) = List.length (snd g0)).
  { cbn [detention_agg g_issued]. unfold count_notna.
    rewrite filter_map_length. f_equal.
    apply forallb_filter_id. apply forallb_forall. intros r Hr.
    apply Hall. rewrite Hrows in Hr. apply filter_In in Hr. apply Hr. }
  assert (Hatt : g_attended (detention_agg g0) <= List.length (snd g0)).
  { cbn [detention_agg g_attended]. rewrite filter_map_length.
    apply List.filter_length_le. }
  assert (Hpos : 0 < List.length (snd g0))
    by (destruct (snd g0); [contradiction | simpl; lia]).
  rewrite Hissued. repeat split; try assumption.
  cbn [detention_agg g_rate g_attended]. fold (count_notna
    (map (fun r : K * (cell * cell) => fst (snd r)) (snd g0))).
  change (count_notna (map (fun r : K * (cell * cell) => fst (snd r)) (snd g0)))
    with (g_issued (detention_agg g0)).
  rewrite Hissued. unfold truediv.
  destruct (List.length (snd g0)); [lia | reflexivity].
Qed.

End Rates.

Section RateResults.

Variable show_num : Z -> string.
Variable show_time : timestamp -> string.

Lemma combine_student_notna {A} (keys : list A) (student attendance : Series)
  (r : A * (cell * cell)) :
  forallb notna student = true ->
  In r (combine keys (combine student attendance)) ->
  notna (fst (snd r)) = true.
Proof.
  intros Hall Hr. destruct r as [k [s a]]. cbn [fst snd].
  apply in_combine_r in Hr. apply in_combine_l in Hr.
  rewrite forallb_forall in Hall. apply Hall, Hr.
Qed.

(** X13.  The rates are fractions between 0 and 1 in these cases.  In a
    frame whose columns have one cell per row, the headline count of
    attended detentions is at most the number of rows.  When no student
    is missing and some row has a Year (for the Year breakdown) or a
    date (for the day breakdown), every group of the breakdown has a
    positive Issued count, an Attended count that is at most Issued,
    and the fraction Attended/Issued as its rate, never an infinite or
    undefined one. *)
Theorem rates_are_fractions (df : DataFrame) :
  (well_formed df ->
   forall attendance,
     select df "Detention Attendance" = OneColumn attendance ->
     exists a, headline_attended show_num show_time df = Ok a /\
               a <= nrows df) /\
  (forall year student attendance,
      select df "Year" = OneColumn year ->
      select df "Student" = OneColumn student ->
      select df "Detention Attendance" = OneColumn attendance ->
      forallb notna student = true ->
      (exists r, In r (combine year (combine student attendance)) /\
                 fst r <> Null) ->
      exists groups,
        year_breakdown df = Ok groups /\
        groups <> [] /\
        forall g, In g groups ->
          0 < g_issued g /\ g_attended g <= g_issued g /\
          g_rate g
          = Finite (Z.of_nat (g_attended g) # Pos.of_nat (g_issued g))) /\
  (forall issued student attendance,
      select df "Issued Date" = OneColumn issued ->
      select df "Student" = OneColumn student ->
      select df "Detention Attendance" = OneColumn attendance ->
      forallb datetime_like issued = true ->
      forallb notna student = true ->
      (exists r, In r (combine issued (combine student attendance)) /\
                 fst r <> Null) ->
      exists groups,
        daily_detentions df = Ok groups /\
        groups <> [] /\
        forall g, In g groups ->
          0 < g_issued g /\ g_attended g <= g_issued g /\
          g_rate g
          = Finite (Z.of_nat (g_attended g) # Pos.of_nat (g_issued g))).
Proof.
  split; [|split].
  - intros Hwf attendance Hsel. eexists.
    split; [apply (headline_attended_one show_num show_time df _ Hsel)|].
    rewrite <- (Hwf _ (select_in _ _ _ Hsel)). cbn [snd].
    apply List.filter_length_le.
  - intros year student attendance Hy Hs Ha Hall Hrow. eexists.
    split; [apply (year_breakdown_some df _ _ _ Hy Hs Ha Hrow)|].
    split.
    + intros E. apply map_eq_nil, groupby_nil in E.
      destruct Hrow as [r [Hr Hn]].
      assert (Hin : In r (filter (fun r => notna (fst r))
                            (combine year (combine student attendance))))
        by (apply filter_In; split; [exact Hr | apply notna_iff, Hn]).
      rewrite E in Hin. exact Hin.
    + intros g Hg. eapply detention_agg_fraction; [|exact Hg].
      intros r Hr. apply filter_In in Hr. destruct Hr as [Hr _].
      eapply combine_student_notna; eassumption.
  - intros issued student attendance Hi Hs Ha Hd Hall Hrow. eexists.
    split; [apply (daily_detentions_some df _ _ _ Hi Hs Ha Hd Hrow)|].
    split.
    + intros E. apply map_eq_nil, groupby_nil, map_eq_nil in E.
      destruct Hrow as [r [Hr Hn]].
      assert (Hin : In r (filter (fun r => notna (fst r))
                            (combine issued (combine student attendance))))
        by (apply filter_In; split; [exact Hr | apply notna_iff, Hn]).
      rewrite E in Hin. exact Hin.
    + intros g Hg. eapply detention_agg_fraction; [|exact Hg].
      intros r Hr. apply in_map_iff in Hr. destruct Hr as [r0 [<- Hr0]].
      cbn [snd]. apply filter_In in Hr0. destruct Hr0 as [Hr0 _].
      eapply combine_student_notna; eassumption.
Qed.

Lemma insert_sorted_descending (x : cell * nat) (l : list (cell * nat)) :
  StronglySorted (fun a b : cell * nat => snd b <= snd a) l ->
  StronglySorted (fun a b : cell * nat => snd b <= snd a)
    (insert_sorted (fun a b : cell * nat => snd b <=? snd a) x l).
Proof.
  induction 1 as [|y l Hs IH Hall]; simpl.
  - constructor; constructor.
  - destruct (snd y <=? snd x) eqn:E.
    + apply Nat.leb_le in E. constructor.
      * constructor; assumption.
      * constructor; [exact E|].
        eapply Forall_impl; [|exact Hall]. intros; simpl in *; lia.
    + apply Nat.leb_gt in E. constructor; [exact IH|].
      eapply Permutation_Forall.
      * apply Permutation_sym, insert_sorted_perm.
      * constructor; [lia | exact Hall].
Qed.

(** X14.  The incident types come most frequent first: along the table
    the counts never increase, and every count is positive. *)
Theorem type_counts_descending (df : DataFrame) (types : Series) :
  select df "Type" = OneColumn types ->
  exists counts,
    type_counts df = Ok counts /\
    StronglySorted (fun a b : cell * nat => snd b <= snd a) counts /\
    forall k n, In (k, n) counts -> 0 < n.
Proof.
  intros Ht. exists (value_counts types).
  split; [unfold type_counts; rewrite (getitem_one _ _ _ _ Ht); reflexivity|].
  split.
  - unfold value_counts.
    generalize (map (fun v => (v, count_occ cell_eq_dec (filter notna types) v))
                  (first_seen (filter notna types))).
    intros l. induction l as [|x l IH]; simpl;
      [constructor | apply insert_sorted_descending, IH].
  - intros k n Hin.
    destruct (value_counts_spec types) as [_ [Hkeys [Hcount _]]].
    rewrite (Hcount k n Hin).
    assert (Hk : In k (map fst (value_counts types)))
      by (apply in_map_iff; exists (k, n); auto).
    apply Hkeys in Hk. destruct Hk as [Hk _].
    apply (count_occ_In cell_eq_dec). exact Hk.
Qed.

End RateResults.

Lemma rates_are_fractions_witness :
  (exists a,
      headline_attended sample_show_num sample_show_time detentions_dated
      = Ok a /\ a <= 3) /\
  (exists groups,
      year_breakdown detentions_dated = Ok groups /\
      groups <> [] /\
      forall g, In g groups ->
        0 < g_issued g /\ g_attended g <= g_issued g /\
        g_rate g
        = Finite (Z.of_nat (g_attended g) # Pos.of_nat (g_issued g))) /\
  (exists groups,
      daily_detentions detentions_dated = Ok groups /\
      groups <> [] /\
      forall g, In g groups ->
        0 < g_issued g /\ g_attended g <= g_issued g /\
        g_rate g
        = Finite (Z.of_nat (g_attended g) # Pos.of_nat (g_issued g))).
Proof.
  destruct (rates_are_fractions sample_show_num sample_show_time
              detentions_dated) as [H1 [H2 H3]].
  split; [|split].
  - refine (H1 _ [Str "Present"; Str "Absent"; Str "Present"] eq_refl).
    intros c [<- | [<- | [<- | [<- | []]]]]; reflexivity.
  - refine (H2 [Num 7; Num 8; Num 7] [Str "Ada"; Str "Bob"; Str "Cy"]
              [Str "Present"; Str "Absent"; Str "Present"]
              eq_refl eq_refl eq_refl eq_refl _).
    exists (Num 7, (Str "Ada", Str "Present")).
    split; [left; reflexivity | discriminate].
  - refine (H3 [Time {| ts_day := 19723; ts_ns := 5 |};
                Time {| ts_day := 19723; ts_ns := 9 |}; Null]
              [Str "Ada"; Str "Bob"; Str "Cy"]
              [Str "Present"; Str "Absent"; Str "Present"]
              eq_refl eq_refl eq_refl eq_refl eq_refl _).
    exists (Time {| ts_day := 19723; ts_ns := 5 |},
            (Str "Ada", Str "Present")).
    split; [left; reflexivity | discriminate].
Defined.

Lemma type_counts_descending_witness :
  exists counts,
    type_counts incidents_three_rows = Ok counts /\
    StronglySorted (fun a b : cell * nat => snd b <= snd a) counts /\
    forall k n, In (k, n) counts -> 0 < n.
Proof.
  exact (type_counts_descending incidents_three_rows
           [Str "Fight"; Str "Fight"; Str "Truancy"] eq_refl).
Defined.

(* ================================================================== *)
(** * Whole runs of the page script *)
(* ================================================================== *)

Section Runs.

Variable read_csv read_excel : source -> outcome DataFrame.
Variable parse_datetime : datetime_parser.
Variable show_num : Z -> string.
Variable show_time : timestamp -> string.

(** What the choice of a source does to the world, in full. *)
Lemma load_dataset_run (file : option UploadedFile) (url : string)
  (w : World) :
  load_dataset read_csv read_excel file url w
  = ({| objects := objects w
                   ++ frames_of (read_dataset read_csv read_excel file url);
        page := page w ++ dataset_messages read_csv read_excel file url;
        requests := requests w ++ dataset_reads file url |},
     Ok (match read_dataset read_csv read_excel file url with
         | Some _ => Some (List.length (objects w))
         | None => None
         end)).
Proof.
  destruct w as [objs pg rq].
  destruct file as [f|];
    cbn [load_dataset read_dataset dataset_messages dataset_reads].
  - unfold file_reads, file_reader, load_data_from_file, try_except.
    destruct (PyStr.endswith ".csv" (PyStr.lower (name f))).
    + unfold pd_read_csv, bind, log_request, lift, alloc, ret, emit. simpl.
      destruct (read_csv (FromFile f)); simpl;
        rewrite ?app_nil_r; reflexivity.
    + destruct (PyStr.endswith ".xlsx" (PyStr.lower (name f))
                || PyStr.endswith ".xls" (PyStr.lower (name f))).
      * unfold pd_read_excel, bind, log_request, lift, alloc, ret, emit.
        simpl. destruct (read_excel (FromFile f)); simpl;
          rewrite ?app_nil_r; reflexivity.
      * unfold bind, emit, ret. simpl. rewrite !app_nil_r. reflexivity.
  - unfold url_reads, url_reader, load_data_from_url, try_except.
    destruct (String.eqb url ""); cbn [negb].
    + unfold ret. simpl. rewrite !app_nil_r. reflexivity.
    + cbv zeta.
      destruct (PyStr.endswith ".xlsx"
                  (PyStr.lower (google_sheets_export (PyStr.strip url)))
                || PyStr.endswith ".xls"
                     (PyStr.lower (google_sheets_export (PyStr.strip url)))).
      * unfold pd_read_excel, bind, log_request, lift, alloc, ret, emit.
        simpl. destruct (read_excel _); simpl;
          rewrite ?app_nil_r; reflexivity.
      * unfold pd_read_csv, bind, log_request, lift, alloc, ret, emit.
        simpl. destruct (read_csv _); simpl;
          rewrite ?app_nil_r; reflexivity.
Qed.

Lemma dataset_messages_no_header (file : option UploadedFile) (url : string) :
  forallb (fun x => negb (is_header x))
    (dataset_messages read_csv read_excel file url) = true.
Proof.
  unfold dataset_messages. destruct file as [f|].
  - destruct (file_reads f); [reflexivity|].
    destruct (file_reader read_csv read_excel f); reflexivity.
  - destruct (String.eqb url ""); [reflexivity|].
    destruct (url_reader _ _ _); reflexivity.
Qed.

Lemma bind_emit {B} (x : widget) (k : unit -> M B) (w : World) :
  bind (emit x) k w
  = k tt {| objects := objects w; page := page w ++ [x];
            requests := requests w |}.
Proof. reflexivity. Qed.

(** The opening of every run. *)
Lemma main_opening (inp : inputs) (w : World) :
  main read_csv read_excel parse_datetime show_num show_time inp w
  = bind (load_dataset read_csv read_excel (det_file inp) (det_sheet_url inp))
      (fun det_df =>
       bind (load_dataset read_csv read_excel (on_file inp) (on_sheet_url inp))
         (fun on_df =>
          bind (match det_df with
                | Some r =>
                    r' <- prepare_detentions parse_datetime r ;;
                    d <- deref r' ;;
                    render_detentions_dashboard show_num show_time d ;;
                    ret (Some r')
                | None => ret None
                end)
            (fun det_df =>
             bind (match on_df with
                   | Some r =>
                       r' <- prepare_oncall parse_datetime r ;;
                       d <- deref r' ;;
                       render_oncall_dashboard d ;;
                       ret (Some r')
                   | None => ret None
                   end)
               (fun on_df =>
                match det_df, on_df with
                | None, None =>
                    emit closing_notice
                | _, _ => ret tt
                end))))
      {| objects := objects w; page := page w ++ opening;
         requests := requests w |}.
Proof.
  unfold main.
  do 10 (rewrite bind_emit; cbn [objects page requests]).
  do 9 rewrite <- app_assoc. reflexivity.
Qed.

(** X15. When neither dataset yields a frame (nothing asked for, an
    unsupported file, or a reader that raises), the run ends normally:
    no frame is stored, and the page is the opening widgets, then the
    loaders' messages, then the closing notice; no dashboard header is
    shown. *)
Theorem main_without_data (inp : inputs) (w : World) :
  read_dataset read_csv read_excel (det_file inp) (det_sheet_url inp) = None ->
  read_dataset read_csv read_excel (on_file inp) (on_sheet_url inp) = None ->
  main read_csv read_excel parse_datetime show_num show_time inp w
  = ({| objects := objects w;
        page := page w ++ opening
                ++ dataset_messages read_csv read_excel
                     (det_file inp) (det_sheet_url inp)
                ++ dataset_messages read_csv read_excel
                     (on_file inp) (on_sheet_url inp)
                ++ [closing_notice];
        requests := requests w
                    ++ dataset_reads (det_file inp) (det_sheet_url inp)
                    ++ dataset_reads (on_file inp) (on_sheet_url inp) |},
     Ok tt) /\
  forallb (fun x => negb (is_header x))
    (opening
     ++ dataset_messages read_csv read_excel (det_file inp) (det_sheet_url inp)
     ++ dataset_messages read_csv read_excel (on_file inp) (on_sheet_url inp)
     ++ [closing_notice]) = true.
Proof.
  intros Hdet Hon. split.
  - rewrite main_opening.
    unfold bind at 1. rewrite load_dataset_run, Hdet.
    cbn [objects page requests frames_of].
    unfold bind at 1. rewrite load_dataset_run, Hon.
    cbn [objects page requests frames_of].
    unfold bind, ret, emit, closing_notice. cbn [objects page requests].
    rewrite !app_nil_r, <- !app_assoc. reflexivity.
  - rewrite !forallb_app, !dataset_messages_no_header. reflexivity.
Qed.

End Runs.

Lemma main_without_data_witness :
  main sample_read failing_read sample_parse_datetime sample_show_num
    sample_show_time unsupported_inputs start
  = ({| objects := [];
        page := opening
                ++ [Error
                      "Unsupported file format. Please upload a CSV or Excel file."
                      None;
                    closing_notice];
        requests := [] |}, Ok tt).
Proof.
  exact (proj1 (main_without_data sample_read failing_read
                  sample_parse_datetime sample_show_num sample_show_time
                  unsupported_inputs start eq_refl eq_refl)).
Defined.

(* ================================================================== *)
(** * The two stages of a run, on any store *)
(* ================================================================== *)

Section StoreRuns.

Variable parse_datetime : datetime_parser.
Variable show_num : Z -> string.
Variable show_time : timestamp -> string.

Lemma nth_last_one {A} (l : list A) (x d : A) :
  nth (List.length l) (l ++ [x]) d = x.
Proof. apply nth_middle. Qed.

Lemma update_last_one {A} (l : list A) (x y : A) :
  update_nth (l ++ [x]) (List.length l) y = l ++ [y].
Proof. induction l as [|a l IH]; simpl; congruence. Qed.

Ltac store_step :=
  first
    [ progress cbn [objects page requests fst snd negb obind]
    | rewrite nth_last_one
    | rewrite update_last_one
    | match goal with
      | |- context [if has_column ?d ?c then _ else _] =>
          destruct (has_column d c) eqn:?
      | |- context [match to_datetime ?p ?d ?c with _ => _ end] =>
          destruct (to_datetime p d c)
      end ].

(** [prepare_detentions] on any store: the caller's frame has its labels
    trimmed in place, the frames made on the way are added at the end,
    and the last of them is the normalised frame. *)
Lemma prepare_detentions_run (w : World) (r : ref) :
  r < List.length (objects w) ->
  match normalised_detentions parse_datetime (nth r (objects w) empty_frame)
  with
  | Ok out =>
      exists extra,
        prepare_detentions parse_datetime r w
        = ({| objects :=
                update_nth (objects w) r
                  (set_labels (nth r (objects w) empty_frame) PyStr.strip)
                ++ extra ++ [out];
              page := page w; requests := requests w |},
           Ok (List.length (objects w) + List.length extra))
  | Raise e =>
      exists objs',
        prepare_detentions parse_datetime r w
        = ({| objects := objs'; page := page w; requests := requests w |},
           Raise e)
  end.
Proof.
  intros Hr. destruct w as [objs pg rq]. cbn [objects page requests] in *.
  unfold normalised_detentions, relabel_detentions, parse_dates.
  cbv [prepare_detentions for_each bind mutate deref alloc ret lift].
  cbn [objects page requests fst snd].
  destruct (index_str (labels (nth r objs empty_frame))) as [ls|e];
    [cbn [obind] | eexists; reflexivity].
  cbn [objects page requests fst snd].
  set (d1 := set_labels (nth r objs empty_frame) PyStr.strip).
  rewrite (nth_update_nth_eq objs r d1 empty_frame Hr).
  assert (HO : List.length (update_nth objs r d1) = List.length objs)
    by apply length_update_nth.
  revert HO. generalize (update_nth objs r d1) as O1. intros O1 HO.
  set (d2 := rename d1 detentions_rename_map).
  rewrite !nth_last_one.
  destruct (has_column d2 "Detention Attendance"); cbn [negb];
    [|destruct (filter _ (labels d2)) as [|c0 cs]];
    repeat store_step;
    try (eexists; reflexivity);
    try (exists []; rewrite HO, Nat.add_0_r; reflexivity);
    try (exists [d2]; rewrite length_app, HO, <- app_assoc; reflexivity).
Qed.

Lemma prepare_oncall_run (w : World) (r : ref) :
  match normalised_oncall parse_datetime (nth r (objects w) empty_frame) with
  | Ok out =>
      prepare_oncall parse_datetime r w
      = ({| objects := objects w ++ [out];
            page := page w; requests := requests w |},
         Ok (List.length (objects w)))
  | Raise e =>
      exists objs',
        prepare_oncall parse_datetime r w
        = ({| objects := objs'; page := page w; requests := requests w |},
           Raise e)
  end.
Proof.
  destruct w as [objs pg rq]. cbn [objects page requests] in *.
  unfold normalised_oncall, parse_dates.
  cbv [prepare_oncall bind mutate deref alloc ret lift].
  cbn [objects page requests fst snd].
  rewrite !nth_last_one.
  repeat store_step; try (eexists; reflexivity); reflexivity.
Qed.

End StoreRuns.

Section StageRuns.

Variable read_csv read_excel : source -> outcome DataFrame.
Variable parse_datetime : datetime_parser.
Variable show_num : Z -> string.
Variable show_time : timestamp -> string.

Lemma render_detentions_run (d : DataFrame) (w : World) :
  render_detentions_dashboard show_num show_time d w
  = ({| objects := objects w;
        page := page w
                ++ page (fst (render_detentions_dashboard show_num show_time
                                d start));
        requests := requests w |},
     snd (render_detentions_dashboard show_num show_time d start)).
Proof.
  destruct (render_detentions_appends show_num show_time d) as [ws [o H]].
  exact (appends_at_start _ ws o w H).
Qed.

Lemma render_oncall_run (d : DataFrame) (w : World) :
  render_oncall_dashboard d w
  = ({| objects := objects w;
        page := page w ++ page (fst (render_oncall_dashboard d start));
        requests := requests w |},
     snd (render_oncall_dashboard d start)).
Proof.
  destruct (render_oncall_appends d) as [ws [o H]].
  exact (appends_at_start _ ws o w H).
Qed.

(** The detentions stage of [main] on any store. *)
Lemma detentions_stage_run (w : World) (r : ref) :
  r < List.length (objects w) ->
  exists objs' o,
    (r' <- prepare_detentions parse_datetime r ;;
     d <- deref r' ;;
     render_detentions_dashboard show_num show_time d ;;
     ret (Some r')) w
    = ({| objects := objs';
          page := page w
                  ++ fst (stage (normalised_detentions parse_datetime)
                            (render_detentions_dashboard show_num show_time)
                            (Some (nth r (objects w) empty_frame)));
          requests := requests w |}, o) /\
    match snd (stage (normalised_detentions parse_datetime)
                 (render_detentions_dashboard show_num show_time)
                 (Some (nth r (objects w) empty_frame))) with
    | Ok _ =>
        (exists r', o = Ok (Some r')) /\
        forall i, i < List.length (objects w) -> i <> r ->
                  nth i objs' empty_frame = nth i (objects w) empty_frame
    | Raise e => o = Raise e
    end.
Proof.
  intros Hr. unfold stage.
  pose proof (prepare_detentions_run parse_datetime w r Hr) as H.
  destruct (normalised_detentions parse_datetime
              (nth r (objects w) empty_frame)) as [out|e].
  - destruct H as [extra H].
    unfold bind at 1. rewrite H.
    unfold bind at 1, deref. cbn [objects page requests].
    assert (Hn : nth (List.length (objects w) + List.length extra)
                   (update_nth (objects w) r
                      (set_labels (nth r (objects w) empty_frame) PyStr.strip)
                    ++ extra ++ [out]) empty_frame = out).
    { rewrite app_assoc.
      replace (List.length (objects w) + List.length extra)
        with (List.length
                (update_nth (objects w) r
                   (set_labels (nth r (objects w) empty_frame) PyStr.strip)
                 ++ extra))
        by (rewrite length_app, length_update_nth; reflexivity).
      apply nth_last_one. }
    rewrite Hn. unfold bind, ret. rewrite render_detentions_run.
    cbn [objects page requests fst snd].
    destruct (snd (render_detentions_dashboard show_num show_time out start))
      as [[]|e]; (do 2 eexists; split; [reflexivity|]); [|reflexivity].
    split; [eexists; reflexivity|].
    intros i Hi Hne.
    rewrite app_nth1 by (rewrite length_update_nth; exact Hi).
    apply nth_update_nth_ne. intros E. apply Hne. symmetry. exact E.
  - destruct H as [objs' H]. unfold bind at 1. rewrite H.
    cbn [fst snd]. rewrite app_nil_r. do 2 eexists. split; reflexivity.
Qed.

(** The on-call stage of [main] on any store. *)
Lemma oncall_stage_run (w : World) (r : ref) :
  exists objs' o,
    (r' <- prepare_oncall parse_datetime r ;;
     d <- deref r' ;;
     render_oncall_dashboard d ;;
     ret (Some r')) w
    = ({| objects := objs';
          page := page w
                  ++ fst (stage (normalised_oncall parse_datetime)
                            render_oncall_dashboard
                            (Some (nth r (objects w) empty_frame)));
          requests := requests w |}, o) /\
    match snd (stage (normalised_oncall parse_datetime)
                 render_oncall_dashboard
                 (Some (nth r (objects w) empty_frame))) with
    | Ok _ => exists r', o = Ok (Some r')
    | Raise e => o = Raise e
    end.
Proof.
  unfold stage.
  pose proof (prepare_oncall_run parse_datetime w r) as H.
  destruct (normalised_oncall parse_datetime
              (nth r (objects w) empty_frame)) as [out|e].
  - unfold bind at 1. rewrite H.
    unfold bind at 1, deref. cbn [objects page requests].
    rewrite nth_last_one. unfold bind, ret. rewrite render_oncall_run.
    cbn [objects page requests fst snd].
    destruct (snd (render_oncall_dashboard out start)) as [[]|e];
      (do 2 eexists; split; [reflexivity|]); [eexists|]; reflexivity.
  - destruct H as [objs' H]. unfold bind at 1. rewrite H.
    cbn [fst snd]. rewrite app_nil_r. do 2 eexists. split; reflexivity.
Qed.

End StageRuns.

Section FullRuns.

Variable read_csv read_excel : source -> outcome DataFrame.
Variable parse_datetime : datetime_parser.
Variable show_num : Z -> string.
Variable show_time : timestamp -> string.

(** A run of [main], stage by stage. *)
Lemma main_stages (inp : inputs) (w : World) :
  exists objs',
    main read_csv read_excel parse_datetime show_num show_time inp w
    = ({| objects := objs';
          page :=
            page w ++ opening
            ++ dataset_messages read_csv read_excel
                 (det_file inp) (det_sheet_url inp)
            ++ dataset_messages read_csv read_excel
                 (on_file inp) (on_sheet_url inp)
            ++ stages_page
                 (read_dataset read_csv read_excel
                    (det_file inp) (det_sheet_url inp))
                 (read_dataset read_csv read_excel
                    (on_file inp) (on_sheet_url inp))
                 (stage (normalised_detentions parse_datetime)
                    (render_detentions_dashboard show_num show_time)
                    (read_dataset read_csv read_excel
                       (det_file inp) (det_sheet_url inp)))
                 (stage (normalised_oncall parse_datetime)
                    render_oncall_dashboard
                    (read_dataset read_csv read_excel
                       (on_file inp) (on_sheet_url inp)));
          requests :=
            requests w
            ++ dataset_reads (det_file inp) (det_sheet_url inp)
            ++ dataset_reads (on_file inp) (on_sheet_url inp) |},
       obind
         (snd (stage (normalised_detentions parse_datetime)
                 (render_detentions_dashboard show_num show_time)
                 (read_dataset read_csv read_excel
                    (det_file inp) (det_sheet_url inp))))
         (fun _ =>
          snd (stage (normalised_oncall parse_datetime)
                 render_oncall_dashboard
                 (read_dataset read_csv read_excel
                    (on_file inp) (on_sheet_url inp))))).
Proof.
  rewrite main_opening.
  unfold bind at 1. rewrite load_dataset_run. cbn [objects page requests].
  unfold bind at 1. rewrite load_dataset_run. cbn [objects page requests].
  generalize (dataset_messages read_csv read_excel
                (det_file inp) (det_sheet_url inp)) as md.
  generalize (dataset_messages read_csv read_excel
                (on_file inp) (on_sheet_url inp)) as mo.
  generalize (dataset_reads (det_file inp) (det_sheet_url inp)) as qd.
  generalize (dataset_reads (on_file inp) (on_sheet_url inp)) as qo.
  intros qo qd mo md.
  destruct (read_dataset read_csv read_excel
              (det_file inp) (det_sheet_url inp)) as [dfd|];
    destruct (read_dataset read_csv read_excel
                (on_file inp) (on_sheet_url inp)) as [dfo|];
    cbn [frames_of].
  - unfold bind at 1.
    match goal with
    | |- context [_ ?W] =>
        lazymatch W with
        | Build_World _ _ _ =>
            destruct (detentions_stage_run parse_datetime show_num show_time
                        W (List.length (objects w)))
              as (objs1 & o1 & E & Ho)
        end
    end.
    { cbn [objects]. rewrite !length_app. simpl. lia. }
    cbn [objects page requests] in E, Ho.
    assert (Hd : nth (List.length (objects w))
                   ((objects w ++ [dfd]) ++ [dfo]) empty_frame = dfd).
    { rewrite app_nth1 by (rewrite length_app; simpl; lia).
      apply nth_last_one. }
    rewrite Hd in E, Ho. rewrite E. clear E.
    destruct (stage (normalised_detentions parse_datetime)
                (render_detentions_dashboard show_num show_time) (Some dfd))
      as [wsd [[]|e]]; cbn [fst snd] in *.
    + destruct Ho as [[r' ->] Hframe].
      unfold bind at 1.
      match goal with
      | |- context [_ ?W] =>
          lazymatch W with
          | Build_World _ _ _ =>
              destruct (oncall_stage_run parse_datetime W
                          (List.length (objects w ++ [dfd])))
                as (objs2 & o2 & E2 & Ho2)
          end
      end.
      cbn [objects page requests] in E2, Ho2.
      assert (Ho' : nth (List.length (objects w ++ [dfd])) objs1 empty_frame
                    = dfo).
      { rewrite Hframe.
        - apply nth_last_one.
        - rewrite !length_app. simpl. lia.
        - rewrite length_app. simpl. lia. }
      rewrite Ho' in E2, Ho2. rewrite E2. clear E2.
      destruct (stage (normalised_oncall parse_datetime)
                  render_oncall_dashboard (Some dfo))
        as [wso [[]|e]]; cbn [fst snd] in *.
      * destruct Ho2 as [r2 ->]. eexists. unfold stages_page, ret.
        cbn [fst snd obind]. rewrite ?app_nil_r, <- ?app_assoc. reflexivity.
      * subst o2. eexists. unfold stages_page.
        cbn [fst snd obind]. rewrite ?app_nil_r, <- ?app_assoc. reflexivity.
    + subst o1. eexists. unfold stages_page.
      cbn [fst snd obind]. rewrite ?app_nil_r, <- ?app_assoc. reflexivity.
  - rewrite app_nil_r. unfold bind at 1.
    match goal with
    | |- context [_ ?W] =>
        lazymatch W with
        | Build_World _ _ _ =>
            destruct (detentions_stage_run parse_datetime show_num show_time
                        W (List.length (objects w)))
              as (objs1 & o1 & E & Ho)
        end
    end.
    { cbn [objects]. rewrite !length_app. simpl. lia. }
    cbn [objects page requests] in E, Ho.
    rewrite nth_last_one in E, Ho. rewrite E. clear E.
    destruct (stage (normalised_detentions parse_datetime)
                (render_detentions_dashboard show_num show_time) (Some dfd))
      as [wsd [[]|e]]; cbn [fst snd] in *.
    + destruct Ho as [[r' ->] _]. eexists. unfold stages_page, stage, bind, ret.
      cbn [fst snd obind]. rewrite ?app_nil_r, <- ?app_assoc. reflexivity.
    + subst o1. eexists. unfold stages_page.
      cbn [fst snd obind]. rewrite ?app_nil_r, <- ?app_assoc. reflexivity.
  - unfold bind at 1, ret at 1. unfold bind at 1.
    match goal with
    | |- context [_ ?W] =>
        lazymatch W with
        | Build_World _ _ _ =>
            destruct (oncall_stage_run parse_datetime W
                        (List.length (objects w ++ [])))
              as (objs2 & o2 & E2 & Ho2)
        end
    end.
    cbn [objects page requests] in E2, Ho2.
    rewrite nth_last_one in E2, Ho2. rewrite E2. clear E2.
    destruct (stage (normalised_oncall parse_datetime)
                render_oncall_dashboard (Some dfo))
      as [wso [[]|e]]; cbn [fst snd] in *.
    + destruct Ho2 as [r2 ->]. eexists. unfold stages_page, stage, ret.
      cbn [fst snd obind]. rewrite ?app_nil_r, <- ?app_assoc. reflexivity.
    + subst o2. eexists. unfold stages_page, stage.
      cbn [fst snd obind]. rewrite ?app_nil_r, <- ?app_assoc. reflexivity.
  - eexists. unfold stages_page, stage, bind, ret, emit.
    cbn [fst snd obind objects page requests].
    rewrite ?app_nil_r, <- ?app_assoc. reflexivity.
Qed.

Lemma read_dataset_silent (file : option UploadedFile) (url : string)
  (df : DataFrame) :
  read_dataset read_csv read_excel file url = Some df ->
  dataset_messages read_csv read_excel file url = [].
Proof.
  unfold read_dataset, dataset_messages. destruct file as [f|].
  - destruct (file_reads f); [discriminate|].
    destruct (file_reader read_csv read_excel f); [reflexivity|discriminate].
  - destruct (String.eqb url ""); [reflexivity|].
    destruct (url_reader _ _ _); [reflexivity|discriminate].
Qed.

(** X16. An exception in the detentions stage, from the normaliser or
    from the dashboard, is not caught: the run ends with it, and the
    page ends with what the detentions stage had drawn; the on-call
    frame, loaded or not, is neither normalised nor shown. *)
Theorem detentions_failure_stops_run (inp : inputs) (w : World)
  (df : DataFrame) (e : exn) :
  read_dataset read_csv read_excel (det_file inp) (det_sheet_url inp)
  = Some df ->
  snd (stage (normalised_detentions parse_datetime)
         (render_detentions_dashboard show_num show_time) (Some df))
  = Raise e ->
  snd (main read_csv read_excel parse_datetime show_num show_time inp w)
  = Raise e /\
  page (fst (main read_csv read_excel parse_datetime show_num show_time
               inp w))
  = page w ++ opening
    ++ dataset_messages read_csv read_excel (on_file inp) (on_sheet_url inp)
    ++ fst (stage (normalised_detentions parse_datetime)
              (render_detentions_dashboard show_num show_time) (Some df)).
Proof.
  intros Hdet Hstage.
  destruct (main_stages inp w) as [objs' H]. rewrite H. clear H.
  rewrite (read_dataset_silent _ _ df Hdet), Hdet.
  unfold stages_page. rewrite Hstage. cbn [fst snd obind].
  rewrite app_nil_r. split; reflexivity.
Qed.


End FullRuns.

Lemma detentions_failure_stops_run_witness :
  snd (main repeated_read incidents_read sample_parse_datetime sample_show_num
         sample_show_time both_inputs start)
  = Raise ValueError /\
  page (fst (main repeated_read incidents_read sample_parse_datetime
               sample_show_num sample_show_time both_inputs start))
  = opening.
Proof.
  exact (detentions_failure_stops_run repeated_read incidents_read
           sample_parse_datetime sample_show_num sample_show_time
           both_inputs start detentions_repeated_date ValueError
           eq_refl eq_refl).
Defined.


Section Precedence.

Variable read_csv read_excel : source -> outcome DataFrame.
Variable parse_datetime : datetime_parser.
Variable show_num : Z -> string.
Variable show_time : timestamp -> string.

(** C10.  For each dataset an uploaded file takes precedence over the
    link.  With a file for the detentions, the reads of the run are the
    read of that file (none for a file of another extension) followed
    by the reads for the incidents, never a read of the detentions
    link; the run is the same whatever that link says; and when the
    file yields a frame, the detentions stage of the page is the one of
    that frame.  The same holds for the incidents.  Without a file the
    link is read, exactly when it is not empty. *)
Theorem file_takes_precedence (inp : inputs) (f : UploadedFile) (w : World) :
  (det_file inp = Some f ->
   requests (fst (main read_csv read_excel parse_datetime show_num show_time
                    inp w))
   = requests w ++ file_reads f
     ++ dataset_reads (on_file inp) (on_sheet_url inp) /\
   (forall url',
       main read_csv read_excel parse_datetime show_num show_time
         {| det_file := det_file inp; on_file := on_file inp;
            det_sheet_url := url'; on_sheet_url := on_sheet_url inp |} w
       = main read_csv read_excel parse_datetime show_num show_time inp w) /\
   (forall df,
       file_reads f <> [] -> file_reader read_csv read_excel f = Ok df ->
       page (fst (main read_csv read_excel parse_datetime show_num show_time
                    inp w))
       = page w ++ opening
         ++ dataset_messages read_csv read_excel
              (on_file inp) (on_sheet_url inp)
         ++ stages_page (Some df)
              (read_dataset read_csv read_excel
                 (on_file inp) (on_sheet_url inp))
              (stage (normalised_detentions parse_datetime)
                 (render_detentions_dashboard show_num show_time) (Some df))
              (stage (normalised_oncall parse_datetime)
                 render_oncall_dashboard
                 (read_dataset read_csv read_excel
                    (on_file inp) (on_sheet_url inp))))) /\
  (on_file inp = Some f ->
   requests (fst (main read_csv read_excel parse_datetime show_num show_time
                    inp w))
   = requests w ++ dataset_reads (det_file inp) (det_sheet_url inp)
     ++ file_reads f /\
   (forall url',
       main read_csv read_excel parse_datetime show_num show_time
         {| det_file := det_file inp; on_file := on_file inp;
            det_sheet_url := det_sheet_url inp; on_sheet_url := url' |} w
       = main read_csv read_excel parse_datetime show_num show_time inp w) /\
   (forall df,
       file_reads f <> [] -> file_reader read_csv read_excel f = Ok df ->
       page (fst (main read_csv read_excel parse_datetime show_num show_time
                    inp w))
       = page w ++ opening
         ++ dataset_messages read_csv read_excel
              (det_file inp) (det_sheet_url inp)
         ++ stages_page
              (read_dataset read_csv read_excel
                 (det_file inp) (det_sheet_url inp))
              (Some df)
              (stage (normalised_detentions parse_datetime)
                 (render_detentions_dashboard show_num show_time)
                 (read_dataset read_csv read_excel
                    (det_file inp) (det_sheet_url inp)))
              (stage (normalised_oncall parse_datetime)
                 render_oncall_dashboard (Some df)))) /\
  (det_file inp = None ->
   requests (fst (main read_csv read_excel parse_datetime show_num show_time
                    inp w))
   = requests w ++ url_reads (det_sheet_url inp)
     ++ dataset_reads (on_file inp) (on_sheet_url inp)) /\
  (on_file inp = None ->
   requests (fst (main read_csv read_excel parse_datetime show_num show_time
                    inp w))
   = requests w ++ dataset_reads (det_file inp) (det_sheet_url inp)
     ++ url_reads (on_sheet_url inp)).
Proof.
  destruct (main_stages read_csv read_excel parse_datetime show_num show_time
              inp w) as [objs' H].
  split; [|split; [|split]].
  - intros Hf. split; [|split].
    + rewrite H, Hf. reflexivity.
    + intros url'. unfold main.
      cbn [det_file on_file det_sheet_url on_sheet_url]. rewrite Hf.
      reflexivity.
    + intros df Hreads Hdf. rewrite H, Hf. cbn [fst page].
      assert (Hread : read_dataset read_csv read_excel (Some f)
                        (det_sheet_url inp) = Some df).
      { cbn [read_dataset]. rewrite Hdf.
        destruct (file_reads f); [congruence | reflexivity]. }
      rewrite (read_dataset_silent _ _ _ _ _ Hread), Hread. reflexivity.
  - intros Hf. split; [|split].
    + rewrite H, Hf. reflexivity.
    + intros url'. unfold main.
      cbn [det_file on_file det_sheet_url on_sheet_url]. rewrite Hf.
      reflexivity.
    + intros df Hreads Hdf. rewrite H, Hf. cbn [fst page].
      assert (Hread : read_dataset read_csv read_excel (Some f)
                        (on_sheet_url inp) = Some df).
      { cbn [read_dataset]. rewrite Hdf.
        destruct (file_reads f); [congruence | reflexivity]. }
      rewrite (read_dataset_silent _ _ _ _ _ Hread), Hread. reflexivity.
  - intros Hf. rewrite H, Hf. reflexivity.
  - intros Hf. rewrite H, Hf. reflexivity.
Qed.

End Precedence.

Lemma file_takes_precedence_witness :
  requests (fst (main file_or_link_read file_or_link_read
                   sample_parse_datetime sample_show_num sample_show_time
                   file_and_link_inputs start))
  = [ReadCsv (FromFile sample_upload)] /\
  page (fst (main file_or_link_read file_or_link_read
               sample_parse_datetime sample_show_num sample_show_time
               file_and_link_inputs start))
  = opening
    ++ page (fst (render_detentions_dashboard sample_show_num
                    sample_show_time detentions_three_rows start)).
Proof.
  destruct (proj1 (file_takes_precedence file_or_link_read file_or_link_read
                     sample_parse_datetime sample_show_num sample_show_time
                     file_and_link_inputs sample_upload start) eq_refl)
    as [H1 [_ H3]].
  split; [exact H1|].
  refine (H3 detentions_three_rows _ eq_refl). discriminate.
Defined.
